(** * Erf AI: the model runtime adapter and the HTTP controllers

    A shallow embedding of [src/services/aiService.js] (the process-wide
    [AIService] singleton), of the AI, auth and dataset controllers, of the
    authentication middleware and the token utilities, and of the fragment
    of JavaScript, of the tensor library and of the document store that
    they rely on.

    Conventions.
    - A JavaScript exception is a value [Throw e]; a method of the service is
      a function from the runtime state to an outcome and a new state, and the
      state survives a throw, as the mutations of [this] do in JavaScript.
    - The numbers that the model outputs are [Num]: a rational for a finite
      value, the two infinities and [NaN]; training data and losses are
      rationals; indices and counters are [nat] or [Z].
    - The tensor library is an interface ([TensorLib]): what it accepts and
      what it computes is left open, what the service does with it is not.
    - The document store is a list of documents in memory: a query or a
      write on which the database itself fails is outside the model.
    - [console.log] and [console.error] lines are not modelled, except the
      warnings of [createModelFromArchitecture]. *)

From Stdlib Require Import String Ascii List ZArith QArith Qminmax Qround.
From Stdlib Require Import Bool Lia Lqa.
From Stdlib Require Import Permutation.
From Stdlib Require DecimalString DecimalNat.
Import ListNotations.
Local Close Scope Q_scope.
Local Open Scope nat_scope.
Local Open Scope string_scope.
Local Open Scope list_scope.
Local Set Warnings "-register-all".

Set Implicit Arguments.

(* ================================================================== *)
(** ** JavaScript fragment *)
(* ================================================================== *)

Module Js.

Inductive Error :=
| TypeError (msg : string)
| PlainError (msg : string)
| LibraryError (msg : string)
| ValidationError (msg : string).

Inductive Result (A : Type) :=
| Ok (a : A)
| Throw (e : Error).
Arguments Ok {A} a.
Arguments Throw {A} e.

(** Values that travel in request bodies and layer configurations. *)
Inductive Val :=
| VUndefined
| VNull
| VBool (b : bool)
| VNum (q : Q)
| VStr (s : string)
| VArr (xs : list Val)
| VObj (props : list (string * Val)).

(** A number that a computation of the library produces: a rational stands
    for a finite value, and the three values that are not finite are
    apart. *)
Inductive Num :=
| Finite (q : Q)
| PosInfinity
| NegInfinity
| NaN.

Definition Qgtb (a b : Q) : bool :=
  match Qcompare a b with Gt => true | _ => false end.

(** [a > b]: false as soon as an operand is [NaN]. *)
Definition num_gtb (a b : Num) : bool :=
  match a, b with
  | NaN, _ | _, NaN => false
  | Finite x, Finite y => Qgtb x y
  | Finite _, NegInfinity => true
  | Finite _, PosInfinity => false
  | PosInfinity, PosInfinity => false
  | PosInfinity, _ => true
  | NegInfinity, _ => false
  end.

(** [1 - a]. *)
Definition one_minus (a : Num) : Num :=
  match a with
  | Finite q => Finite (1 - q)%Q
  | PosInfinity => NegInfinity
  | NegInfinity => PosInfinity
  | NaN => NaN
  end.

(** The order of the numbers other than [NaN]. *)
Definition num_le (a b : Num) : Prop :=
  match a, b with
  | NaN, _ | _, NaN => False
  | NegInfinity, _ => True
  | _, PosInfinity => True
  | Finite x, Finite y => (x <= y)%Q
  | _, _ => False
  end.

(** An object: its properties, each key bound once ([obj_set] replaces). *)
Definition Obj := list (string * Val).

Fixpoint obj_get (o : Obj) (k : string) : option Val :=
  match o with
  | [] => None
  | (k', v) :: o' => if String.eqb k k' then Some v else obj_get o' k
  end.

Definition obj_set (o : Obj) (k : string) (v : Val) : Obj :=
  (k, v) :: filter (fun kv => negb (String.eqb k (fst kv))) o.

Definition obj_prop (o : Obj) (k : string) : Val :=
  match obj_get o k with Some v => v | None => VUndefined end.

(** [ToBoolean]. *)
Definition truthy (v : Val) : bool :=
  match v with
  | VUndefined | VNull => false
  | VBool b => b
  | VNum q => negb (Qeq_bool q 0%Q)
  | VStr s => negb (String.eqb s EmptyString)
  | VArr _ | VObj _ => true
  end.

(** [a || b] on values. *)
Definition val_or (a b : Val) : Val := if truthy a then a else b.

(** [s || d] on strings: the empty string is falsy. *)
Definition str_or (s : option string) (d : string) : string :=
  match s with
  | Some EmptyString => d
  | Some s' => s'
  | None => d
  end.

(** [String.prototype.startsWith]. *)
Definition startsWith (s p : string) : bool := String.prefix p s.

(** [String.prototype.toLowerCase] on the ASCII range. *)
Definition lower_ascii (c : ascii) : ascii :=
  let n := nat_of_ascii c in
  if andb (Nat.leb 65 n) (Nat.leb n 90) then ascii_of_nat (n + 32) else c.

Fixpoint toLowerCase (s : string) : string :=
  match s with
  | EmptyString => EmptyString
  | String c s' => String (lower_ascii c) (toLowerCase s')
  end.

(** Decimal form of a non-negative integer, as [Number.prototype.toString]
    prints it. *)
Definition nat_toString (n : nat) : string :=
  DecimalString.NilZero.string_of_uint (Nat.to_uint n).

(** [Array.prototype.join(",")] on an array of non-negative integers; it is
    also what [ToPrimitive] returns for such an array. *)
Fixpoint join_comma (xs : list nat) : string :=
  match xs with
  | [] => EmptyString
  | [x] => nat_toString x
  | x :: xs' => nat_toString x ++ "," ++ join_comma xs'
  end.

(** [arr + n] where [arr] is an array and [n] a number: both operands are
    converted to primitives, the array becomes a string, so [+] is string
    concatenation. *)
Definition array_plus_number (arr : list nat) (n : nat) : string :=
  join_comma arr ++ nat_toString n.

(** [xs[key]] for an array [xs] and a property key obtained from an array:
    the key names an element only when it is the canonical decimal form of
    an index; otherwise the property is missing and the value is
    [undefined]. *)
Definition index_by_key {A} (xs : list A) (key : string) : option A :=
  match DecimalString.NilZero.uint_of_string key with
  | Some u =>
      let i := Nat.of_uint u in
      if String.eqb (nat_toString i) key then nth_error xs i else None
  | None => None
  end.

(** [Number(s)] for the strings that arise here (digits and commas): a
    non-empty run of decimal digits is that number, the empty string is 0,
    anything else is [NaN] ([None]). *)
Definition number_of_string (s : string) : option nat :=
  match s with
  | EmptyString => Some 0
  | _ => option_map Nat.of_uint (DecimalString.NilEmpty.uint_of_string s)
  end.

(** *** Computations over a mutable state that may throw

    The state is returned in both cases: what a JavaScript function has
    assigned before it throws stays assigned. *)

Definition SE (S A : Type) := S -> Result A * S.

Definition ret {S A} (a : A) : SE S A := fun r => (Ok a, r).
Definition throw {S A} (e : Error) : SE S A := fun r => (Throw e, r).
Definition lift {S A} (x : Result A) : SE S A := fun r => (x, r).

Definition bind {S A B} (c : SE S A) (k : A -> SE S B) : SE S B :=
  fun r =>
    match c r with
    | (Ok a, r') => k a r'
    | (Throw e, r') => (Throw e, r')
    end.

(** [try { c } catch (error) { h(error) }]. *)
Definition try_catch {S A} (c : SE S A) (h : Error -> SE S A) : SE S A :=
  fun r =>
    match c r with
    | (Ok a, r') => (Ok a, r')
    | (Throw e, r') => h e r'
    end.

(** [error.message]. *)
Definition message (e : Error) : string :=
  match e with
  | TypeError m | PlainError m | LibraryError m | ValidationError m => m
  end.

End Js.
Import Js.

Declare Scope se_scope.
Delimit Scope se_scope with se.
Notation "x <- c ;; k" := (bind c (fun x => k))
  (at level 61, c at next level, right associativity) : se_scope.
Notation "c ;; k" := (bind c (fun _ => k))
  (at level 61, right associativity) : se_scope.
Local Open Scope se_scope.

(* ================================================================== *)
(** ** The tensor library, as the service sees it *)
(* ================================================================== *)

Module Tf.

Definition Config := Js.Obj.

(** A layer object: [getClassName()], the configuration it was constructed
    from, and the mutable [trainable] flag (a value used as a condition). *)
Record Layer := mkLayer {
  className : string;
  config : Config;
  trainable : bool
}.

(** The flag that a layer constructor takes from its argument:
    [args.trainable == null ? true : args.trainable]. *)
Definition trainable_of (cfg : Config) : bool :=
  match obj_prop cfg "trainable" with
  | VUndefined | VNull => true
  | v => truthy v
  end.

(** [layer.getConfig()]: the configuration, with the present value of the
    flag under [trainable]. *)
Definition getConfig (l : Layer) : Config :=
  obj_set (config l) "trainable" (VBool (trainable l)).

Record CompileArgs := mkCompileArgs {
  optimizer : string;
  loss : string;
  metrics : list string;
  learningRate : option Q
}.

(** A layers model: its [layers] array and [model.optimizer], as the
    arguments of the [compile] that has set it, [None] when the model has no
    optimizer. *)
Record Model := mkModel {
  layers : list Layer;
  compiled : option CompileArgs
}.

Definition sequential : Model := mkModel [] None.

Record FitArgs := mkFitArgs {
  fit_epochs : nat;
  fit_batchSize : nat;
  fit_validationSplit : Q
}.

(** The [History] object that [model.fit] resolves to: [epoch] is the list
    of completed epoch indices, [history.loss] and [history.acc] hold one
    value per epoch. *)
Record FitResult := mkFitResult {
  epoch : list nat;
  history_loss : list Q;
  history_acc : list Q
}.

(** The second argument of [onEpochEnd]: [logs.loss] and [logs.acc], [None]
    where [logs] has no such property. *)
Record Logs := mkLogs {
  log_loss : option Q;
  log_acc : option Q
}.

(** The logs of the epoch at position [i] of [epoch]: the history holds,
    under each key, what the logs of the successive epochs held under it. *)
Definition logs_at (r : FitResult) (i : nat) : Logs :=
  mkLogs (nth_error (history_loss r) i) (nth_error (history_acc r) i).

(** The number of examples that [fit] trains on, the last ones being held
    out for validation: [floor(n * (1 - validationSplit))]. *)
Definition training_examples (n : nat) (a : FitArgs) : Z :=
  Qfloor (inject_Z (Z.of_nat n) * (1 - fit_validationSplit a))%Q.

(** The layer factories that the service names statically. *)
Inductive LayerKind :=
| Dense | Conv2d | MaxPooling2d | Flatten | Dropout | Lstm | Gru
| BatchNormalization.

(** Property name of the factory in [tf.layers]. *)
Definition kind_key (k : LayerKind) : string :=
  match k with
  | Dense => "dense"
  | Conv2d => "conv2d"
  | MaxPooling2d => "maxPooling2d"
  | Flatten => "flatten"
  | Dropout => "dropout"
  | Lstm => "lstm"
  | Gru => "gru"
  | BatchNormalization => "batchNormalization"
  end.

(** Class name of the layers that the factory constructs, as the library
    reports it from [getClassName()]. *)
Definition kind_className (k : LayerKind) : string :=
  match k with
  | Dense => "Dense"
  | Conv2d => "Conv2D"
  | MaxPooling2d => "MaxPooling2D"
  | Flatten => "Flatten"
  | Dropout => "Dropout"
  | Lstm => "LSTM"
  | Gru => "GRU"
  | BatchNormalization => "BatchNormalization"
  end.

Definition all_kinds : list LayerKind :=
  [Dense; Conv2d; MaxPooling2d; Flatten; Dropout; Lstm; Gru;
   BatchNormalization].

Definition kind_of_key (key : string) : option LayerKind :=
  find (fun k => String.eqb key (kind_key k)) all_kinds.

(** What the service needs from the library. The [_accepts] fields say
    whether the corresponding call returns or throws. *)
Class TensorLib := {
  (** class name built by [tf.layers[key]] for the keys other than the
      eight above; [None] when [tf.layers] has no such property *)
  tf_layers_other : string -> option string;
  tf_layer_accepts : string -> Config -> bool;
  tf_add_accepts : Model -> Layer -> bool;
  tf_compile_accepts : Model -> CompileArgs -> bool;
  (** whether a [compile] that throws has set [model.optimizer] before it
      throws (it resolves the optimizer first, the loss and the metrics
      after) *)
  tf_compile_sets_optimizer : Model -> CompileArgs -> bool;
  tf_loadLayersModel : string -> Result Model;
  tf_tensor2d_accepts : list (list Q) -> bool;
  tf_predict : Model -> list (list Q) -> Result (list (list Num));
  tf_fit : Model -> list (list Q) -> list (list Q) -> FitArgs ->
           Result (FitResult * Model);
  tf_save_accepts : Model -> string -> bool;
  tf_countParams : Layer -> nat
}.

Section Library.
Context {lib : TensorLib}.

(** [tf.layers[key]]: the class the factory builds, if there is one. *)
Definition layers_lookup (key : string) : option string :=
  match kind_of_key key with
  | Some k => Some (kind_className k)
  | None => tf_layers_other key
  end.

(** Calling a layer constructor of class [cls] on [cfg]. *)
Definition construct (cls : string) (cfg : Config) : Result Layer :=
  if tf_layer_accepts cls cfg then Ok (mkLayer cls cfg (trainable_of cfg))
  else Throw (LibraryError "invalid layer configuration").

(** [tf.layers.<k>(cfg)]. *)
Definition layer_of_kind (k : LayerKind) (cfg : Config) : Result Layer :=
  construct (kind_className k) cfg.

(** [tf.layers[key](cfg)]: calling a missing property is a TypeError. *)
Definition layer_of_key (key : string) (cfg : Config) : Result Layer :=
  match layers_lookup key with
  | Some cls => construct cls cfg
  | None => Throw (TypeError "tf.layers[...] is not a function")
  end.

(** [model.add(layer)]. *)
Definition add (m : Model) (l : Layer) : Result Model :=
  if tf_add_accepts m l then Ok (mkModel (layers m ++ [l]) (compiled m))
  else Throw (LibraryError "layer cannot be added").

(** [model.compile(args)], and the model after the call. A sequential model
    compiles a model that it builds anew from its layers, so a call that
    throws does not leave the optimizer of an earlier [compile] in place:
    the model is left without optimizer, or with the one that [args]
    names. *)
Definition compile (m : Model) (a : CompileArgs) : Result unit * Model :=
  if tf_compile_accepts m a then (Ok tt, mkModel (layers m) (Some a))
  else (Throw (LibraryError "model cannot be compiled"),
        mkModel (layers m)
                (if tf_compile_sets_optimizer m a then Some a else None)).

(** [tf.tensor2d(data)]. *)
Definition tensor2d (d : list (list Q)) : Result (list (list Q)) :=
  if tf_tensor2d_accepts d then Ok d
  else Throw (LibraryError "tensor2d: bad values").

(** The calls of a callback [onEpochEnd], in the order of the epochs, up to
    the first that throws. *)
Fixpoint run_onEpochEnd (cb : nat -> Logs -> Result unit) (r : FitResult)
         (es : list nat) (i : nat) : Result unit :=
  match es with
  | [] => Ok tt
  | e :: rest =>
      match cb e (logs_at r i) with
      | Ok _ => run_onEpochEnd cb r rest (S i)
      | Throw err => Throw err
      end
  end.

(** [model.fit(x, y, {epochs, batchSize, validationSplit, callbacks})] with
    one callback object that has the method [onEpochEnd], and the model
    after the call: the library calls the method when each epoch ends, and
    [fit] rejects when the method throws. *)
Definition fit (m : Model) (x y : list (list Q)) (a : FitArgs)
           (onEpochEnd : nat -> Logs -> Result unit)
  : Result FitResult * Model :=
  match tf_fit m x y a with
  | Throw e => (Throw e, m)
  | Ok (r, m') =>
      match run_onEpochEnd onEpochEnd r (epoch r) 0 with
      | Ok _ => (Ok r, m')
      | Throw e => (Throw e, m')
      end
  end.

End Library.

End Tf.
Import Tf.

(* ================================================================== *)
(** ** The model runtime adapter: [src/services/aiService.js] *)
(* ================================================================== *)

Module Adapter.

Record LayerDesc := mkLayerDesc {
  ld_type : string;
  ld_config : Config
}.

(** [modelConfig.architecture]: [layers] may be missing. *)
Record Architecture := mkArchitecture {
  arch_layers : option (list LayerDesc);
  arch_inputShape : Val
}.

Record Hyper := mkHyper {
  hp_optimizer : option string;
  hp_lossFunction : option string;
  hp_metrics : option (list string);
  hp_learningRate : option Q
}.

(** The object literal [{}] used where hyperparameters are missing. *)
Definition no_hp : Hyper := mkHyper None None None None.

(** The fields of [this]. *)
Record AIService := mkService {
  model : option Model;
  transferBaseModel : option Model;
  modelArchitecture : option Architecture;
  hyperparameters : option Hyper;
  isTransferLearning : bool;
  frozenLayers : list nat
}.

(** [constructor()]. *)
Definition fresh_service : AIService :=
  mkService None None None None false [].

(** The metadata envelope handed to [model.save]. *)
Record SaveMetadata := mkSaveMetadata {
  md_extra : Obj;
  md_isTransferLearning : bool;
  md_frozenLayers : list nat;
  md_modelArchitecture : option Architecture;
  md_hyperparameters : option Hyper;
  md_date : string
}.

Record Artifact := mkArtifact {
  art_model : Model;
  art_includeOptimizer : bool;
  art_metadata : SaveMetadata
}.

(** The service object, what [model.save] has written, and the lines of
    [console.warn]. *)
Record Runtime := mkRuntime {
  svc : AIService;
  files : list (string * Artifact);
  warnings : list string
}.

Definition boot : Runtime := mkRuntime fresh_service [] [].

(** *** Methods as state transformers that may throw *)

Definition Exec (A : Type) := SE Runtime A.

Definition this : Exec AIService := fun r => (Ok (svc r), r).

Definition update (f : AIService -> AIService) : Exec unit :=
  fun r => (Ok tt, mkRuntime (f (svc r)) (files r) (warnings r)).

Definition set_model (m : option Model) (s : AIService) : AIService :=
  mkService m (transferBaseModel s) (modelArchitecture s)
            (hyperparameters s) (isTransferLearning s) (frozenLayers s).

Definition set_transferBaseModel (m : option Model) (s : AIService) :=
  mkService (model s) m (modelArchitecture s)
            (hyperparameters s) (isTransferLearning s) (frozenLayers s).

Definition set_modelArchitecture (a : option Architecture) (s : AIService) :=
  mkService (model s) (transferBaseModel s) a
            (hyperparameters s) (isTransferLearning s) (frozenLayers s).

Definition set_hyperparameters (h : option Hyper) (s : AIService) :=
  mkService (model s) (transferBaseModel s) (modelArchitecture s)
            h (isTransferLearning s) (frozenLayers s).

Definition set_isTransferLearning (b : bool) (s : AIService) :=
  mkService (model s) (transferBaseModel s) (modelArchitecture s)
            (hyperparameters s) b (frozenLayers s).

Definition set_frozenLayers (l : list nat) (s : AIService) :=
  mkService (model s) (transferBaseModel s) (modelArchitecture s)
            (hyperparameters s) (isTransferLearning s) l.

(** [console.warn(msg)]. *)
Definition warn (msg : string) : Exec unit :=
  fun r => (Ok tt, mkRuntime (svc r) (files r) (warnings r ++ [msg])).

(** [xs.forEach((x, index) => f(x, index))], counting from [i]. *)
Fixpoint forEach_from {A} (f : A -> nat -> Exec unit) (xs : list A)
         (i : nat) : Exec unit :=
  match xs with
  | [] => ret tt
  | x :: xs' => f x i ;; forEach_from f xs' (S i)
  end.

Definition forEach {A} (f : A -> nat -> Exec unit) (xs : list A) :=
  forEach_from f xs 0.

(** [Math.max(...xs)]: [NaN] as soon as an argument is [NaN], and
    [-Infinity] on no arguments. *)
Definition num_max (acc x : Num) : Num :=
  match acc, x with
  | NaN, _ | _, NaN => NaN
  | _, _ => if num_gtb x acc then x else acc
  end.

Definition math_max (xs : list Num) : Num :=
  fold_left num_max xs NegInfinity.

(** The callback of [results.map] in [predict]. *)
Definition confidence_of (predArray : list Num) : Num :=
  match predArray with
  | [value] =>
      if num_gtb value (Finite (1 # 2)%Q) then value else one_minus value
  | _ => math_max predArray
  end.

(** The rows of [predictions] are what [predictions.array()] resolves to:
    the outputs of the model, which need not be finite. *)
Record Prediction := mkPrediction {
  predictions : list (list Num);
  confidence : list Num
}.

Definition no_model {A} : Exec A :=
  throw (PlainError "No model available. Create or load a model first.").


(** *** The methods *)

Section Methods.
Context {lib : TensorLib}.

(** [MODELS_DIR] and Node's [path.join], which depend on the installation. *)
Variable MODELS_DIR : string.
Variable node_path_join : string -> string -> string.

(** [this.model.add(layer)]. *)
Definition model_add (l : Layer) : Exec unit :=
  s <- this ;;
  match model s with
  | None => throw (TypeError "this.model is null")
  | Some m =>
      m' <- lift (Tf.add m l) ;;
      update (set_model (Some m'))
  end.

(** [this.model.compile(args)]. *)
Definition model_compile (a : CompileArgs) : Exec unit :=
  s <- this ;;
  match model s with
  | None => throw (TypeError "this.model is null")
  | Some m =>
      let (r, m') := Tf.compile m a in
      update (set_model (Some m')) ;;
      lift r
  end.

Definition or_default {A} (o : option A) (d : A) : A :=
  match o with Some a => a | None => d end.

(** The copy [layerConfig] of [layer.config], with the input shape set on
    the first descriptor. *)
Definition effective_config (inputShape : Val) (layer : LayerDesc)
           (index : nat) : Config :=
  let layerConfig := ld_config layer in
  if Nat.eqb index 0
  then obj_set layerConfig "inputShape"
               (val_or inputShape (obj_prop layerConfig "inputShape"))
  else layerConfig.

(** The callback of [layers.forEach] in [createModelFromArchitecture]: the
    case labels of its [switch] are the property names of the factories. *)
Definition add_described_layer (inputShape : Val) (layer : LayerDesc)
           (index : nat) : Exec unit :=
  let layerConfig := effective_config inputShape layer index in
  match kind_of_key (ld_type layer) with
  | Some k =>
      l <- lift (layer_of_kind k layerConfig) ;;
      model_add l
  | None => warn ("Unsupported layer type: " ++ ld_type layer)%string
  end.

Definition createModelFromArchitecture : Exec bool :=
  try_catch
    (s <- this ;;
     match modelArchitecture s with
     | None => throw (TypeError "cannot destructure this.modelArchitecture")
     | Some arch =>
         let inputShape := arch_inputShape arch in
         let hp := or_default (hyperparameters s) no_hp in
         update (set_model (Some sequential)) ;;
         match arch_layers arch with
         | None => throw (TypeError "layers is undefined")
         | Some layers =>
             forEach (add_described_layer inputShape) layers ;;
             model_compile
               (mkCompileArgs (str_or (hp_optimizer hp) "adam")
                  (str_or (hp_lossFunction hp) "categoricalCrossentropy")
                  (or_default (hp_metrics hp) ["accuracy"])
                  None) ;;
             ret true
         end
     end)
    (fun error => throw error).

(** [this.frozenLayers.push(index)] and [tfLayer.trainable = false], where
    [tfLayer] is the object that was just added as the last layer of
    [this.model]. *)
Definition freeze_last (ls : list Layer) : list Layer :=
  match rev ls with
  | [] => []
  | l :: before => rev before ++ [mkLayer (className l) (config l) false]
  end.

Definition freeze_added_layer (index : nat) : Exec unit :=
  update (fun s =>
    set_frozenLayers (frozenLayers s ++ [index])
      (set_model
         (option_map (fun m => mkModel (freeze_last (layers m)) (compiled m))
                     (model s)) s)).

(** The callback of [baseModelLayers.forEach] in [setupTransferLearning]. *)
Definition copy_base_layer (freezeBaseLayers : bool) (outputLayers : list Z)
           (layer : Layer) (index : nat) : Exec unit :=
  if existsb (Z.eqb (Z.of_nat index)) outputLayers then ret tt
  else
    let newLayer := getConfig layer in
    tfLayer <- lift (layer_of_key (toLowerCase (className layer)) newLayer) ;;
    model_add tfLayer ;;
    if freezeBaseLayers then freeze_added_layer index else ret tt.

(** The default values of the parameters [freezeBaseLayers = true] and
    [outputLayers = []]; the flag is later used as a condition. *)
Definition freeze_flag (v : Val) : bool :=
  match v with VUndefined => true | _ => truthy v end.

(** [if (!outputLayers || outputLayers.length === 0)
    outputLayers = [baseModelLayers.length - 1]]. *)
Definition effective_outputs (outputLayers : option (list Z)) (n : nat)
  : list Z :=
  match outputLayers with
  | None | Some [] => [(Z.of_nat n - 1)%Z]
  | Some l => l
  end.

Definition setupTransferLearning (baseModelPath : string)
           (freezeBaseLayers : Val) (outputLayers : option (list Z))
  : Exec bool :=
  try_catch
    (base <- lift (tf_loadLayersModel baseModelPath) ;;
     update (set_transferBaseModel (Some base)) ;;
     update (set_isTransferLearning true) ;;
     update (set_model (Some sequential)) ;;
     let baseModelLayers := layers base in
     let outputLayers :=
       effective_outputs outputLayers (List.length baseModelLayers) in
     forEach (copy_base_layer (freeze_flag freezeBaseLayers) outputLayers)
             baseModelLayers ;;
     ret true)
    (fun error => throw error).

(** [loadModel(modelPath = null, modelConfig = {})]. *)
Record ModelConfig := mkModelConfig {
  mc_architecture : option Architecture;
  mc_hyperparameters : option Hyper;
  mc_baseModelPath : option string;
  mc_transferLearning : Val;
  mc_freezeBaseLayers : Val;
  mc_outputLayers : option (list Z)
}.

Definition no_config : ModelConfig :=
  mkModelConfig None None None VUndefined VUndefined None.

Definition truthy_str (s : option string) : bool :=
  match s with Some s' => negb (String.eqb s' EmptyString) | None => false end.

Inductive Mode := FromPath | FromArchitecture | Transfer | Fallback.

Definition has_layers (a : option Architecture) : bool :=
  match a with
  | Some arch => match arch_layers arch with Some _ => true | None => false end
  | None => false
  end.

(** The conditions of the [if / else if] chain of [loadModel]. *)
Definition load_mode (modelPath : option string) (modelConfig : ModelConfig)
  : Mode :=
  if truthy_str modelPath then FromPath
  else if has_layers (mc_architecture modelConfig) then FromArchitecture
  else if andb (truthy_str (mc_baseModelPath modelConfig))
               (truthy (mc_transferLearning modelConfig)) then Transfer
  else Fallback.

Definition cfg_dense_1 : Config :=
  [("units", VNum 100%Q); ("activation", VStr "relu");
   ("inputShape", VArr [VNum 10%Q])].
Definition cfg_dense_2 : Config :=
  [("units", VNum 50%Q); ("activation", VStr "relu")].
Definition cfg_dense_3 : Config :=
  [("units", VNum 1%Q); ("activation", VStr "sigmoid")].

Definition default_compile : CompileArgs :=
  mkCompileArgs "adam" "binaryCrossentropy" ["accuracy"] None.

(** The branches of the chain. *)
Definition load_by_mode (modelPath : option string)
           (modelConfig : ModelConfig) : Exec unit :=
  match load_mode modelPath modelConfig with
  | FromPath =>
      m <- lift (tf_loadLayersModel (or_default modelPath EmptyString)) ;;
      update (set_model (Some m))
  | FromArchitecture =>
      update (set_modelArchitecture (mc_architecture modelConfig)) ;;
      update (set_hyperparameters
                (Some (or_default (mc_hyperparameters modelConfig) no_hp))) ;;
      createModelFromArchitecture ;;
      ret tt
  | Transfer =>
      setupTransferLearning
        (or_default (mc_baseModelPath modelConfig) EmptyString)
        (mc_freezeBaseLayers modelConfig) (mc_outputLayers modelConfig) ;;
      ret tt
  | Fallback =>
      update (set_model (Some sequential)) ;;
      l1 <- lift (layer_of_kind Dense cfg_dense_1) ;;
      model_add l1 ;;
      l2 <- lift (layer_of_kind Dense cfg_dense_2) ;;
      model_add l2 ;;
      l3 <- lift (layer_of_kind Dense cfg_dense_3) ;;
      model_add l3 ;;
      model_compile default_compile
  end.

Definition loadModel (modelPath : option string) (modelConfig : ModelConfig)
  : Exec bool :=
  try_catch
    (update (set_isTransferLearning false) ;;
     update (set_frozenLayers []) ;;
     load_by_mode modelPath modelConfig ;;
     ret true)
    (fun error => ret false).

(** [x.toFixed(4)] where [x] is a property of [logs]: reading [toFixed] of
    a missing property is a TypeError. *)
Definition toFixed (x : option Q) : Result unit :=
  match x with
  | Some _ => Ok tt
  | None =>
      Throw (TypeError
               "Cannot read properties of undefined (reading 'toFixed')")
  end.

(** The callback [onEpochEnd] that [trainModel] hands to [fit]: it formats
    [logs.loss] and [logs.acc] for [console.log]. *)
Definition onEpochEnd (epoch : nat) (logs : Logs) : Result unit :=
  match toFixed (log_loss logs) with
  | Ok _ => toFixed (log_acc logs)
  | Throw e => Throw e
  end.

(** [trainModel(trainData, labels, epochs = 10, batchSize = 32,
    validationSplit = 0.2)]. The extra callbacks of [hp.callbacks] run inside
    [model.fit] and are part of [tf_fit]. *)
Definition learningRate_or_default (hp : Hyper) : Q :=
  match hp_learningRate hp with
  | Some q => if Qeq_bool q 0%Q then (1 # 1000)%Q else q
  | None => (1 # 1000)%Q
  end.

Definition trainModel (trainData labels : list (list Q))
           (epochs batchSize : option nat) (validationSplit : option Q)
  : Exec FitResult :=
  let epochs := or_default epochs 10 in
  let batchSize := or_default batchSize 32 in
  let validationSplit := or_default validationSplit (2 # 10)%Q in
  try_catch
    (s <- this ;;
     let hp := or_default (hyperparameters s) no_hp in
     match model s with
     | None => throw (TypeError "cannot read 'optimizer' of null")
     | Some m =>
         match compiled m with
         | Some _ => ret tt
         | None =>
             model_compile
               (mkCompileArgs (str_or (hp_optimizer hp) "adam")
                  (str_or (hp_lossFunction hp) "categoricalCrossentropy")
                  (or_default (hp_metrics hp) ["accuracy"])
                  (Some (learningRate_or_default hp)))
         end ;;
         trainTensors <- lift (tensor2d trainData) ;;
         labelTensors <- lift (tensor2d labels) ;;
         s' <- this ;;
         match model s' with
         | None => throw (TypeError "this.model is null")
         | Some m' =>
             let (result, m'') :=
               Tf.fit m' trainTensors labelTensors
                      (mkFitArgs epochs batchSize validationSplit)
                      onEpochEnd in
             update (set_model (Some m'')) ;;
             lift result
         end
     end)
    (fun error => throw error).

(** [predict(inputData)]. *)
Definition predict (inputData : list (list Q)) : Exec Prediction :=
  try_catch
    (s <- this ;;
     match model s with
     | None => no_model
     | Some m =>
         inputTensor <- lift (tensor2d inputData) ;;
         results <- lift (tf_predict m inputTensor) ;;
         let confidences := map confidence_of results in
         ret (mkPrediction results confidences)
     end)
    (fun error => throw error).

(** What the identifier [path] denotes where it is used: the imported Node
    module, or a string. Calling [join] on a string is a TypeError, since
    strings have no such method. *)
Inductive PathIdent :=
| PathModule
| PathString (s : string).

Definition call_join (p : PathIdent) (a b : string) : Result string :=
  match p with
  | PathModule => Ok (node_path_join a b)
  | PathString _ => Throw (TypeError "path.join is not a function")
  end.

(** [path.replace] of a leading [file://] by the empty string. *)
Definition strip_file_prefix (p : string) : string :=
  if startsWith p "file://" then substring 7 (String.length p - 7) p else p.

Definition reserved_metadata_keys : list string :=
  ["isTransferLearning"; "frozenLayers"; "modelArchitecture";
   "hyperparameters"; "date"].

(** [this.model.save(path, {includeOptimizer: true, metadata})]. *)
Definition model_save (m : Model) (path : string) (md : SaveMetadata)
  : Exec unit :=
  fun r =>
    if tf_save_accepts m path
    then (Ok tt, mkRuntime (svc r) (files r ++ [(path, mkArtifact m true md)])
                           (warnings r))
    else (Throw (LibraryError "model.save failed"), r).

(** The condition under which [saveModel] takes the path as relative. *)
Definition is_relative (path : string) : bool :=
  andb (negb (startsWith path "file://"))
       (andb (negb (startsWith path "http://"))
             (negb (startsWith path "https://"))).

(** [saveModel(path, metadata = {})]; [now] is what
    [new Date().toISOString()] returns. Inside the method the identifier
    [path] is the parameter: it shadows the module imported at the top of
    the file. *)
Definition saveModel (path : string) (metadata : Obj) (now : string)
  : Exec bool :=
  try_catch
    (s <- this ;;
     match model s with
     | None => no_model
     | Some m =>
         path' <-
           (if is_relative path then
              let cleanPath := strip_file_prefix path in
              joined <- lift (call_join (PathString path) MODELS_DIR
                                        cleanPath) ;;
              ret ("file://" ++ joined)%string
            else ret path) ;;
         model_save m path'
           (mkSaveMetadata
              (filter (fun kv =>
                         negb (existsb (String.eqb (fst kv))
                                       reserved_metadata_keys)) metadata)
              (isTransferLearning s) (frozenLayers s)
              (modelArchitecture s) (hyperparameters s) now) ;;
         ret true
     end)
    (fun error => ret false).

(** [getModelSummary()]; of each layer the summary keeps the class name, the
    [trainable] flag and the parameter count (the name, units and shapes are
    copied from the library's layer object and are left out here). *)
Record LayerSummary := mkLayerSummary {
  sum_type : string;
  sum_trainable : bool;
  sum_params : nat
}.

Record Summary := mkSummary {
  sum_layers : list LayerSummary;
  totalParams : nat;
  trainableParams : nat;
  nonTrainableParams : nat;
  sum_isTransferLearning : bool;
  sum_frozenLayers : list nat
}.

Definition getModelSummary : Exec Summary :=
  try_catch
    (s <- this ;;
     match model s with
     | None => no_model
     | Some m =>
         let ls := map (fun l => mkLayerSummary (className l) (trainable l)
                                                (tf_countParams l))
                       (layers m) in
         let total := list_sum (map tf_countParams (layers m)) in
         let trainableP :=
           fold_left (fun sum l => if sum_trainable l then sum + sum_params l
                                   else sum) ls 0 in
         ret (mkSummary ls total trainableP (total - trainableP)
                        (isTransferLearning s) (frozenLayers s))
     end)
    (fun error => throw error).

End Methods.

(** *** Notions used to state properties *)

(** The layer types that [createModelFromArchitecture] constructs. *)
Definition supported_types : list string :=
  ["dense"; "conv2d"; "maxPooling2d"; "flatten"; "dropout"; "lstm"; "gru";
   "batchNormalization"].

Definition is_supported (d : LayerDesc) : bool :=
  existsb (String.eqb (ld_type d)) supported_types.

(** The layer [l] was constructed for the descriptor [d]: it is of the class
    of the factory named by [d]'s type, its flag is the one that [d]'s
    configuration asks for (set when it asks for none), and its
    configuration is [d]'s, possibly with the input shape set. *)
Definition built_from (l : Layer) (d : LayerDesc) : Prop :=
  exists k, ld_type d = kind_key k /\ className l = kind_className k /\
            trainable l = trainable_of (ld_config d) /\
            (config l = ld_config d \/
             exists v, config l = obj_set (ld_config d) "inputShape" v).

Definition unsupported_warning (d : LayerDesc) : string :=
  ("Unsupported layer type: " ++ ld_type d)%string.

(** The layers of a base model whose index, counted from [i], is not among
    the output indices, each with its index, in the original order. *)
Fixpoint kept_from (outputLayers : list Z) (ls : list Layer) (i : nat)
  : list (nat * Layer) :=
  match ls with
  | [] => []
  | l :: rest =>
      if existsb (Z.eqb (Z.of_nat i)) outputLayers
      then kept_from outputLayers rest (S i)
      else (i, l) :: kept_from outputLayers rest (S i)
  end.

(** [l'] is the copy of the base layer [l]: constructed from what
    [l.getConfig()] returns, of the class that the factory found under the
    lower-cased class name of [l] builds, not trainable when the copies are
    frozen and with the flag of [l] when they are not. *)
Definition copy_of {lib : TensorLib} (freeze : bool) (l' : Layer)
           (il : nat * Layer) : Prop :=
  layers_lookup (toLowerCase (className (snd il))) = Some (className l') /\
  config l' = getConfig (snd il) /\
  trainable l' = (if freeze then false else trainable (snd il)).

(** A library whose [fit], when the validation split leaves no example to
    train on, runs its epochs over no batch: the logs of its epochs hold no
    loss. *)
Definition no_examples_no_loss (lib : TensorLib) : Prop :=
  forall m x y a r m',
    training_examples (List.length x) a = 0%Z ->
    0 < fit_epochs a ->
    tf_fit m x y a = Ok (r, m') ->
    epoch r <> [] /\ history_loss r = [].

(** Whether a layer configuration names the input shape of the layer: the
    properties from which the library takes the shape of a first layer. *)
Definition names_input_shape (cfg : Config) : bool :=
  existsb (fun key => match obj_prop cfg key with
                      | VUndefined | VNull => false
                      | _ => true
                      end)
          ["inputShape"; "batchInputShape"; "inputDim"].

(** A library whose [add] refuses, as the first layer of a sequential model,
    a layer whose configuration names no input shape. *)
Definition first_layer_needs_shape (lib : TensorLib) : Prop :=
  forall m l,
    layers m = [] -> names_input_shape (config l) = false ->
    tf_add_accepts m l = false.

(** A library whose [compile] refuses a sequential model without layers. *)
Definition compile_needs_layers (lib : TensorLib) : Prop :=
  forall m a, layers m = [] -> tf_compile_accepts m a = false.

(** A library that accepts every layer, every [add] and every [compile]. *)
Definition accepts_layers (lib : TensorLib) : Prop :=
  (forall c cfg, tf_layer_accepts c cfg = true) /\
  (forall m l, tf_add_accepts m l = true) /\
  (forall m a, tf_compile_accepts m a = true).

(** The transfer-learning state of the service. *)
Definition transfer_state (rt : Runtime) : bool * list nat :=
  (isTransferLearning (svc rt), frozenLayers (svc rt)).

(** [c] leaves the observation [f] of the runtime as it found it, whether it
    returns or throws. *)
Definition stable {X A} (f : Runtime -> X) (c : Exec A) : Prop :=
  forall rt r rt', c rt = (r, rt') -> f rt' = f rt.

(** The runtime after the two assignments that open [loadModel]. *)
Definition reset_transfer (rt : Runtime) : Runtime :=
  mkRuntime (set_frozenLayers [] (set_isTransferLearning false (svc rt)))
            (files rt) (warnings rt).

(** The runtime [rt] with another transfer-learning state: what an earlier
    load may have left behind. *)
Definition with_transfer_state (b : bool) (l : list nat) (rt : Runtime)
  : Runtime :=
  mkRuntime (set_frozenLayers l (set_isTransferLearning b (svc rt)))
            (files rt) (warnings rt).

End Adapter.

(* ================================================================== *)
(** ** AIModel documents and the AI controller *)
(* ================================================================== *)

Module AiController.

Definition ObjectId := nat.

(** [trainingHistory] as the controller assigns it, before the schema casts
    it: [epochs] is the value of [result.epoch + 1]. *)
Record TrainingHistoryRaw := mkTrainingHistoryRaw {
  raw_lastTrained : nat;
  raw_epochs : string;
  raw_loss : option Q;
  raw_accuracy : option Q
}.

(** Modelled from the spec: the [trainingHistory] sub-document of the AIModel
    schema ([models/aiModel.js] is not among the sources): a last-trained
    timestamp, an epoch count and the final loss and accuracy, the count
    being a number. *)
Record TrainingHistory := mkTrainingHistory {
  lastTrained : nat;
  epochs : nat;
  loss : option Q;
  accuracy : option Q
}.

Record TrainingRecord := mkTrainingRecord {
  td_data : list (list Q);
  td_labels : list (list Q);
  td_timestamp : nat
}.

Record PredictionRecord := mkPredictionRecord {
  pr_id : ObjectId;
  pr_input : list (list Q);
  pr_output : Adapter.Prediction;
  pr_user : option ObjectId;
  pr_timestamp : nat
}.

(** An AIModel document. [doc_userId] is optional: [initializeModel] stores
    [undefined] when the request names no user. *)
Record AIModelDoc := mkDoc {
  doc_id : ObjectId;
  doc_name : string;
  doc_description : string;
  doc_modelType : string;
  doc_userId : option ObjectId;
  doc_config : Val;
  doc_architecture : Val;
  doc_status : string;
  doc_trainingHistory : option TrainingHistory;
  doc_trainingData : list TrainingRecord;
  doc_predictions : list PredictionRecord;
  doc_isPublic : bool;
  doc_baseModel : option ObjectId;
  doc_freezeBaseLayers : option bool;
  doc_createdAt : nat
}.

Definition with_status (st : string) (d : AIModelDoc) : AIModelDoc :=
  mkDoc (doc_id d) (doc_name d) (doc_description d) (doc_modelType d)
        (doc_userId d) (doc_config d) (doc_architecture d) st
        (doc_trainingHistory d) (doc_trainingData d) (doc_predictions d)
        (doc_isPublic d) (doc_baseModel d) (doc_freezeBaseLayers d)
        (doc_createdAt d).

Definition with_trainingHistory (h : TrainingHistory) (d : AIModelDoc) :=
  mkDoc (doc_id d) (doc_name d) (doc_description d) (doc_modelType d)
        (doc_userId d) (doc_config d) (doc_architecture d) (doc_status d)
        (Some h) (doc_trainingData d) (doc_predictions d)
        (doc_isPublic d) (doc_baseModel d) (doc_freezeBaseLayers d)
        (doc_createdAt d).

Definition with_trainingData (t : list TrainingRecord) (d : AIModelDoc) :=
  mkDoc (doc_id d) (doc_name d) (doc_description d) (doc_modelType d)
        (doc_userId d) (doc_config d) (doc_architecture d) (doc_status d)
        (doc_trainingHistory d) t (doc_predictions d)
        (doc_isPublic d) (doc_baseModel d) (doc_freezeBaseLayers d)
        (doc_createdAt d).

Definition with_predictions (p : list PredictionRecord) (d : AIModelDoc) :=
  mkDoc (doc_id d) (doc_name d) (doc_description d) (doc_modelType d)
        (doc_userId d) (doc_config d) (doc_architecture d) (doc_status d)
        (doc_trainingHistory d) (doc_trainingData d) p
        (doc_isPublic d) (doc_baseModel d) (doc_freezeBaseLayers d)
        (doc_createdAt d).

(** The process: the adapter singleton, the AIModel collection, the
    generator of object ids and the clock. The collection does not fail on
    its own; a save fails only when a value cannot be cast. *)
Record World := mkWorld {
  runtime : Adapter.Runtime;
  aimodels : list AIModelDoc;
  next_id : ObjectId;
  clock : nat
}.

Definition Handler (A : Type) := SE World A.

(** Running a method of the adapter singleton. *)
Definition adapter {A} (c : Adapter.Exec A) : Handler A :=
  fun w =>
    let (r, rt') := c (runtime w) in
    (r, mkWorld rt' (aimodels w) (next_id w) (clock w)).

(** [new Date()]. *)
Definition now : Handler nat :=
  fun w => (Ok (clock w),
            mkWorld (runtime w) (aimodels w) (next_id w) (S (clock w))).

Definition fresh_id : Handler ObjectId :=
  fun w => (Ok (next_id w),
            mkWorld (runtime w) (aimodels w) (S (next_id w)) (clock w)).

(** [AIModel.findById(id)]. *)
Definition lookup (id : ObjectId) (docs : list AIModelDoc)
  : option AIModelDoc :=
  find (fun d => Nat.eqb (doc_id d) id) docs.

Definition findById (id : ObjectId) : Handler (option AIModelDoc) :=
  fun w => (Ok (lookup id (aimodels w)), w).

(** [doc.save()]: replaces the stored document of the same id, or inserts
    it. *)
Fixpoint upsert (d : AIModelDoc) (docs : list AIModelDoc)
  : list AIModelDoc :=
  match docs with
  | [] => [d]
  | d' :: rest =>
      if Nat.eqb (doc_id d') (doc_id d) then d :: rest
      else d' :: upsert d rest
  end.

Definition save (d : AIModelDoc) : Handler unit :=
  fun w => (Ok tt,
            mkWorld (runtime w) (upsert d (aimodels w)) (next_id w) (clock w)).

(** The cast of [trainingHistory.epochs] to a number when the document is
    validated on save: a string is converted with [Number], and [NaN] is a
    cast error. *)
Definition cast_trainingHistory (raw : TrainingHistoryRaw)
  : Result TrainingHistory :=
  match number_of_string (raw_epochs raw) with
  | Some n =>
      Ok (mkTrainingHistory (raw_lastTrained raw) n (raw_loss raw)
                            (raw_accuracy raw))
  | None =>
      Throw (ValidationError "Cast to Number failed at trainingHistory.epochs")
  end.

(** Modelled from the spec: [addTrainingData] of the AIModel schema, which is
    not among the sources: it appends an embedded training-data record and
    persists the document. *)
Definition addTrainingData (d : AIModelDoc) (data labels : list (list Q))
  : Handler AIModelDoc :=
  t <- now ;;
  let d' := with_trainingData
              (doc_trainingData d ++ [mkTrainingRecord data labels t]) d in
  save d' ;;
  ret d'.

(** Modelled from the spec: [addPrediction] of the AIModel schema, which is
    not among the sources: it appends an embedded prediction (input, output,
    optional requester, timestamp), persists the document and returns the
    new record. *)
Definition addPrediction (d : AIModelDoc) (input : list (list Q))
           (output : Adapter.Prediction) (user : option ObjectId)
  : Handler PredictionRecord :=
  t <- now ;;
  pid <- fresh_id ;;
  let p := mkPredictionRecord pid input output user t in
  save (with_predictions (doc_predictions d ++ [p]) d) ;;
  ret p.

(** *** Responses *)

Inductive Payload :=
| NoPayload
| ErrorMessage (msg : string)
| ModelInfo (id : ObjectId) (name description : string)
            (baseModel : option ObjectId) (createdAt : nat)
| TrainResult (epochs : string) (loss accuracy : option Q)
| PredictResult (p : Adapter.Prediction) (id : ObjectId).

Record Response := mkResponse {
  code : nat;
  success : bool;
  msg : string;
  payload : Payload
}.

Definition fail (c : nat) (m : string) : Response :=
  mkResponse c false m NoPayload.

Definition fail_with (c : nat) (m : string) (e : Error) : Response :=
  mkResponse c false m (ErrorMessage (message e)).

(** The training request of the end-to-end scenario: one example of ten
    features 0.1 with the label 1, trained for one epoch. *)
Definition scenario_trainData : list (list Q) := [repeat (1 # 10)%Q 10].
Definition scenario_labels : list (list Q) := [[1%Q]].

(** *** Requests *)

(** The [userId] of a request body: absent or falsy, a value that names an
    ObjectId, or a value from which [new mongoose.Types.ObjectId] throws. *)
Inductive UserIdField :=
| UserIdAbsent
| UserIdOk (id : ObjectId)
| UserIdMalformed.

(** [userId ? new mongoose.Types.ObjectId(userId) : undefined]. *)
Definition objectId_of (u : UserIdField) : Result (option ObjectId) :=
  match u with
  | UserIdAbsent => Ok None
  | UserIdOk id => Ok (Some id)
  | UserIdMalformed =>
      Throw (PlainError
               "input must be a 24 character hex string, 12 byte Uint8Array, or an integer")
  end.

Record InitReq := mkInitReq {
  ir_name : option string;
  ir_description : option string;
  ir_userId : UserIdField
}.

Record TrainReq := mkTrainReq {
  tr_modelId : option ObjectId;
  tr_trainData : option (list (list Q));
  tr_labels : option (list (list Q));
  tr_epochs : option nat;
  tr_batchSize : option nat
}.

Record PredictReq := mkPredictReq {
  pq_modelId : option ObjectId;
  pq_inputData : option (list (list Q));
  pq_userId : UserIdField
}.

(** [req.user._id] is the authenticated requester. *)
Record CloneReq := mkCloneReq {
  cq_user : ObjectId;
  cq_modelId : option ObjectId;
  cq_name : option string;
  cq_description : option string;
  cq_freezeBaseLayers : Val
}.

(** *** Handlers *)

Section Handlers.
Context {lib : TensorLib}.

Definition layer_literal (units : Q) (activation : string) (extra : Obj)
  : Val :=
  VObj ([("type", VStr "dense"); ("units", VNum units);
         ("activation", VStr activation)] ++ extra).

Definition default_config : Val :=
  VObj [("layers",
         VArr [layer_literal 100%Q "relu" [("inputShape", VArr [VNum 10%Q])];
               layer_literal 50%Q "relu" [];
               layer_literal 1%Q "sigmoid" []]);
        ("optimizer", VStr "adam");
        ("loss", VStr "binaryCrossentropy");
        ("metrics", VArr [VStr "accuracy"])].

(** [new AIModel(modelData)] followed by [save()]. *)
Definition create_model (name description : string)
           (userId : option ObjectId) : Handler AIModelDoc :=
  id <- fresh_id ;;
  t <- now ;;
  let d := mkDoc id name description "tensorflow" userId default_config
                 (VArr []) "initialized" None [] [] false None None t in
  save d ;;
  ret d.

Definition initializeModel (req : InitReq) : Handler Response :=
  try_catch
    (userId <- lift (objectId_of (ir_userId req)) ;;
     aiModel <- create_model (str_or (ir_name req) "Default Model")
                  (str_or (ir_description req) "Created via API")
                  userId ;;
     success <- adapter (Adapter.loadModel None Adapter.no_config) ;;
     if success : bool then
       let aiModel := with_status "initialized" aiModel in
       save aiModel ;;
       ret (mkResponse 200 true "AI model initialized successfully"
              (ModelInfo (doc_id aiModel) (doc_name aiModel)
                         (doc_description aiModel) None
                         (doc_createdAt aiModel)))
     else
       let aiModel := with_status "error" aiModel in
       save aiModel ;;
       ret (fail 500 "Failed to initialize AI model"))
    (fun error => ret (fail_with 500 "Error initializing AI model" error)).

Definition trainModel (req : TrainReq) : Handler Response :=
  try_catch
    (match tr_trainData req, tr_labels req with
     | Some trainData, Some labels =>
         match tr_modelId req with
         | None => ret (fail 400 "Model ID is required")
         | Some modelId =>
             found <- findById modelId ;;
             match found with
             | None => ret (fail 404 "Model not found")
             | Some aiModel =>
                 aiModel <- addTrainingData aiModel trainData labels ;;
                 result <- adapter (Adapter.trainModel trainData labels
                                      (tr_epochs req) (tr_batchSize req)
                                      None) ;;
                 let aiModel := with_status "trained" aiModel in
                 t <- now ;;
                 let key := join_comma (epoch result) in
                 let raw :=
                   mkTrainingHistoryRaw t
                     (array_plus_number (epoch result) 1)
                     (index_by_key (history_loss result) key)
                     (index_by_key (history_acc result) key) in
                 h <- lift (cast_trainingHistory raw) ;;
                 save (with_trainingHistory h aiModel) ;;
                 ret (mkResponse 200 true "Model trained successfully"
                        (TrainResult (raw_epochs raw) (raw_loss raw)
                                     (raw_accuracy raw)))
             end
         end
     | _, _ => ret (fail 400 "Training data and labels are required")
     end)
    (fun error => ret (fail_with 500 "Error training AI model" error)).

Definition predict (req : PredictReq) : Handler Response :=
  try_catch
    (match pq_inputData req with
     | None => ret (fail 400 "Input data is required for prediction")
     | Some inputData =>
         match pq_modelId req with
         | None => ret (fail 400 "Model ID is required")
         | Some modelId =>
             found <- findById modelId ;;
             match found with
             | None => ret (fail 404 "Model not found")
             | Some aiModel =>
                 predictions <- adapter (Adapter.predict inputData) ;;
                 userIdObj <- lift (objectId_of (pq_userId req)) ;;
                 prediction <- addPrediction aiModel inputData predictions
                                 userIdObj ;;
                 ret (mkResponse 200 true "Prediction completed successfully"
                        (PredictResult predictions (pr_id prediction)))
             end
         end
     end)
    (fun error => ret (fail_with 500 "Error making prediction" error)).

(** [freezeBaseLayers !== false]. *)
Definition not_false (v : Val) : bool :=
  match v with VBool false => false | _ => true end.

(** Modelled from the spec: [clone] of the AIModel schema, which is not among
    the sources: it produces and persists a new document of the requester
    whose architecture is copied from the source, whose [baseModel] points at
    the source and whose status is [initialized]; the options carry the name,
    the description and the [freezeBaseLayers] flag (where a name or a
    description is absent, the source's is kept here). *)
Definition clone (source : AIModelDoc) (requester : ObjectId)
           (name description : option string) (freezeBaseLayers : bool)
  : Handler AIModelDoc :=
  id <- fresh_id ;;
  t <- now ;;
  let d := mkDoc id (Adapter.or_default name (doc_name source))
                 (Adapter.or_default description (doc_description source))
                 (doc_modelType source) (Some requester) (doc_config source)
                 (doc_architecture source) "initialized" None [] [] false
                 (Some (doc_id source)) (Some freezeBaseLayers) t in
  save d ;;
  ret d.

(** [sourceModel.userId.toString()]: reading a property of [undefined]
    throws. *)
Definition owner_toString (d : AIModelDoc) : Result string :=
  match doc_userId d with
  | Some u => Ok (nat_toString u)
  | None => Throw (TypeError "cannot read 'toString' of undefined")
  end.

Definition cloneModelForTransfer (req : CloneReq) : Handler Response :=
  try_catch
    (let userId := cq_user req in
     match cq_modelId req with
     | None => ret (fail 400 "Source model ID is required")
     | Some modelId =>
         found <- findById modelId ;;
         match found with
         | None => ret (fail 404 "Source model not found")
         | Some sourceModel =>
             owner <- lift (owner_toString sourceModel) ;;
             let hasAccess :=
               orb (String.eqb owner (nat_toString userId))
                   (doc_isPublic sourceModel) in
             if negb hasAccess then
               ret (fail 403
                      "You do not have permission to clone this model")
             else
               newModel <- clone sourceModel userId (cq_name req)
                             (cq_description req)
                             (not_false (cq_freezeBaseLayers req)) ;;
               ret (mkResponse 200 true
                      "Model cloned successfully for transfer learning"
                      (ModelInfo (doc_id newModel) (doc_name newModel)
                                 (doc_description newModel)
                                 (doc_baseModel newModel)
                                 (doc_createdAt newModel)))
         end
     end)
    (fun error =>
       ret (fail_with 500 "Error cloning model for transfer learning" error)).

End Handlers.
End AiController.

(* ================================================================== *)
(** ** Users and the auth controller *)
(* ================================================================== *)

Module AuthController.

Definition ObjectId := nat.

Record User := mkUser {
  user_id : ObjectId;
  username : string;
  password : string;
  email : option string;
  role : string;
  fullName : string;
  createdAt : nat
}.

(** Modelled from the spec: the default of the [role] field of the User
    schema ([models/userModel.js] is not among the sources): an account that
    is given no role is a [user]. *)
Definition default_role : string := "user".

Record RegisterReq := mkRegisterReq {
  rq_username : option string;
  rq_email : option string;
  rq_password : option string;
  rq_fullName : option string
}.

(** The object literal [userData]; [ud_role] is set only for the first
    user. *)
Record UserData := mkUserData {
  ud_username : string;
  ud_password : string;
  ud_email : option string;
  ud_fullName : string;
  ud_role : option string
}.

Inductive Payload :=
| NoPayload
| ErrorMessage (m : string)
| Registered (token : string) (id : ObjectId) (username : string)
             (email : option string) (role : string) (fullName : string)
             (createdAt : nat).

Record Response := mkResponse {
  code : nat;
  success : bool;
  msg : string;
  payload : Payload
}.

(** The users collection, in insertion order, and the clock. *)
Record World := mkWorld {
  users : list User;
  clock : nat
}.

Section Handlers.

(** The static [User.findByUsernameOrEmail] of the schema, whether
    [user.save()] accepts the document (validation, unique indexes), and
    [generateToken]. *)
Variable findByUsernameOrEmail : list User -> string -> option User.
Variable save_accepts : list User -> UserData -> bool.
Variable generateToken : User -> string.

Definition is_some {A} (o : option A) : bool :=
  match o with Some _ => true | None => false end.

(** [new User(userData)] followed by [save()]. *)
Definition create_user (d : UserData) : SE World User :=
  fun w =>
    if save_accepts (users w) d then
      let u := mkUser (List.length (users w)) (ud_username d) (ud_password d)
                      (ud_email d) (Adapter.or_default (ud_role d) default_role)
                      (ud_fullName d) (clock w) in
      (Ok u, mkWorld (users w ++ [u]) (S (clock w)))
    else (Throw (ValidationError "User validation failed"), w).

Definition countDocuments : SE World nat :=
  fun w => (Ok (List.length (users w)), w).

Definition find_existing (name : string) (mail : option string)
  : SE World bool :=
  fun w =>
    (Ok (orb (is_some (findByUsernameOrEmail (users w) name))
             (match mail with
              | Some m =>
                  andb (negb (String.eqb m EmptyString))
                       (is_some (findByUsernameOrEmail (users w) m))
              | None => false
              end)), w).

Definition register (req : RegisterReq) : SE World Response :=
  try_catch
    (let name := str_or (rq_username req) EmptyString in
     let pass := str_or (rq_password req) EmptyString in
     if orb (String.eqb name EmptyString) (String.eqb pass EmptyString) then
       ret (mkResponse 400 false "Username and password are required"
                       NoPayload)
     else
       existingUser <- find_existing name (rq_email req) ;;
       if existingUser : bool then
         ret (mkResponse 400 false "Username or email already exists"
                         NoPayload)
       else
         let userData :=
           mkUserData name pass (rq_email req)
                      (str_or (rq_fullName req) name) None in
         userCount <- countDocuments ;;
         let userData :=
           if Nat.eqb userCount 0
           then mkUserData (ud_username userData) (ud_password userData)
                           (ud_email userData) (ud_fullName userData)
                           (Some "admin")
           else userData in
         user <- create_user userData ;;
         let token := generateToken user in
         ret (mkResponse 201 true "User registered successfully"
                (Registered token (user_id user) (username user)
                            (email user) (role user) (fullName user)
                            (createdAt user))))
    (fun error =>
       ret (mkResponse 500 false "Error registering user"
                       (ErrorMessage (message error)))).

(** A sequence of registration requests, handled one after the other. *)
Fixpoint register_all (reqs : list RegisterReq) (w : World)
  : list Response * World :=
  match reqs with
  | [] => ([], w)
  | q :: rest =>
      let (r, w') := register q w in
      let (rs, w'') := register_all rest w' in
      (match r with Ok resp => resp :: rs | Throw _ => rs end, w'')
  end.

(** The role reported by a response that created an account. *)
Definition created_role (r : Response) : option string :=
  match payload r with
  | Registered _ _ _ _ ro _ _ => if Nat.eqb (code r) 201 then Some ro else None
  | _ => None
  end.

Fixpoint created_roles (rs : list Response) : list string :=
  match rs with
  | [] => []
  | r :: rest =>
      match created_role r with
      | Some ro => ro :: created_roles rest
      | None => created_roles rest
      end
  end.

End Handlers.

(** The roles of the first [n] accounts, in the order of their creation. *)
Definition expected_roles (n : nat) : list string :=
  match n with
  | 0 => []
  | S k => "admin" :: repeat "user" k
  end.

End AuthController.

(* ================================================================== *)
(** ** Datasets and the dataset controller *)
(* ================================================================== *)

Module DatasetController.

Definition ObjectId := nat.

Record Dataset := mkDataset {
  ds_id : ObjectId;
  ds_name : string;
  ds_description : string;
  ds_format : string;
  ds_visibility : string;
  ds_tags : list string;
  ds_creator : ObjectId;
  ds_location : string;
  ds_fileName : string;
  ds_isActive : bool
}.

(** The datasets collection and the directories that exist on disk. *)
Record World := mkWorld {
  datasets : list Dataset;
  dirs : list string
}.

Record CreateReq := mkCreateReq {
  cr_user : ObjectId;
  cr_name : string;
  cr_description : string;
  cr_format : string;
  cr_visibility : option string;
  cr_tags : option (list string)
}.

Inductive Payload :=
| NoPayload
| ErrorMessage (m : string)
| Data (d : Dataset).

Record Response := mkResponse {
  code : nat;
  success : bool;
  msg : string;
  payload : Payload
}.

(** [Dataset.findOne({ name, creator })]: the first document whose [name]
    and [creator] both match; the query names no other field. *)
Definition findOne_name_creator (name : string) (creator : ObjectId)
           (ds : list Dataset) : option Dataset :=
  find (fun d => andb (String.eqb (ds_name d) name)
                      (Nat.eqb (ds_creator d) creator)) ds.

(** The white space of ASCII: space, tab, line feed, vertical tab, form
    feed and carriage return. The [\s] of a regular expression also matches
    white space outside ASCII (U+00A0, U+2028, ...), and [toLowerCase]
    also maps capital letters outside ASCII: [file_name] is the name that
    the code computes for names made of ASCII characters only. *)
Definition is_space (c : ascii) : bool :=
  let n := nat_of_ascii c in
  orb (Nat.eqb n 32) (andb (Nat.leb 9 n) (Nat.leb n 13)).

(** [name.replace(/\s+/g, '_')]: every maximal run of white space becomes one
    underscore. *)
Fixpoint replace_spaces (in_run : bool) (s : string) : string :=
  match s with
  | EmptyString => EmptyString
  | String c s' =>
      if is_space c then
        if in_run then replace_spaces true s'
        else String "_"%char (replace_spaces true s')
      else String c (replace_spaces false s')
  end.

Definition file_name (name format : string) : string :=
  (toLowerCase (replace_spaces false name) ++ "." ++ format)%string.

Section Handlers.

(** [DATASET_DIR], and whether [Dataset.create] accepts the document
    (schema validation). *)
Variable DATASET_DIR : string.
Variable create_accepts : list Dataset -> CreateReq -> bool.

Definition user_dir (u : ObjectId) : string :=
  (DATASET_DIR ++ "/" ++ nat_toString u)%string.

(** [if (!fs.existsSync(dir)) fs.mkdirSync(dir, { recursive: true })]. *)
Definition ensure_dir (dir : string) : SE World unit :=
  fun w =>
    if existsb (String.eqb dir) (dirs w) then (Ok tt, w)
    else (Ok tt, mkWorld (datasets w) (dirs w ++ [dir])).

(** Modelled from the spec: [isActive] is the soft-delete flag of the
    Dataset schema ([models/datasetModel.js] is not among the sources); a
    new dataset is active. *)
Definition create (req : CreateReq) (location : string) : SE World Dataset :=
  fun w =>
    if create_accepts (datasets w) req then
      let d := mkDataset (List.length (datasets w)) (cr_name req)
                 (cr_description req) (cr_format req)
                 (Adapter.or_default (cr_visibility req) "private")
                 (Adapter.or_default (cr_tags req) [])
                 (cr_user req) location
                 (file_name (cr_name req) (cr_format req)) true in
      (Ok d, mkWorld (datasets w ++ [d]) (dirs w))
    else (Throw (ValidationError "Dataset validation failed"), w).

Definition createDataset (req : CreateReq) : SE World Response :=
  try_catch
    (fun w =>
       match findOne_name_creator (cr_name req) (cr_user req) (datasets w)
       with
       | Some existingDataset =>
           (Ok (mkResponse 400 false
                  "You already have a dataset with this name" NoPayload), w)
       | None =>
           (let userDatasetDir := user_dir (cr_user req) in
            ensure_dir userDatasetDir ;;
            dataset <- create req userDatasetDir ;;
            ret (mkResponse 201 true "Dataset created successfully"
                            (Data dataset))) w
       end)
    (fun error =>
       ret (mkResponse 500 false "Error creating dataset"
                       (ErrorMessage (message error)))).

Definition set_inactive (d : Dataset) : Dataset :=
  mkDataset (ds_id d) (ds_name d) (ds_description d) (ds_format d)
            (ds_visibility d) (ds_tags d) (ds_creator d) (ds_location d)
            (ds_fileName d) false.

(** [deleteDataset]: the soft delete. *)
Definition deleteDataset (user : ObjectId) (id : ObjectId)
  : SE World Response :=
  try_catch
    (fun w =>
       match find (fun d => Nat.eqb (ds_id d) id) (datasets w) with
       | None => (Ok (mkResponse 404 false "Dataset not found" NoPayload), w)
       | Some dataset =>
           if negb (Nat.eqb (ds_creator dataset) user) then
             (Ok (mkResponse 403 false
                    "You can only delete datasets you created" NoPayload), w)
           else
             (Ok (mkResponse 200 true "Dataset deleted successfully"
                             NoPayload),
              mkWorld (map (fun d => if Nat.eqb (ds_id d) id
                                     then set_inactive d else d)
                           (datasets w))
                      (dirs w))
       end)
    (fun error =>
       ret (mkResponse 500 false "Error deleting dataset"
                       (ErrorMessage (message error)))).

(** An active dataset of [creator] called [name]. *)
Definition has_active (name : string) (creator : ObjectId)
           (ds : list Dataset) : bool :=
  existsb (fun d => andb (ds_isActive d)
                         (andb (String.eqb (ds_name d) name)
                               (Nat.eqb (ds_creator d) creator))) ds.

(** A dataset of [creator] called [name], active or not. *)
Definition has_named (name : string) (creator : ObjectId)
           (ds : list Dataset) : bool :=
  existsb (fun d => andb (String.eqb (ds_name d) name)
                         (Nat.eqb (ds_creator d) creator)) ds.

End Handlers.
End DatasetController.

(* ================================================================== *)
(** ** A library double, for running the model on concrete inputs *)
(* ================================================================== *)

Module Double.

(** A tensor library that offers the eight named factories and no other,
    accepts every call, loads [base] from any path, predicts [out] and
    reports [fit] from a fit. *)
Definition lib_with (base : Model) (out : list (list Num)) (fit : FitResult)
  : TensorLib :=
  {| tf_layers_other := fun _ => None;
     tf_layer_accepts := fun _ _ => true;
     tf_add_accepts := fun _ _ => true;
     tf_compile_accepts := fun _ _ => true;
     tf_compile_sets_optimizer := fun _ _ => false;
     tf_loadLayersModel := fun _ => Ok base;
     tf_tensor2d_accepts := fun _ => true;
     tf_predict := fun _ _ => Ok out;
     tf_fit := fun m _ _ _ => Ok (fit, m);
     tf_save_accepts := fun _ _ => true;
     tf_countParams := fun _ => 0 |}.

Definition one_epoch : FitResult :=
  mkFitResult [0] [(7 # 10)%Q] [(1 # 2)%Q].

(** A convolutional base model: convolution, pooling, flatten, dense. *)
Definition cnn_base : Model :=
  mkModel [mkLayer "Conv2D" [("filters", VNum 8%Q)] true;
           mkLayer "MaxPooling2D" [("poolSize", VNum 2%Q)] true;
           mkLayer "Flatten" [] true;
           mkLayer "Dense" [("units", VNum 10%Q)] true]
          None.

(** A dense base model. *)
Definition mlp_base : Model :=
  mkModel [mkLayer "Dense" [("units", VNum 32%Q)] true;
           mkLayer "Dropout" [("rate", VNum (1 # 2)%Q)] true;
           mkLayer "Dense" [("units", VNum 3%Q)] true]
          None.

Definition lib : TensorLib :=
  lib_with mlp_base [[Finite (9 # 10)%Q]] one_epoch.

(** The history of a fit that records a loss and an accuracy for each epoch
    when the validation split leaves an example to train on, and records
    nothing when it leaves none. *)
Definition split_history (x : list (list Q)) (a : FitArgs) : FitResult :=
  let n := fit_epochs a in
  if Z.eqb (training_examples (List.length x) a) 0
  then mkFitResult (seq 0 n) [] []
  else mkFitResult (seq 0 n) (repeat (7 # 10)%Q n) (repeat (1 # 2)%Q n).

(** The library [lib] with two rules of the real one: the first layer of a
    sequential model has to name its input shape, and a model without
    layers is not compiled. *)
Definition lib_shapes : TensorLib :=
  {| tf_layers_other := fun _ => None;
     tf_layer_accepts := fun _ _ => true;
     tf_add_accepts :=
       fun m l => match layers m with
                  | [] => Adapter.names_input_shape (config l)
                  | _ :: _ => true
                  end;
     tf_compile_accepts :=
       fun m _ => match layers m with [] => false | _ :: _ => true end;
     tf_compile_sets_optimizer := fun _ _ => false;
     tf_loadLayersModel := fun _ => Ok mlp_base;
     tf_tensor2d_accepts := fun _ => true;
     tf_predict := fun _ _ => Ok [[Finite (9 # 10)%Q]];
     tf_fit := fun m _ _ _ => Ok (one_epoch, m);
     tf_save_accepts := fun _ _ => true;
     tf_countParams := fun _ => 0 |}.

(** The library [lib] with a fit that reports [split_history]. *)
Definition lib_split : TensorLib :=
  {| tf_layers_other := fun _ => None;
     tf_layer_accepts := fun _ _ => true;
     tf_add_accepts := fun _ _ => true;
     tf_compile_accepts := fun _ _ => true;
     tf_compile_sets_optimizer := fun _ _ => false;
     tf_loadLayersModel := fun _ => Ok mlp_base;
     tf_tensor2d_accepts := fun _ => true;
     tf_predict := fun _ _ => Ok [[Finite (9 # 10)%Q]];
     tf_fit := fun m x _ a => Ok (split_history x a, m);
     tf_save_accepts := fun _ _ => true;
     tf_countParams := fun _ => 0 |}.

(** The adapter after [loadModel()] with the default arguments. *)
Definition live : Adapter.Runtime :=
  snd (@Adapter.loadModel lib None Adapter.no_config Adapter.boot).

(** The document that [initializeModel] stores for an empty request. *)
Definition default_doc : AiController.AIModelDoc :=
  AiController.mkDoc 0 "Default Model" "Created via API" "tensorflow" None
    AiController.default_config (VArr []) "initialized" None [] [] false
    None None 0.

(** A process that has just started: the collection holds the document of a
    model initialized earlier, the adapter holds no live model. *)
Definition restarted : AiController.World :=
  AiController.mkWorld Adapter.boot [default_doc] 1 1.

(** A process with nothing in its collections. *)
Definition empty_world : AiController.World :=
  AiController.mkWorld Adapter.boot [] 0 0.

(** A private model without an owner (initialized with no [userId]) and a
    private model owned by user 7, in one collection. *)
Definition owned_doc : AiController.AIModelDoc :=
  AiController.mkDoc 1 "Owned" "Private model of user 7" "tensorflow"
    (Some 7) AiController.default_config (VArr []) "trained" None [] []
    false None None 1.

Definition two_models : AiController.World :=
  AiController.mkWorld Adapter.boot [default_doc; owned_doc] 2 2.

(** A user store whose lookup compares user names and e-mail addresses, and
    which accepts every document. *)
Definition find_user (us : list AuthController.User) (key : string)
  : option AuthController.User :=
  find (fun u => orb (String.eqb (AuthController.username u) key)
                     (match AuthController.email u with
                      | Some m => String.eqb m key
                      | None => false
                      end)) us.

Definition sales_request : DatasetController.CreateReq :=
  DatasetController.mkCreateReq 2 "sales" "Monthly sales" "csv" None None.

(** User 2 creates the dataset [sales] and deletes it. *)
Definition sales_deleted : DatasetController.World :=
  snd (DatasetController.deleteDataset 2 0
         (snd (DatasetController.createDataset "/srv/app/datasets"
                 (fun _ _ => true) sales_request
                 (DatasetController.mkWorld [] [])))).

End Double.

(* ================================================================== *)
(** ** The adapter, continued: output layers and hyperparameters *)
(* ================================================================== *)

Module AdapterMore.

Import Adapter.

(** The layer types that [addOutputLayers] constructs: four of the eight. *)
Definition output_types : list string :=
  ["dense"; "conv2d"; "flatten"; "dropout"].

Definition is_output_type (d : LayerDesc) : bool :=
  existsb (String.eqb (ld_type d)) output_types.

(** The case labels of the [switch] in [addOutputLayers]. *)
Definition output_kind (t : string) : option LayerKind :=
  match kind_of_key t with
  | Some Dense => Some Dense
  | Some Conv2d => Some Conv2d
  | Some Flatten => Some Flatten
  | Some Dropout => Some Dropout
  | _ => None
  end.

Definition output_warning (d : LayerDesc) : string :=
  ("Unsupported layer type for output: " ++ ld_type d)%string.

(** [{...a, ...b}] on hyperparameters: a key of [b] wins, a key that [b]
    lacks keeps the value of [a]. *)
Definition pick {A} (a b : option A) : option A :=
  match b with Some _ => b | None => a end.

Definition merge_hp (a b : Hyper) : Hyper :=
  mkHyper (pick (hp_optimizer a) (hp_optimizer b))
          (pick (hp_lossFunction a) (hp_lossFunction b))
          (pick (hp_metrics a) (hp_metrics b))
          (pick (hp_learningRate a) (hp_learningRate b)).

(** The argument of [compile] in [updateHyperparameters] and in
    [trainModel]. *)
Definition compile_args_of (hp : Hyper) : CompileArgs :=
  mkCompileArgs (str_or (hp_optimizer hp) "adam")
                (str_or (hp_lossFunction hp) "categoricalCrossentropy")
                (or_default (hp_metrics hp) ["accuracy"])
                (Some (learningRate_or_default hp)).

Section Methods.
Context {lib : TensorLib}.

(** The callback of [outputLayers.forEach] in [addOutputLayers]. *)
Definition add_output_layer (layer : LayerDesc) (index : nat) : Exec unit :=
  let layerConfig := ld_config layer in
  match output_kind (ld_type layer) with
  | Some k =>
      l <- lift (layer_of_kind k layerConfig) ;;
      model_add l
  | None => warn (output_warning layer)
  end.

(** [addOutputLayers(outputLayers = [])]. *)
Definition addOutputLayers (outputLayers : list LayerDesc) : Exec bool :=
  try_catch
    (s <- this ;;
     match model s with
     | None => no_model
     | Some _ =>
         forEach add_output_layer outputLayers ;;
         ret true
     end)
    (fun error => throw error).

(** [updateHyperparameters(hyperparameters = {})]. *)
Definition updateHyperparameters (hyperparameters : Hyper) : Exec bool :=
  try_catch
    (s <- this ;;
     match model s with
     | None => no_model
     | Some _ =>
         update (set_hyperparameters
                   (Some (merge_hp (or_default (Adapter.hyperparameters s)
                                               no_hp)
                                   hyperparameters))) ;;
         s' <- this ;;
         let hp := or_default (Adapter.hyperparameters s') no_hp in
         model_compile (compile_args_of hp) ;;
         ret true
     end)
    (fun error => throw error).

End Methods.

(** [l] was constructed by [addOutputLayers] for the descriptor [d]: its
    flag is the one that [d]'s configuration asks for, set when it asks for
    none. *)
Definition output_of (l : Layer) (d : LayerDesc) : Prop :=
  exists k, ld_type d = kind_key k /\ className l = kind_className k /\
            trainable l = trainable_of (ld_config d) /\
            config l = ld_config d.

End AdapterMore.

(* ================================================================== *)
(** ** The AI controller, continued *)
(* ================================================================== *)

Module AiControllerMore.

Import AiController.

Definition with_isPublic (b : bool) (d : AIModelDoc) : AIModelDoc :=
  mkDoc (doc_id d) (doc_name d) (doc_description d) (doc_modelType d)
        (doc_userId d) (doc_config d) (doc_architecture d) (doc_status d)
        (doc_trainingHistory d) (doc_trainingData d) (doc_predictions d)
        b (doc_baseModel d) (doc_freezeBaseLayers d) (doc_createdAt d).

(** The process together with the [modelPath] field of the records, kept in
    a table of its own: the path under which a model was last saved. *)
Record Store := mkStore {
  world : World;
  modelPaths : list (ObjectId * string)
}.

Definition in_world {A} (c : Handler A) : SE Store A :=
  fun s =>
    let (r, w') := c (world s) in
    (r, mkStore w' (modelPaths s)).

(** [aiModel.modelPath = path]. *)
Definition set_modelPath (id : ObjectId) (path : string) : SE Store unit :=
  fun s =>
    (Ok tt,
     mkStore (world s)
       ((id, path)
          :: filter (fun e => negb (Nat.eqb (fst e) id)) (modelPaths s))).

Definition modelPath_of (id : ObjectId) (s : Store) : option string :=
  option_map snd (find (fun e => Nat.eqb (fst e) id) (modelPaths s)).

Record SaveReq := mkSaveReq {
  sv_modelId : option ObjectId;
  sv_savePath : option string
}.

(** The owner-only requests; [req.user._id] is the authenticated
    requester. *)
Record VisibilityReq := mkVisibilityReq {
  vq_user : ObjectId;
  vq_modelId : option ObjectId;
  vq_isPublic : option bool
}.

Record ArchitectureReq := mkArchitectureReq {
  aq_user : ObjectId;
  aq_modelId : option ObjectId;
  aq_layers : Val;
  aq_inputShape : Val;
  aq_outputShape : Val
}.

Record HyperparametersReq := mkHyperparametersReq {
  hq_user : ObjectId;
  hq_modelId : option ObjectId;
  hq_hyperparameters : Val
}.

Record VisualizationReq := mkVisualizationReq {
  zq_user : ObjectId;
  zq_modelId : option ObjectId;
  zq_type : Val;
  zq_data : Val
}.

Record VersionReq := mkVersionReq {
  rq_user : ObjectId;
  rq_modelId : option ObjectId;
  rq_description : Val;
  rq_modelPath : option string;
  rq_performance : Val
}.

(** [`file://./models/model_${modelId}`]. *)
Definition default_save_path (modelId : ObjectId) : string :=
  ("file://./models/model_" ++ nat_toString modelId)%string.

(** [`file://./models/model_${modelId}_v${model.currentVersion + 1}`]. *)
Definition default_version_path (modelId : ObjectId) (currentVersion : nat)
  : string :=
  ("file://./models/model_" ++ nat_toString modelId ++ "_v"
     ++ nat_toString (currentVersion + 1))%string.

(** [model.userId.toString() !== userId.toString()]. *)
Definition not_owner (model : AIModelDoc) (userId : ObjectId) : Result bool :=
  match owner_toString model with
  | Ok owner => Ok (negb (String.eqb owner (nat_toString userId)))
  | Throw e => Throw e
  end.

Definition forbidden (m : string) : Response := fail 403 m.

Section Handlers.
Context {lib : TensorLib}.
Variable MODELS_DIR : string.
Variable node_path_join : string -> string -> string.

(** The methods of the AIModel schema that the handlers below call, and its
    [currentVersion] field; [models/aiModel.js] is not among the sources. *)
Variable schema_updateArchitecture :
  AIModelDoc -> Val -> Val -> Val -> Handler AIModelDoc.
Variable schema_updateHyperparameters : AIModelDoc -> Val -> Handler AIModelDoc.
Variable schema_addVisualization : AIModelDoc -> Val -> Val -> Handler Val.
Variable schema_createVersion :
  AIModelDoc -> string -> Val -> Val -> Handler AIModelDoc.
Variable currentVersion : AIModelDoc -> nat.

(** [saveModel] of the controller; [now] is the time of the save (the path
    and the id that the 200 response repeats are left out of the
    payload). *)
Definition saveModel (req : SaveReq) (now : string) : SE Store Response :=
  try_catch
    (match sv_modelId req with
     | None => ret (fail 400 "Model ID is required")
     | Some modelId =>
         found <- in_world (findById modelId) ;;
         match found with
         | None => ret (fail 404 "Model not found")
         | Some aiModel =>
             let path := str_or (sv_savePath req)
                                (default_save_path modelId) in
             success <- in_world
                          (adapter (Adapter.saveModel MODELS_DIR
                                      node_path_join path [] now)) ;;
             if success : bool then
               set_modelPath (doc_id aiModel) path ;;
               in_world (save (with_status "saved" aiModel)) ;;
               ret (mkResponse 200 true "Model saved successfully" NoPayload)
             else ret (fail 500 "Failed to save model")
         end
     end)
    (fun error => ret (fail_with 500 "Error saving model" error)).

Definition toggleModelVisibility (req : VisibilityReq) : Handler Response :=
  try_catch
    (let userId := vq_user req in
     match vq_modelId req, vq_isPublic req with
     | Some modelId, Some isPublic =>
         found <- findById modelId ;;
         match found with
         | None => ret (fail 404 "Model not found")
         | Some model =>
             foreign <- lift (not_owner model userId) ;;
             if foreign : bool then
               ret (forbidden
                      "You do not have permission to change this model's visibility")
             else
               let model := with_isPublic isPublic model in
               save model ;;
               ret (mkResponse 200 true
                      (if isPublic then "Model is now public"
                       else "Model is now private")
                      (ModelInfo (doc_id model) (doc_name model)
                                 (doc_description model) (doc_baseModel model)
                                 (doc_createdAt model)))
         end
     | _, _ => ret (fail 400 "Model ID and isPublic flag are required")
     end)
    (fun error =>
       ret (fail_with 500 "Error updating model visibility" error)).

Definition updateArchitecture (req : ArchitectureReq) : Handler Response :=
  try_catch
    (let userId := aq_user req in
     match aq_modelId req with
     | Some modelId =>
         if negb (truthy (aq_layers req)) then
           ret (fail 400 "Model ID and layers are required")
         else
           found <- findById modelId ;;
           match found with
           | None => ret (fail 404 "Model not found")
           | Some model =>
               foreign <- lift (not_owner model userId) ;;
               if foreign : bool then
                 ret (forbidden
                        "You do not have permission to update this model")
               else
                 model' <- schema_updateArchitecture model (aq_layers req)
                             (aq_inputShape req) (aq_outputShape req) ;;
                 ret (mkResponse 200 true
                        "Model architecture updated successfully"
                        (ModelInfo (doc_id model') (doc_name model')
                                   (doc_description model')
                                   (doc_baseModel model')
                                   (doc_createdAt model')))
           end
     | None => ret (fail 400 "Model ID and layers are required")
     end)
    (fun error =>
       ret (fail_with 500 "Error updating model architecture" error)).

Definition updateHyperparameters (req : HyperparametersReq)
  : Handler Response :=
  try_catch
    (let userId := hq_user req in
     match hq_modelId req with
     | Some modelId =>
         if negb (truthy (hq_hyperparameters req)) then
           ret (fail 400 "Model ID and hyperparameters are required")
         else
           found <- findById modelId ;;
           match found with
           | None => ret (fail 404 "Model not found")
           | Some model =>
               foreign <- lift (not_owner model userId) ;;
               if foreign : bool then
                 ret (forbidden
                        "You do not have permission to update this model")
               else
                 model' <- schema_updateHyperparameters model
                             (hq_hyperparameters req) ;;
                 ret (mkResponse 200 true
                        "Model hyperparameters updated successfully"
                        (ModelInfo (doc_id model') (doc_name model')
                                   (doc_description model')
                                   (doc_baseModel model')
                                   (doc_createdAt model')))
           end
     | None => ret (fail 400 "Model ID and hyperparameters are required")
     end)
    (fun error =>
       ret (fail_with 500 "Error updating hyperparameters" error)).

Definition addVisualization (req : VisualizationReq) : Handler Response :=
  try_catch
    (let userId := zq_user req in
     match zq_modelId req with
     | Some modelId =>
         if orb (negb (truthy (zq_type req))) (negb (truthy (zq_data req)))
         then
           ret (fail 400
                  "Model ID, visualization type, and data are required")
         else
           found <- findById modelId ;;
           match found with
           | None => ret (fail 404 "Model not found")
           | Some model =>
               foreign <- lift (not_owner model userId) ;;
               if foreign : bool then
                 ret (forbidden
                        "You do not have permission to add visualizations to this model")
               else
                 visualization <- schema_addVisualization model (zq_type req)
                                    (zq_data req) ;;
                 ret (mkResponse 200 true "Visualization added successfully"
                                 NoPayload)
           end
     | None =>
         ret (fail 400 "Model ID, visualization type, and data are required")
     end)
    (fun error => ret (fail_with 500 "Error adding visualization" error)).

Definition createModelVersion (req : VersionReq) : Handler Response :=
  try_catch
    (let userId := rq_user req in
     match rq_modelId req with
     | None => ret (fail 400 "Model ID is required")
     | Some modelId =>
         found <- findById modelId ;;
         match found with
         | None => ret (fail 404 "Model not found")
         | Some model =>
             foreign <- lift (not_owner model userId) ;;
             if foreign : bool then
               ret (forbidden
                      "You do not have permission to version this model")
             else
               let path :=
                 str_or (rq_modelPath req)
                        (default_version_path modelId (currentVersion model))
               in
               model' <- schema_createVersion model path (rq_description req)
                           (rq_performance req) ;;
               ret (mkResponse 200 true "Model version created successfully"
                      (ModelInfo (doc_id model') (doc_name model')
                                 (doc_description model')
                                 (doc_baseModel model')
                                 (doc_createdAt model')))
         end
     end)
    (fun error => ret (fail_with 500 "Error creating model version" error)).

End Handlers.

End AiControllerMore.

(* ================================================================== *)
(** ** The dataset controller, continued *)
(* ================================================================== *)

Module DatasetControllerMore.

Import DatasetController.

Record UpdateReq := mkUpdateReq {
  ur_user : ObjectId;
  ur_id : ObjectId;
  ur_name : option string;
  ur_description : option string;
  ur_visibility : option string;
  ur_tags : option (list string)
}.

(** [Dataset.findById(id)]. *)
Definition findById (id : ObjectId) (ds : list Dataset) : option Dataset :=
  find (fun d => Nat.eqb (ds_id d) id) ds.

(** [Dataset.findOne({ name, creator, _id: { $ne: id } })]. *)
Definition findOne_other (name : string) (creator id : ObjectId)
           (ds : list Dataset) : option Dataset :=
  find (fun d => andb (andb (String.eqb (ds_name d) name)
                            (Nat.eqb (ds_creator d) creator))
                      (negb (Nat.eqb (ds_id d) id))) ds.

(** The assignments of [updateDataset] to the document. *)
Definition apply_update (req : UpdateReq) (d : Dataset) : Dataset :=
  mkDataset (ds_id d)
            (str_or (ur_name req) (ds_name d))
            (match ur_description req with
             | Some desc => desc
             | None => ds_description d
             end)
            (ds_format d)
            (str_or (ur_visibility req) (ds_visibility d))
            (match ur_tags req with Some t => t | None => ds_tags d end)
            (ds_creator d) (ds_location d) (ds_fileName d) (ds_isActive d).

(** [doc.save()] on a document that is in the collection. *)
Definition replace (d : Dataset) (ds : list Dataset) : list Dataset :=
  map (fun d' => if Nat.eqb (ds_id d') (ds_id d) then d else d') ds.

Section Handlers.
Variable DATASET_DIR : string.
Variable create_accepts : list Dataset -> CreateReq -> bool.

(** Whether [dataset.save()] accepts the updated document (schema
    validation). *)
Variable save_accepts : Dataset -> bool.

Definition updateDataset (req : UpdateReq) : SE World Response :=
  try_catch
    (fun w =>
       match findById (ur_id req) (datasets w) with
       | None => (Ok (mkResponse 404 false "Dataset not found" NoPayload), w)
       | Some dataset =>
           if negb (Nat.eqb (ds_creator dataset) (ur_user req)) then
             (Ok (mkResponse 403 false
                    "You can only update datasets you created" NoPayload), w)
           else
             let renamed :=
               match ur_name req with
               | Some name =>
                   andb (negb (String.eqb name EmptyString))
                        (negb (String.eqb name (ds_name dataset)))
               | None => false
               end in
             let nameExists :=
               if renamed then
                 findOne_other (str_or (ur_name req) EmptyString)
                               (ur_user req) (ds_id dataset) (datasets w)
               else None in
             match nameExists with
             | Some _ =>
                 (Ok (mkResponse 400 false
                        "You already have another dataset with this name"
                        NoPayload), w)
             | None =>
                 let dataset' := apply_update req dataset in
                 if save_accepts dataset' then
                   (Ok (mkResponse 200 true "Dataset updated successfully"
                                   (Data dataset')),
                    mkWorld (replace dataset' (datasets w)) (dirs w))
                 else
                   (Throw (ValidationError "Dataset validation failed"), w)
             end
       end)
    (fun error =>
       ret (mkResponse 500 false "Error updating dataset"
                       (ErrorMessage (message error)))).

(** The requests that change the basic fields of datasets. *)
Inductive Request :=
| Create (req : CreateReq)
| Update (req : UpdateReq)
| Delete (user id : ObjectId).

Definition handle (r : Request) : SE World Response :=
  match r with
  | Create req => createDataset DATASET_DIR create_accepts req
  | Update req => updateDataset req
  | Delete user id => deleteDataset user id
  end.

(** Requests handled one after the other. *)
Fixpoint run (rs : list Request) (w : World) : World :=
  match rs with
  | [] => w
  | r :: rest => run rest (snd (handle r w))
  end.

End Handlers.

(** The pair that must identify a dataset: its creator and its name. *)
Definition key (d : Dataset) : ObjectId * string :=
  (ds_creator d, ds_name d).

(** The collections these handlers produce: the ids are the positions. *)
Definition ids_in_order (ds : list Dataset) : Prop :=
  map ds_id ds = seq 0 (List.length ds).

Definition well_formed (ds : list Dataset) : Prop :=
  ids_in_order ds /\ NoDup (map key ds).

End DatasetControllerMore.

(* ================================================================== *)
(** ** The dataset controller: listing and access *)
(* ================================================================== *)

Module DatasetAccess.

Import DatasetController.

(** An entry of [sharedWith]. *)
Record Share := mkShare {
  sh_user : ObjectId;
  sh_accessLevel : string
}.

(** [dataset.statistics]; a field that was never set is [VUndefined]. *)
Record Statistics := mkStatistics {
  st_summary : Val;
  st_distributions : Val;
  st_correlations : Val
}.

(** A dataset document with the further fields that the listing and the
    access checks read. *)
Record Doc := mkDoc {
  core : Dataset;
  sharedWith : list Share;
  updatedAt : nat;
  statistics : option Statistics
}.

Definition Collection := list Doc.

(** The conditions inside [$or] that the listing uses; [SharedWithUser u]
    is ['sharedWith.user': u], which holds when some entry of the array has
    that user. *)
Inductive Cond :=
| CreatorIs (u : ObjectId)
| VisibilityIs (v : string)
| SharedWithUser (u : ObjectId).

(** The [query] object of [getDatasets]: the alternatives of [$or], each a
    conjunction, and the keys [isActive], [format] and [tags]; [tags: t] on
    an array field holds when the array has the element [t]. *)
Record Query := mkQuery {
  q_or : list (list Cond);
  q_isActive : bool;
  q_format : option string;
  q_tags : option string
}.

Definition set_or (q : Query) (alts : list (list Cond)) : Query :=
  mkQuery alts (q_isActive q) (q_format q) (q_tags q).
Definition set_format (q : Query) (f : string) : Query :=
  mkQuery (q_or q) (q_isActive q) (Some f) (q_tags q).
Definition set_tags (q : Query) (t : string) : Query :=
  mkQuery (q_or q) (q_isActive q) (q_format q) (Some t).

Definition holds (d : Doc) (c : Cond) : bool :=
  match c with
  | CreatorIs u => Nat.eqb (ds_creator (core d)) u
  | VisibilityIs v => String.eqb (ds_visibility (core d)) v
  | SharedWithUser u => existsb (fun s => Nat.eqb (sh_user s) u) (sharedWith d)
  end.

(** Whether a document matches a query. *)
Definition matches (q : Query) (d : Doc) : bool :=
  andb (existsb (forallb (holds d)) (q_or q))
       (andb (Bool.eqb (ds_isActive (core d)) (q_isActive q))
             (andb (match q_format q with
                    | Some f => String.eqb (ds_format (core d)) f
                    | None => true
                    end)
                   (match q_tags q with
                    | Some t => existsb (String.eqb t) (ds_tags (core d))
                    | None => true
                    end))).

(** The query string of [GET /datasets]. [lq_page] and [lq_limit] are what
    [parseInt] makes of the parameters, [None] standing for [NaN]; the other
    parameters are strings when present. *)
Record ListReq := mkListReq {
  lq_user : ObjectId;
  lq_page : option Z;
  lq_limit : option Z;
  lq_format : option string;
  lq_tag : option string;
  lq_visibility : option string
}.

Definition with_page (req : ListReq) (p : Z) : ListReq :=
  mkListReq (lq_user req) (Some p) (lq_limit req) (lq_format req)
            (lq_tag req) (lq_visibility req).

(** [parseInt(x) || d]: [NaN] and 0 are falsy. *)
Definition int_or (x : option Z) (d : Z) : Z :=
  match x with
  | Some 0%Z | None => d
  | Some z => z
  end.

(** [Math.ceil(a / b)] on integers, [b] not 0. *)
Definition ceil_div (a b : Z) : Z := (- ((- a) / b))%Z.

(** The construction of [query] in [getDatasets]. *)
Definition build_query (req : ListReq) : Query :=
  let u := lq_user req in
  let query :=
    mkQuery [[CreatorIs u]; [VisibilityIs "public"]; [SharedWithUser u]]
            true None None in
  let query :=
    if Adapter.truthy_str (lq_format req)
    then set_format query (str_or (lq_format req) EmptyString)
    else query in
  let query :=
    if Adapter.truthy_str (lq_tag req)
    then set_tags query (str_or (lq_tag req) EmptyString)
    else query in
  if Adapter.truthy_str (lq_visibility req) then
    let v := str_or (lq_visibility req) EmptyString in
    let alts := [[CreatorIs u; VisibilityIs v]] in
    let alts :=
      if negb (String.eqb v "private")
      then alts ++ [[VisibilityIs "public"]]
      else alts in
    let alts := alts ++ [[SharedWithUser u]] in
    set_or query alts
  else query.

Inductive Payload :=
| NoPayload
| ErrorMessage (m : string)
| One (d : Doc)
| Listing (count total : nat) (totalPages currentPage : Z) (data : list Doc).

Record Response := mkResponse {
  code : nat;
  success : bool;
  msg : string;
  payload : Payload
}.

Definition data_of (r : Result Response * Collection) : list Doc :=
  match fst r with
  | Ok resp =>
      match payload resp with
      | Listing _ _ _ _ data => data
      | _ => []
      end
  | Throw _ => []
  end.

Definition code_of (r : Result Response * Collection) : nat :=
  match fst r with
  | Ok resp => code resp
  | Throw _ => 0
  end.

Definition findById (id : ObjectId) (docs : Collection) : option Doc :=
  find (fun d => Nat.eqb (ds_id (core d)) id) docs.

Definition shared_with (u : ObjectId) (d : Doc) : bool :=
  existsb (fun s => Nat.eqb (sh_user s) u) (sharedWith d).

(** [['edit', 'admin'].includes(level)]. *)
Definition grants_edit (level : string) : bool :=
  existsb (String.eqb level) ["edit"; "admin"].

(** [hasEditAccess] of [updateStatistics] and [updateMetadata]. *)
Definition hasEditAccess (user : ObjectId) (d : Doc) : bool :=
  orb (Nat.eqb (ds_creator (core d)) user)
      (existsb (fun share => andb (Nat.eqb (sh_user share) user)
                                  (grants_edit (sh_accessLevel share)))
               (sharedWith d)).

Record StatisticsReq := mkStatisticsReq {
  sq_user : ObjectId;
  sq_id : ObjectId;
  sq_summary : Val;
  sq_distributions : Val;
  sq_correlations : Val
}.

(** [dataset.statistics?.f]. *)
Definition stat_field (f : Statistics -> Val) (s : option Statistics) : Val :=
  match s with Some st => f st | None => VUndefined end.

(** The object assigned to [dataset.statistics]. *)
Definition merged_statistics (req : StatisticsReq) (d : Doc) : Statistics :=
  mkStatistics
    (val_or (sq_summary req) (stat_field st_summary (statistics d)))
    (val_or (sq_distributions req)
            (stat_field st_distributions (statistics d)))
    (val_or (sq_correlations req)
            (stat_field st_correlations (statistics d))).

Definition set_statistics (d : Doc) (s : Statistics) : Doc :=
  mkDoc (core d) (sharedWith d) (updatedAt d) (Some s).

Section Handlers.

(** The order in which the store returns documents under
    [sort({ updatedAt: -1 })]. *)
Variable sort_updatedAt : list Doc -> list Doc.

(** Whether the account that an id refers to exists: [populate] puts the
    account in the place of the id, and [null] when there is none. *)
Variable user_exists : ObjectId -> bool.

(** [dataset.save()] after the assignment to [statistics]: the casts, the
    validation and the time stamps are the schema's. *)
Variable save : Doc -> Collection -> Result Collection.

(** [Dataset.find(query).skip(skip).limit(limit).sort(...)]: the sort is
    applied first whatever the order of the calls. The store rejects a skip
    below zero and reads a limit below zero as its absolute value. *)
Definition find_page (q : Query) (skip limit : Z) : SE Collection (list Doc) :=
  fun docs =>
    if Z.ltb skip 0 then
      (Throw (LibraryError "skip value must be non-negative"), docs)
    else
      (Ok (firstn (Z.abs_nat limit)
                  (skipn (Z.to_nat skip)
                         (sort_updatedAt (filter (matches q) docs)))),
       docs).

Definition countDocuments (q : Query) : SE Collection nat :=
  fun docs => (Ok (List.length (filter (matches q) docs)), docs).

Definition getDatasets (req : ListReq) : SE Collection Response :=
  try_catch
    (let page := int_or (lq_page req) 1 in
     let limit := int_or (lq_limit req) 10 in
     let skip := ((page - 1) * limit)%Z in
     let query := build_query req in
     datasets <- find_page query skip limit ;;
     total <- countDocuments query ;;
     ret (mkResponse 200 true EmptyString
            (Listing (List.length datasets) total
                     (ceil_div (Z.of_nat total) limit) page datasets)))
    (fun error =>
       ret (mkResponse 500 false "Error fetching datasets"
                       (ErrorMessage (message error)))).

Definition null_id : Error :=
  TypeError "Cannot read properties of null (reading '_id')".

(** [dataset.sharedWith.some(share => share.user._id.toString() === id)] on
    the populated entries. *)
Fixpoint some_shared (user : ObjectId) (shares : list Share) : Result bool :=
  match shares with
  | [] => Ok false
  | share :: rest =>
      if user_exists (sh_user share) then
        if Nat.eqb (sh_user share) user then Ok true
        else some_shared user rest
      else Throw null_id
  end.

(** [hasAccess] of [getDatasetById], on the populated document. *)
Definition hasAccess (user : ObjectId) (d : Doc) : Result bool :=
  if user_exists (ds_creator (core d)) then
    if Nat.eqb (ds_creator (core d)) user then Ok true
    else if String.eqb (ds_visibility (core d)) "public" then Ok true
    else some_shared user (sharedWith d)
  else Throw null_id.

Definition getDatasetById (user id : ObjectId) : SE Collection Response :=
  try_catch
    (fun docs =>
       match findById id docs with
       | None => (Ok (mkResponse 404 false "Dataset not found" NoPayload), docs)
       | Some dataset =>
           (allowed <- lift (hasAccess user dataset) ;;
            if allowed : bool then
              ret (mkResponse 200 true EmptyString (One dataset))
            else
              ret (mkResponse 403 false
                     "You do not have permission to access this dataset"
                     NoPayload)) docs
       end)
    (fun error =>
       ret (mkResponse 500 false "Error fetching dataset"
                       (ErrorMessage (message error)))).

Definition updateStatistics (req : StatisticsReq) : SE Collection Response :=
  try_catch
    (fun docs =>
       match findById (sq_id req) docs with
       | None => (Ok (mkResponse 404 false "Dataset not found" NoPayload), docs)
       | Some dataset =>
           if negb (hasEditAccess (sq_user req) dataset) then
             (Ok (mkResponse 403 false
                    "You do not have permission to update this dataset"
                    NoPayload), docs)
           else
             let dataset' :=
               set_statistics dataset (merged_statistics req dataset) in
             match save dataset' docs with
             | Ok docs' =>
                 (Ok (mkResponse 200 true
                        "Dataset statistics updated successfully"
                        (One dataset')), docs')
             | Throw e => (Throw e, docs)
             end
       end)
    (fun error =>
       ret (mkResponse 500 false "Error updating dataset statistics"
                       (ErrorMessage (message error)))).

End Handlers.

(** What a listing request asks for, in plain terms: the datasets in the
    requester's scope ... *)
Definition in_scope (req : ListReq) (d : Doc) : Prop :=
  let mine := ds_creator (core d) = lq_user req in
  let public := ds_visibility (core d) = "public" in
  let shared := shared_with (lq_user req) d = true in
  match lq_visibility req with
  | Some (String _ _ as v) =>
      (mine /\ ds_visibility (core d) = v) \/
      (v <> "private" /\ public) \/
      shared
  | _ => mine \/ public \/ shared
  end.

(** ... that are active and pass the format and tag filters. *)
Definition listed (req : ListReq) (d : Doc) : Prop :=
  ds_isActive (core d) = true /\
  in_scope req d /\
  (forall f, lq_format req = Some f -> f <> EmptyString ->
             ds_format (core d) = f) /\
  (forall t, lq_tag req = Some t -> t <> EmptyString ->
             In t (ds_tags (core d))).

End DatasetAccess.

(* ================================================================== *)
(** ** A collection of datasets used in the examples *)
(* ================================================================== *)

Module DatasetDouble.

Import DatasetController DatasetAccess.

(** Three accounts, 1, 2 and 3. Account 1 owns a private dataset shared with
    account 2 for viewing and a soft-deleted one; account 2 owns a public
    dataset; account 3 owns a private one. *)
Definition sales : Doc :=
  mkDoc (mkDataset 0 "sales" "Monthly sales" "csv" "private" ["finance"] 1
                   "/srv/app/datasets/1" "sales.csv" true)
        [mkShare 2 "view"] 10 None.

Definition weather : Doc :=
  mkDoc (mkDataset 1 "weather" "Daily weather" "json" "public" [] 2
                   "/srv/app/datasets/2" "weather.json" true)
        [] 20 None.

Definition archive : Doc :=
  mkDoc (mkDataset 2 "archive" "Old sales" "csv" "private" [] 1
                   "/srv/app/datasets/1" "archive.csv" false)
        [] 30 None.

Definition notes : Doc :=
  mkDoc (mkDataset 3 "notes" "Field notes" "txt" "private" [] 3
                   "/srv/app/datasets/3" "notes.txt" true)
        [] 40 None.

Definition docs : Collection := [sales; weather; archive; notes].

(** The collection is in the order of [updatedAt]; the store returns the
    latest first. *)
Definition latest_first (l : list Doc) : list Doc := rev l.

Definition known_account (u : ObjectId) : bool :=
  andb (Nat.leb 1 u) (Nat.leb u 3).

Definition save_in_place (d : Doc) (ds : Collection) : Result Collection :=
  Ok (map (fun x => if Nat.eqb (ds_id (core x)) (ds_id (core d))
                    then d else x) ds).

(** Account 2 asks for the private datasets, two per page. *)
Definition private_of_2 : ListReq :=
  mkListReq 2 None (Some 2%Z) None None (Some "private").

(** Account 2 asks for everything, one per page. *)
Definition all_of_2 : ListReq :=
  mkListReq 2 None (Some 1%Z) None None None.

End DatasetDouble.

(* ================================================================== *)
(** ** Authentication: the token utilities, the middleware, the admin
       handlers *)
(* ================================================================== *)

Module AuthMiddleware.

Import AuthController.

(** A user document with the fields that the middleware, the login and the
    admin handlers read and write. *)
Record Account := mkAccount {
  account : User;
  isActive : bool;
  lastLogin : option nat
}.

Definition acc_id (a : Account) : ObjectId := user_id (account a).
Definition acc_role (a : Account) : string := role (account a).

(** The payload that [generateToken] signs. *)
Record Claims := mkClaims {
  cl_id : ObjectId;
  cl_username : string;
  cl_email : option string;
  cl_role : string
}.

(** What the middleware reads of a request: the [Authorization] header and
    [req.cookies.token] ([None] when there are no cookies or no such
    cookie). *)
Record Req := mkReq {
  authorization : option string;
  cookie_token : option string
}.

(** [String.prototype.split] with a separator of one character. *)
Fixpoint split_on (c : ascii) (s : string) : list string :=
  match s with
  | EmptyString => [EmptyString]
  | String a s' =>
      if Ascii.eqb a c then EmptyString :: split_on c s'
      else match split_on c s' with
           | h :: t => String a h :: t
           | [] => [String a EmptyString]
           end
  end.

(** [extractToken]; [None] is [null] (or [undefined]). *)
Definition extractToken (req : Req) : option string :=
  if andb (Adapter.truthy_str (authorization req))
          (startsWith (str_or (authorization req) EmptyString) "Bearer ")
  then nth_error (split_on " "%char (str_or (authorization req) EmptyString)) 1
  else if Adapter.truthy_str (cookie_token req) then cookie_token req
  else None.

(** A middleware either calls [next()], and [req.user] is then an account,
    or answers. *)
Inductive Outcome :=
| Next (user : Account)
| Respond (code : nat) (message : string).

Definition findById (id : ObjectId) (accounts : list Account)
  : option Account :=
  find (fun a => Nat.eqb (acc_id a) id) accounts.

(** [authorize(roles)] applied to a request whose [req.user] is [user]. *)
Definition authorize (roles : list string) (user : option Account)
  : Outcome :=
  match user with
  | None => Respond 401 "Authentication required."
  | Some u =>
      if andb (negb (Nat.eqb (List.length roles) 0))
              (negb (existsb (String.eqb (acc_role u)) roles))
      then Respond 403 "Insufficient permissions to access this resource."
      else Next u
  end.

(** [ownershipOrAdmin(getResourceUserId)]; the getter may throw and may
    return [null]. *)
Definition ownershipOrAdmin (getResourceUserId : Result (option ObjectId))
           (user : option Account) : Outcome :=
  match user with
  | None => Respond 401 "Authentication required."
  | Some u =>
      if String.eqb (acc_role u) "admin" then Next u
      else
        match getResourceUserId with
        | Throw _ =>
            Respond 500 "Authorization check failed due to server error."
        | Ok resourceUserId =>
            match resourceUserId with
            | Some id =>
                if Nat.eqb id (acc_id u) then Next u
                else Respond 403
                       "You do not have permission to access this resource."
            | None =>
                Respond 403
                  "You do not have permission to access this resource."
            end
        end
  end.

Record RoleReq := mkRoleReq {
  rr_userId : option ObjectId;
  rr_role : option string
}.

(** [isActive] of the body is taken to be a boolean. *)
Record StatusReq := mkStatusReq {
  sr_userId : option ObjectId;
  sr_isActive : bool
}.

Record Reply := mkReply {
  rp_code : nat;
  rp_success : bool;
  rp_msg : string;
  rp_user : option Account;
  rp_error : option string
}.

(** A word between double quotes. *)
Definition quoted (s : string) : string :=
  String (ascii_of_nat 34) (s ++ String (ascii_of_nat 34) EmptyString).

Definition set_role (a : Account) (r : string) : Account :=
  let u := account a in
  mkAccount (mkUser (user_id u) (username u) (password u) (email u) r
                    (fullName u) (createdAt u))
            (isActive a) (lastLogin a).

Definition set_isActive (a : Account) (b : bool) : Account :=
  mkAccount (account a) b (lastLogin a).

(** [select('-password')]: the document without its password hash. *)
Definition without_password (a : Account) : Account :=
  let u := account a in
  mkAccount (mkUser (user_id u) (username u) EmptyString (email u) (role u)
                    (fullName u) (createdAt u))
            (isActive a) (lastLogin a).

Definition set_lastLogin (a : Account) (t : nat) : Account :=
  mkAccount (account a) (isActive a) (Some t).

(** The payload of [generateToken]. *)
Definition claims_of (a : Account) : Claims :=
  mkClaims (acc_id a) (username (account a)) (email (account a))
           (acc_role a).

Record LoginReq := mkLoginReq {
  lg_username : option string;
  lg_password : option string
}.

Record LoginReply := mkLoginReply {
  lr_code : nat;
  lr_msg : string;
  lr_token : option string;
  lr_user : option Account;
  lr_error : option string
}.

Definition replace (a : Account) (accounts : list Account) : list Account :=
  map (fun x => if Nat.eqb (acc_id x) (acc_id a) then a else x) accounts.

Section Middleware.

(** [jwt.verify(token, JWT_SECRET)]: the payload of a token that verifies,
    [None] when the call throws. *)
Variable jwt_verify : string -> option Claims.

(** Whether [user.save()] accepts the document. *)
Variable save_accepts : Account -> bool.

(** [verifyToken]: the catch block turns a throw into [null]. *)
Definition verifyToken (token : string) : option Claims := jwt_verify token.

(** [authenticate]. The account put on the request is the stored one,
    without its password hash. *)
Definition authenticate (accounts : list Account) (req : Req) : Outcome :=
  match extractToken req with
  | None | Some EmptyString =>
      Respond 401 "Authentication required. No token provided."
  | Some token =>
      match verifyToken token with
      | None => Respond 401 "Invalid or expired token."
      | Some decoded =>
          match option_map without_password
                           (findById (cl_id decoded) accounts) with
          | None => Respond 404 "User not found."
          | Some user =>
              if negb (isActive user) then
                Respond 403
                  "Account has been deactivated. Please contact support."
              else Next user
          end
      end
  end.

Definition save (a : Account) : SE (list Account) unit :=
  fun accounts =>
    if save_accepts a then (Ok tt, replace a accounts)
    else (Throw (ValidationError "User validation failed"), accounts).

Definition updateUserRole (req : RoleReq) : SE (list Account) Reply :=
  try_catch
    (let role := str_or (rr_role req) EmptyString in
     if orb (String.eqb role EmptyString)
            (negb (existsb (String.eqb role) ["user"; "admin"])) then
       ret (mkReply 400 false
              ("Invalid role. Role must be " ++ quoted "user" ++ " or "
                 ++ quoted "admin") None None)
     else
       fun accounts =>
         match match rr_userId req with
               | Some id => findById id accounts
               | None => None
               end with
         | None => (Ok (mkReply 404 false "User not found" None None),
                    accounts)
         | Some user =>
             (let user := set_role user role in
              save user ;;
              ret (mkReply 200 true ("User role updated to " ++ role)
                           (Some user) None)) accounts
         end)
    (fun error =>
       ret (mkReply 500 false "Error updating user role" None
                    (Some (message error)))).

Definition toggleUserStatus (req : StatusReq) : SE (list Account) Reply :=
  try_catch
    (fun accounts =>
       match match sr_userId req with
             | Some id => findById id accounts
             | None => None
             end with
       | None => (Ok (mkReply 404 false "User not found" None None), accounts)
       | Some user =>
           (let user := set_isActive user (sr_isActive req) in
            save user ;;
            let status := if sr_isActive req then "activated"
                          else "deactivated" in
            ret (mkReply 200 true ("User " ++ status ++ " successfully")
                         (Some user) None)) accounts
       end)
    (fun error =>
       ret (mkReply 500 false "Error toggling user status" None
                    (Some (message error)))).

(** [jwt.sign(payload, JWT_SECRET, { expiresIn })], the static
    [User.findByUsernameOrEmail] and the method [comparePassword] of the
    schema. *)
Variable jwt_sign : Claims -> string.
Variable findByUsernameOrEmail : list Account -> string -> option Account.
Variable comparePassword : Account -> string -> bool.

Definition generateToken (user : Account) : string :=
  jwt_sign (claims_of user).

(** [login]; [now] is what [Date.now()] returns. *)
Definition login (now : nat) (req : LoginReq) : SE (list Account) LoginReply :=
  try_catch
    (let username := str_or (lg_username req) EmptyString in
     let password := str_or (lg_password req) EmptyString in
     if orb (String.eqb username EmptyString)
            (String.eqb password EmptyString) then
       ret (mkLoginReply 400 "Username and password are required" None None
                         None)
     else
       fun accounts =>
         match findByUsernameOrEmail accounts username with
         | None =>
             (Ok (mkLoginReply 401 "Invalid credentials" None None None),
              accounts)
         | Some user =>
             if negb (isActive user) then
               (Ok (mkLoginReply 401
                      "Account is deactivated. Please contact an administrator."
                      None None None), accounts)
             else if negb (comparePassword user password) then
               (Ok (mkLoginReply 401 "Invalid credentials" None None None),
                accounts)
             else
               (let user := set_lastLogin user now in
                save user ;;
                let token := generateToken user in
                ret (mkLoginReply 200 "Login successful" (Some token)
                                  (Some (without_password user)) None))
                 accounts
         end)
    (fun error =>
       ret (mkLoginReply 500 "Error logging in" None None
                         (Some (message error)))).

(** A dataset route: [router.use(authenticate)] and then the handler, which
    acts for [req.user._id]. *)
Inductive Answer :=
| ByMiddleware (code : nat) (message : string)
| ByHandler (r : Result DatasetController.Response).

Definition dataset_route (accounts : list Account) (req : Req)
           (handler : ObjectId -> SE DatasetController.World
                                     DatasetController.Response)
  : DatasetController.World -> Answer * DatasetController.World :=
  fun w =>
    match authenticate accounts req with
    | Respond c m => (ByMiddleware c m, w)
    | Next user =>
        let (r, w') := handler (acc_id user) w in (ByHandler r, w')
    end.

End Middleware.

End AuthMiddleware.

(* ================================================================== *)
(** ** Accounts and tokens used in the examples *)
(* ================================================================== *)

Module AuthDouble.

Import AuthController AuthMiddleware.

(** Account 0 is the administrator, accounts 1 and 2 are users; all are
    active. *)
Definition ana : Account :=
  mkAccount (mkUser 0 "ana" "hash-a" None "admin" "Ana" 0) true None.
Definition ben : Account :=
  mkAccount (mkUser 1 "ben" "hash-b" None "user" "Ben" 1) true None.
Definition cy : Account :=
  mkAccount (mkUser 2 "cy" "hash-c" None "user" "Cy" 2) true None.

Definition accounts : list Account := [ana; ben; cy].

(** The tokens [t-ana], [t-ben] and [t-cy] verify; the payload of each has
    the role the account had when the token was issued. *)
Definition verify (token : string) : option Claims :=
  if String.eqb token "t-ana" then Some (mkClaims 0 "ana" None "admin")
  else if String.eqb token "t-ben" then Some (mkClaims 1 "ben" None "user")
  else if String.eqb token "t-cy" then Some (mkClaims 2 "cy" None "user")
  else None.

(** The signature of a payload, for the payloads of these accounts. *)
Definition sign (c : Claims) : string := ("t-" ++ cl_username c)%string.

(** The lookup of an account by its user name. *)
Definition by_name (accounts : list Account) (key : string)
  : option Account :=
  find (fun a => String.eqb (username (account a)) key) accounts.

Definition by_ana : Req := mkReq (Some "Bearer t-ana") None.
Definition by_cy : Req := mkReq None (Some "t-cy").

(** The collection in which account 2 has created the dataset [sales]. *)
Definition with_sales : DatasetController.World :=
  snd (DatasetController.createDataset "/srv/app/datasets"
         (fun _ _ => true) Double.sales_request
         (DatasetController.mkWorld [] [])).

End AuthDouble.

(* ================================================================== *)
(** ** Properties *)
(* ================================================================== *)


(** *** The JavaScript fragment on the values of the training handler *)

Example array_plus_one_epoch : array_plus_number [0] 1 = "01".
Proof. reflexivity. Qed.

Example array_plus_two_epochs : array_plus_number [0; 1] 1 = "0,11".
Proof. reflexivity. Qed.

Example number_of_01 : number_of_string "01" = Some 1.
Proof. reflexivity. Qed.

Example number_of_0_11 : number_of_string "0,11" = None.
Proof. reflexivity. Qed.

Example index_by_array_key :
  index_by_key [(7 # 10)%Q] (join_comma [0]) = Some (7 # 10)%Q /\
  index_by_key [(7 # 10)%Q; (6 # 10)%Q] (join_comma [0; 1]) = None.
Proof. split; reflexivity. Qed.

Example lower_case_class_names :
  toLowerCase "Conv2D" = "conv2d" /\ toLowerCase "MaxPooling2D" = "maxpooling2d".
Proof. split; reflexivity. Qed.

Example pooling_factory_is_camel_case :
  kind_of_key "maxPooling2d" = Some MaxPooling2d /\
  kind_of_key "maxpooling2d" = None.
Proof. split; reflexivity. Qed.

(** *** Numbers *)

Lemma Qgtb_true (a b : Q) : Qgtb a b = true -> (b < a)%Q.
Proof.
  unfold Qgtb. destruct (Qcompare a b) eqn:E; try discriminate.
  intros _. apply Qgt_alt. exact E.
Qed.

Lemma Qgtb_false (a b : Q) : Qgtb a b = false -> (a <= b)%Q.
Proof.
  unfold Qgtb. destruct (Qcompare a b) eqn:E; try discriminate; intros _.
  - apply Qeq_alt in E. rewrite E. apply Qle_refl.
  - apply Qlt_alt in E. apply Qlt_le_weak. exact E.
Qed.

Lemma num_le_refl a : a <> NaN -> num_le a a.
Proof. destruct a; simpl; try tauto. intros _. apply Qle_refl. Qed.

Lemma num_le_trans a b c : num_le a b -> num_le b c -> num_le a c.
Proof.
  destruct a, b, c; simpl; try tauto. apply Qle_trans.
Qed.

Lemma num_gtb_true a b : num_gtb a b = true -> num_le b a.
Proof.
  destruct a, b; simpl; try discriminate; try tauto.
  intros H. apply Qlt_le_weak. apply Qgtb_true. exact H.
Qed.

Lemma num_gtb_false a b :
  a <> NaN -> b <> NaN -> num_gtb a b = false -> num_le a b.
Proof.
  destruct a, b; simpl; try discriminate; try tauto.
  intros _ _ H. apply Qgtb_false. exact H.
Qed.

Lemma fold_num_max_NaN xs : fold_left Adapter.num_max xs NaN = NaN.
Proof. induction xs as [|x xs IH]; simpl; [reflexivity | exact IH]. Qed.

Lemma fold_num_max_has_NaN xs :
  forall acc, In NaN xs -> fold_left Adapter.num_max xs acc = NaN.
Proof.
  induction xs as [|x xs IH]; intros acc Hin; [destruct Hin|].
  simpl. destruct Hin as [->|Hin].
  - assert (E : Adapter.num_max acc NaN = NaN) by (destruct acc; reflexivity).
    rewrite E. apply fold_num_max_NaN.
  - apply IH. exact Hin.
Qed.

Lemma num_max_no_NaN acc x :
  acc <> NaN -> x <> NaN ->
  Adapter.num_max acc x = (if num_gtb x acc then x else acc).
Proof. destruct acc, x; simpl; tauto. Qed.

Lemma fold_num_max (xs : list Num) :
  forall acc,
    acc <> NaN -> ~ In NaN xs ->
    let r := fold_left Adapter.num_max xs acc in
    r <> NaN /\ (r = acc \/ In r xs) /\ num_le acc r /\
    Forall (fun x => num_le x r) xs.
Proof.
  induction xs as [|x xs IH]; intros acc Hacc Hno; simpl.
  - repeat split; auto. apply num_le_refl. exact Hacc.
  - assert (Hx : x <> NaN) by (intros ->; apply Hno; left; reflexivity).
    assert (Hxs : ~ In NaN xs) by (intros H; apply Hno; right; exact H).
    rewrite (num_max_no_NaN Hacc Hx).
    destruct (num_gtb x acc) eqn:E.
    + destruct (IH x Hx Hxs) as (Hr & Hin & Hle & Hall).
      split; [exact Hr|]. split.
      * destruct Hin as [->|Hin]; auto.
      * split.
        -- apply num_le_trans with x; [|exact Hle].
           apply num_gtb_true. exact E.
        -- constructor; assumption.
    + destruct (IH acc Hacc Hxs) as (Hr & Hin & Hle & Hall).
      split; [exact Hr|]. split.
      * destruct Hin as [->|Hin]; auto.
      * split; [exact Hle|]. constructor; [|exact Hall].
        apply num_le_trans with acc; [|exact Hle].
        apply num_gtb_false; assumption.
Qed.

Lemma math_max_spec (row : list Num) :
  row <> [] -> ~ In NaN row ->
  In (Adapter.math_max row) row /\
  Forall (fun y => num_le y (Adapter.math_max row)) row.
Proof.
  destruct row as [|x xs]; [congruence|]. intros _ Hno.
  assert (Hx : x <> NaN) by (intros ->; apply Hno; left; reflexivity).
  assert (Hxs : ~ In NaN xs) by (intros H; apply Hno; right; exact H).
  unfold Adapter.math_max. cbn [fold_left].
  assert (E : Adapter.num_max NegInfinity x = x) by (destruct x; tauto).
  rewrite E.
  destruct (fold_num_max xs Hx Hxs) as (_ & Hin & Hle & Hall).
  split.
  - destruct Hin as [->|Hin]; [left; reflexivity | right; exact Hin].
  - constructor; assumption.
Qed.

Lemma confidence_single (p : Q) :
  exists q, Adapter.confidence_of [Finite p] = Finite q /\
            (q == Qmax p (1 - p))%Q /\ (1 # 2 <= q)%Q /\
            ((0 <= p)%Q -> (p <= 1)%Q -> (q <= 1)%Q).
Proof.
  unfold Adapter.confidence_of, num_gtb, one_minus.
  destruct (Qgtb p (1 # 2)) eqn:E.
  - apply Qgtb_true in E. exists p. split; [reflexivity|].
    split; [|split].
    + symmetry. apply Q.max_l. lra.
    + lra.
    + intros; assumption.
  - apply Qgtb_false in E. exists (1 - p)%Q. split; [reflexivity|].
    split; [|split].
    + symmetry. apply Q.max_r. lra.
    + lra.
    + intros; lra.
Qed.

Lemma confidence_multi (row : list Num) :
  (1 < List.length row)%nat ->
  (In NaN row -> Adapter.confidence_of row = NaN) /\
  (~ In NaN row ->
   In (Adapter.confidence_of row) row /\
   Forall (fun y => num_le y (Adapter.confidence_of row)) row).
Proof.
  intros Hlen.
  assert (E : Adapter.confidence_of row = Adapter.math_max row).
  { destruct row as [|x [|y rest]]; simpl in Hlen; try lia. reflexivity. }
  rewrite E. split.
  - intros Hin. apply fold_num_max_has_NaN. exact Hin.
  - intros Hno. apply math_max_spec; [|exact Hno].
    intros ->. simpl in Hlen. lia.
Qed.

(** *** The adapter *)

Section AdapterFacts.
Context {lib : TensorLib}.

Lemma predict_ok inputData rt r rt' :
  Adapter.predict inputData rt = (Ok r, rt') ->
  rt' = rt /\
  exists m, Adapter.model (Adapter.svc rt) = Some m /\
            tf_predict m inputData = Ok (Adapter.predictions r) /\
            Adapter.confidence r =
              map Adapter.confidence_of (Adapter.predictions r).
Proof.
  unfold Adapter.predict, try_catch, bind, Adapter.this, Adapter.no_model,
    lift, ret, throw, tensor2d.
  destruct (Adapter.model (Adapter.svc rt)) as [m|]; [|discriminate].
  destruct (tf_tensor2d_accepts inputData); [|discriminate].
  destruct (tf_predict m inputData) as [res|e] eqn:P; [|discriminate].
  intros H; inversion H; subst; clear H. split; [reflexivity|].
  exists m. auto.
Qed.

(** C1 (as amended). Whenever [predict] returns on a live model, the
    confidence array runs parallel to the prediction rows. For a row with
    the single output [p]: when [p] is a finite number the entry is
    [max(p, 1 - p)], which is at least 0.5 and is at most 1 when
    [0 <= p <= 1]; when [p] is [NaN] the entry is [NaN]; when [p] is
    [Infinity] or [-Infinity] the entry is [Infinity]. For a row with more
    than one output the entry is [NaN] when the row holds a [NaN], and
    otherwise the greatest element of the row. *)
Theorem predict_confidence_by_row inputData rt r rt' :
  Adapter.predict inputData rt = (Ok r, rt') ->
  List.length (Adapter.confidence r) = List.length (Adapter.predictions r) /\
  forall i row,
    nth_error (Adapter.predictions r) i = Some row ->
    exists c,
      nth_error (Adapter.confidence r) i = Some c /\
      (forall p, row = [Finite p] ->
         exists q, c = Finite q /\ (q == Qmax p (1 - p))%Q /\
                   (1 # 2 <= q)%Q /\
                   ((0 <= p)%Q -> (p <= 1)%Q -> (q <= 1)%Q)) /\
      (row = [NaN] -> c = NaN) /\
      (row = [PosInfinity] \/ row = [NegInfinity] -> c = PosInfinity) /\
      ((1 < List.length row)%nat ->
         (In NaN row -> c = NaN) /\
         (~ In NaN row ->
          In c row /\ Forall (fun y => num_le y c) row)).
Proof.
  intros H. apply predict_ok in H. destruct H as (_ & m & _ & _ & Hc).
  rewrite Hc. split; [apply length_map|].
  intros i row Hrow. exists (Adapter.confidence_of row). split.
  - rewrite nth_error_map, Hrow. reflexivity.
  - split; [|split; [|split]].
    + intros p ->. apply confidence_single.
    + intros ->. reflexivity.
    + intros [->| ->]; reflexivity.
    + apply confidence_multi.
Qed.

End AdapterFacts.

(** A run of [predict] on the live default model: one row with a single
    output. *)
Lemma predict_confidence_by_row_witness :
  exists r rt',
    @Adapter.predict Double.lib [[(1 # 10)%Q]] Double.live = (Ok r, rt') /\
    List.length (Adapter.confidence r) = 1.
Proof.
  eexists. eexists. split.
  - reflexivity.
  - exact (proj1 (@predict_confidence_by_row Double.lib [[(1 # 10)%Q]]
                    Double.live _ _ eq_refl)).
Defined.

(** C1 as stated fails: a model with one linear output may predict 2, and the
    confidence is then 2, outside [0.5, 1]. *)
Lemma predict_confidence_above_one :
  ~ (forall (lib : TensorLib) inputData rt r rt',
       @Adapter.predict lib inputData rt = (Ok r, rt') ->
       forall i p c,
         nth_error (Adapter.predictions r) i = Some [Finite p] ->
         nth_error (Adapter.confidence r) i = Some (Finite c) ->
         (1 # 2 <= c)%Q /\ (c <= 1)%Q).
Proof.
  intros H.
  specialize (H (Double.lib_with Double.mlp_base [[Finite 2%Q]]
                                 Double.one_epoch)
                [[1%Q]] Double.live _ _ eq_refl 0 2%Q 2%Q eq_refl eq_refl).
  destruct H as [_ H]. revert H. apply Qlt_not_le. reflexivity.
Qed.

(** *** [saveModel] *)

Section SaveFacts.
Context {lib : TensorLib}.
Variable MODELS_DIR : string.
Variable node_path_join : string -> string -> string.

(** C3. For a save path that begins with none of [file://], [http://],
    [https://], [saveModel] reaches [path.join] with [path] bound to the
    string parameter; the call throws, the handler returns [false], and
    nothing is written: the runtime, its files included, is unchanged. *)
Theorem saveModel_relative_path_returns_false path metadata now rt :
  Adapter.is_relative path = true ->
  Adapter.saveModel MODELS_DIR node_path_join path metadata now rt
  = (Ok false, rt).
Proof.
  unfold Adapter.saveModel, Adapter.is_relative, try_catch, bind, Adapter.this,
    Adapter.no_model, lift, ret, throw, Adapter.call_join.
  intros H.
  destruct (Adapter.model (Adapter.svc rt)) as [m|]; [|reflexivity].
  rewrite H. reflexivity.
Qed.

(** With a path that carries one of the prefixes and a library that accepts
    the save, [saveModel] writes the model and the metadata envelope under
    the path as given, and returns [true]. *)
Lemma saveModel_prefixed_path path metadata now rt m :
  Adapter.is_relative path = false ->
  Adapter.model (Adapter.svc rt) = Some m ->
  tf_save_accepts m path = true ->
  exists md,
    Adapter.saveModel MODELS_DIR node_path_join path metadata now rt
    = (Ok true,
       Adapter.mkRuntime (Adapter.svc rt)
         (Adapter.files rt ++ [(path, Adapter.mkArtifact m true md)])
         (Adapter.warnings rt)) /\
    Adapter.md_isTransferLearning md
      = Adapter.isTransferLearning (Adapter.svc rt) /\
    Adapter.md_frozenLayers md = Adapter.frozenLayers (Adapter.svc rt) /\
    Adapter.md_modelArchitecture md
      = Adapter.modelArchitecture (Adapter.svc rt) /\
    Adapter.md_hyperparameters md
      = Adapter.hyperparameters (Adapter.svc rt) /\
    Adapter.md_date md = now.
Proof.
  unfold Adapter.saveModel, Adapter.is_relative, try_catch, bind, Adapter.this,
    Adapter.no_model, lift, ret, throw, Adapter.model_save.
  intros H Hm Hs. rewrite Hm, H. simpl. rewrite Hs.
  eexists. split; [reflexivity|]. simpl. auto.
Qed.

End SaveFacts.

(** The live default model and the relative path [my_model]. *)
Lemma saveModel_relative_path_returns_false_witness :
  @Adapter.saveModel Double.lib "/srv/app/models"
     (fun a b => (a ++ "/" ++ b)%string) "my_model" [] "2024-01-01T00:00:00Z"
     Double.live
  = (Ok false, Double.live).
Proof.
  apply (@saveModel_relative_path_returns_false Double.lib). reflexivity.
Defined.

(** *** What leaves the transfer-learning state alone *)

Section Stability.
Context {lib : TensorLib}.
Context {X : Type} (f : Adapter.Runtime -> X).

Lemma stable_ret {A} (a : A) : Adapter.stable f (ret a).
Proof. intros rt r rt' H. inversion H. reflexivity. Qed.

Lemma stable_throw {A} (e : Error) : Adapter.stable f (@throw _ A e).
Proof. intros rt r rt' H. inversion H. reflexivity. Qed.

Lemma stable_lift {A} (x : Result A) : Adapter.stable f (lift x).
Proof. intros rt r rt' H. inversion H. reflexivity. Qed.

Lemma stable_this : Adapter.stable f Adapter.this.
Proof. intros rt r rt' H. inversion H. reflexivity. Qed.

Lemma stable_bind {A B} (c : Adapter.Exec A) (k : A -> Adapter.Exec B) :
  Adapter.stable f c -> (forall a, Adapter.stable f (k a)) ->
  Adapter.stable f (bind c k).
Proof.
  intros Hc Hk rt r rt' H. unfold bind in H.
  destruct (c rt) as [[a|e] rt1] eqn:E.
  - apply Hk in H. apply Hc in E. congruence.
  - inversion H; subst. apply Hc in E. exact E.
Qed.

Lemma stable_try {A} (c : Adapter.Exec A) (h : Error -> Adapter.Exec A) :
  Adapter.stable f c -> (forall e, Adapter.stable f (h e)) ->
  Adapter.stable f (try_catch c h).
Proof.
  intros Hc Hh rt r rt' H. unfold try_catch in H.
  destruct (c rt) as [[a|e] rt1] eqn:E.
  - inversion H; subst. apply Hc in E. exact E.
  - apply Hh in H. apply Hc in E. congruence.
Qed.

Lemma stable_update (g : Adapter.AIService -> Adapter.AIService) :
  (forall rt, f (Adapter.mkRuntime (g (Adapter.svc rt)) (Adapter.files rt)
                                   (Adapter.warnings rt)) = f rt) ->
  Adapter.stable f (Adapter.update g).
Proof. intros Hg rt r rt' H. inversion H. apply Hg. Qed.

End Stability.

Section TransferState.
Context {lib : TensorLib}.

Local Notation "'keeps' c" := (Adapter.stable Adapter.transfer_state c)
  (at level 10, c at level 9).

Ltac stable_step :=
  first [ apply stable_bind; [|intros ?]
        | apply stable_try; [|intros ?]
        | apply stable_ret | apply stable_throw | apply stable_lift
        | apply stable_this
        | apply stable_update; intros ?; reflexivity ].

Lemma keeps_warn m : keeps (Adapter.warn m).
Proof. intros rt r rt' H. inversion H. reflexivity. Qed.

Lemma keeps_model_add l : keeps (Adapter.model_add l).
Proof.
  unfold Adapter.model_add. stable_step; [stable_step|].
  destruct (Adapter.model a); repeat stable_step.
Qed.

Lemma keeps_model_compile a : keeps (Adapter.model_compile a).
Proof.
  unfold Adapter.model_compile. stable_step; [stable_step|].
  destruct (Adapter.model a0) as [m|]; [|repeat stable_step].
  destruct (Tf.compile m a) as [r m']. repeat stable_step.
Qed.

Lemma keeps_forEach_from {A} (g : A -> nat -> Adapter.Exec unit) xs :
  (forall x i, keeps (g x i)) -> forall i, keeps (Adapter.forEach_from g xs i).
Proof.
  intros Hg. induction xs as [|x xs IH]; intros i; simpl.
  - apply stable_ret.
  - apply stable_bind; [apply Hg | intros _; apply IH].
Qed.

Lemma keeps_add_described_layer shape d i :
  keeps (Adapter.add_described_layer shape d i).
Proof.
  unfold Adapter.add_described_layer.
  destruct (kind_of_key (Adapter.ld_type d)).
  - stable_step; [stable_step | apply keeps_model_add].
  - apply keeps_warn.
Qed.

Lemma keeps_createModelFromArchitecture :
  keeps Adapter.createModelFromArchitecture.
Proof.
  unfold Adapter.createModelFromArchitecture.
  stable_step; [|stable_step].
  stable_step; [stable_step|].
  destruct (Adapter.modelArchitecture a) as [arch|]; [|stable_step].
  stable_step; [stable_step|].
  destruct (Adapter.arch_layers arch) as [ls|]; [|stable_step].
  stable_step.
  - apply keeps_forEach_from. intros; apply keeps_add_described_layer.
  - stable_step; [apply keeps_model_compile | stable_step].
Qed.

Lemma keeps_load_by_mode modelPath modelConfig :
  Adapter.load_mode modelPath modelConfig <> Adapter.Transfer ->
  keeps (Adapter.load_by_mode modelPath modelConfig).
Proof.
  unfold Adapter.load_by_mode. intros Hm.
  destruct (Adapter.load_mode modelPath modelConfig); [| | congruence |].
  - repeat stable_step.
  - stable_step; [stable_step|]. stable_step; [stable_step|].
    stable_step; [apply keeps_createModelFromArchitecture | stable_step].
  - repeat first [ apply keeps_model_add | apply keeps_model_compile
                 | stable_step ].
Qed.

Lemma loadModel_after_reset modelPath modelConfig rt :
  Adapter.loadModel modelPath modelConfig rt
  = try_catch (Adapter.load_by_mode modelPath modelConfig ;; ret true)
              (fun _ => ret false) (Adapter.reset_transfer rt).
Proof. reflexivity. Qed.

Lemma saveModel_true_metadata MODELS_DIR join path metadata now rt rt2 :
  Adapter.saveModel MODELS_DIR join path metadata now rt = (Ok true, rt2) ->
  exists m md,
    Adapter.model (Adapter.svc rt) = Some m /\
    Adapter.files rt2
      = Adapter.files rt ++ [(path, Adapter.mkArtifact m true md)] /\
    Adapter.md_isTransferLearning md
      = Adapter.isTransferLearning (Adapter.svc rt) /\
    Adapter.md_frozenLayers md = Adapter.frozenLayers (Adapter.svc rt).
Proof.
  unfold Adapter.saveModel, try_catch, bind, Adapter.this, Adapter.no_model,
    lift, ret, throw, Adapter.call_join, Adapter.model_save.
  destruct (Adapter.model (Adapter.svc rt)) as [m|]; [|discriminate].
  destruct (Adapter.is_relative path); [discriminate|].
  destruct (tf_save_accepts m path); [|discriminate].
  intros H; inversion H; subst; clear H. simpl.
  eexists. eexists. repeat split.
Qed.

Lemma getModelSummary_transfer_state rt s rt2 :
  Adapter.getModelSummary rt = (Ok s, rt2) ->
  (Adapter.sum_isTransferLearning s, Adapter.sum_frozenLayers s)
  = Adapter.transfer_state rt.
Proof.
  unfold Adapter.getModelSummary, try_catch, bind, Adapter.this,
    Adapter.no_model, ret, throw.
  destruct (Adapter.model (Adapter.svc rt)) as [m|]; [|discriminate].
  intros H; inversion H; subst; clear H. reflexivity.
Qed.

End TransferState.

(** *** Models built from an architecture descriptor *)

Lemma bind_ok {S A B} (c : SE S A) (k : A -> SE S B) rt b rt' :
  bind c k rt = (Ok b, rt') ->
  exists a rt1, c rt = (Ok a, rt1) /\ k a rt1 = (Ok b, rt').
Proof.
  unfold bind. destruct (c rt) as [[a|e] rt1]; [|discriminate].
  intros H. exists a, rt1. auto.
Qed.

Lemma try_rethrow {S A} (c : SE S A) rt :
  try_catch c (fun e => throw e) rt = c rt.
Proof. unfold try_catch, throw. destruct (c rt) as [[a|e] rt1]; reflexivity. Qed.

Lemma obj_get_filter_other (o : Obj) k k' :
  k' <> k ->
  obj_get (filter (fun kv => negb (String.eqb k (fst kv))) o) k'
  = obj_get o k'.
Proof.
  intros Hne. induction o as [|[k0 v0] o IH]; simpl; [reflexivity|].
  destruct (String.eqb_spec k k0) as [E|E]; simpl.
  - subst k0. destruct (String.eqb_spec k' k); [contradiction | exact IH].
  - destruct (String.eqb k' k0); [reflexivity | exact IH].
Qed.

Lemma obj_prop_set_other (o : Obj) k v k' :
  k' <> k -> obj_prop (obj_set o k v) k' = obj_prop o k'.
Proof.
  intros Hne. unfold obj_prop, obj_set. simpl.
  destruct (String.eqb_spec k' k); [contradiction|].
  rewrite obj_get_filter_other by exact Hne. reflexivity.
Qed.

Lemma obj_prop_set_same (o : Obj) k v : obj_prop (obj_set o k v) k = v.
Proof. unfold obj_prop, obj_set. simpl. rewrite String.eqb_refl. reflexivity. Qed.

Lemma trainable_of_getConfig l : trainable_of (getConfig l) = trainable l.
Proof.
  unfold trainable_of, getConfig. rewrite obj_prop_set_same.
  destruct (trainable l); reflexivity.
Qed.

Lemma trainable_of_effective_config shape d i :
  trainable_of (Adapter.effective_config shape d i)
  = trainable_of (Adapter.ld_config d).
Proof.
  unfold Adapter.effective_config, trainable_of.
  destruct (Nat.eqb i 0); [|reflexivity].
  rewrite obj_prop_set_other by discriminate. reflexivity.
Qed.

Lemma kind_of_key_some t k : kind_of_key t = Some k -> t = kind_key k.
Proof.
  unfold kind_of_key. intros H. apply find_some in H. destruct H as [_ H].
  apply String.eqb_eq. exact H.
Qed.

Lemma is_supported_kind d :
  Adapter.is_supported d
  = match kind_of_key (Adapter.ld_type d) with
    | Some _ => true
    | None => false
    end.
Proof.
  unfold Adapter.is_supported, Adapter.supported_types, kind_of_key, all_kinds.
  cbn [existsb find kind_key].
  repeat match goal with
         | |- context [String.eqb ?a ?b] => destruct (String.eqb a b)
         end; reflexivity.
Qed.

Section ArchitectureFacts.
Context {lib : TensorLib}.

Lemma add_described_step shape d i rt m :
  Adapter.model (Adapter.svc rt) = Some m ->
  match Adapter.add_described_layer shape d i rt with
  | (Ok _, rt1) =>
      (Adapter.is_supported d = true /\
       exists l, Adapter.built_from l d /\
                 Adapter.model (Adapter.svc rt1)
                   = Some (mkModel (layers m ++ [l]) (compiled m)) /\
                 Adapter.warnings rt1 = Adapter.warnings rt) \/
      (Adapter.is_supported d = false /\
       Adapter.model (Adapter.svc rt1) = Some m /\
       Adapter.warnings rt1
         = Adapter.warnings rt ++ [Adapter.unsupported_warning d])
  | (Throw _, _) => ~ Adapter.accepts_layers lib
  end.
Proof.
  intros Hm. unfold Adapter.add_described_layer. rewrite is_supported_kind.
  destruct (kind_of_key (Adapter.ld_type d)) as [k|] eqn:K.
  - unfold bind, lift, layer_of_kind, construct.
    destruct (tf_layer_accepts _ _) eqn:Acc.
    + unfold Adapter.model_add, bind, Adapter.this, lift, Tf.add.
      rewrite Hm. destruct (tf_add_accepts m _) eqn:Add.
      * left. split; [reflexivity|]. eexists. split; [|split].
        2: { simpl. reflexivity. }
        2: { reflexivity. }
        exists k. simpl. split; [apply kind_of_key_some; exact K|].
        split; [reflexivity|].
        split; [apply trainable_of_effective_config|].
        unfold Adapter.effective_config. destruct (Nat.eqb i 0).
        -- right. eexists. reflexivity.
        -- left. reflexivity.
      * intros (_ & H & _). rewrite H in Add. discriminate.
    + intros (H & _). rewrite H in Acc. discriminate.
  - right. split; [reflexivity|]. simpl. auto.
Qed.

Lemma forEach_described shape descs :
  forall i rt rt' m,
    Adapter.forEach_from (Adapter.add_described_layer shape) descs i rt
      = (Ok tt, rt') ->
    Adapter.model (Adapter.svc rt) = Some m ->
    exists new,
      Adapter.model (Adapter.svc rt')
        = Some (mkModel (layers m ++ new) (compiled m)) /\
      Forall2 Adapter.built_from new (filter Adapter.is_supported descs) /\
      Adapter.warnings rt'
        = Adapter.warnings rt
          ++ map Adapter.unsupported_warning
                 (filter (fun d => negb (Adapter.is_supported d)) descs).
Proof.
  induction descs as [|d descs IH]; intros i rt rt' m H Hm.
  - inversion H; subst. exists []. rewrite !app_nil_r.
    destruct m; simpl. auto.
  - simpl in H. apply bind_ok in H. destruct H as ([] & rt1 & H1 & H2).
    pose proof (add_described_step shape d i rt Hm) as Step.
    rewrite H1 in Step.
    destruct Step as [(Sup & l & Hb & Hm1 & Hw1) | (Sup & Hm1 & Hw1)].
    + destruct (IH _ _ _ _ H2 Hm1) as (new & Hm' & Hf & Hw').
      exists (l :: new). simpl in Hm'. simpl. rewrite Sup. simpl.
      rewrite <- app_assoc in Hm'. split; [exact Hm'|].
      split; [constructor; assumption|]. congruence.
    + destruct (IH _ _ _ _ H2 Hm1) as (new & Hm' & Hf & Hw').
      exists new. simpl. rewrite Sup. simpl. split; [exact Hm'|].
      split; [exact Hf|]. rewrite Hw', Hw1, <- app_assoc. reflexivity.
Qed.

Lemma forEach_described_returns shape descs :
  Adapter.accepts_layers lib ->
  forall i rt m,
    Adapter.model (Adapter.svc rt) = Some m ->
    exists rt' m',
      Adapter.forEach_from (Adapter.add_described_layer shape) descs i rt
        = (Ok tt, rt') /\
      Adapter.model (Adapter.svc rt') = Some m'.
Proof.
  intros Acc. induction descs as [|d descs IH]; intros i rt m Hm.
  - exists rt, m. auto.
  - simpl. unfold bind.
    pose proof (add_described_step shape d i rt Hm) as Step.
    destruct (Adapter.add_described_layer shape d i rt) as [[[]|e] rt1].
    + destruct Step as [(_ & l & _ & Hm1 & _) | (_ & Hm1 & _)];
        apply (IH (S i)) in Hm1; exact Hm1.
    + contradiction.
Qed.

Lemma createModelFromArchitecture_ok rt arch descs b rt' :
  Adapter.modelArchitecture (Adapter.svc rt) = Some arch ->
  Adapter.arch_layers arch = Some descs ->
  Adapter.createModelFromArchitecture rt = (Ok b, rt') ->
  exists m,
    Adapter.model (Adapter.svc rt') = Some m /\
    Forall2 Adapter.built_from (layers m)
            (filter Adapter.is_supported descs) /\
    Adapter.warnings rt'
      = Adapter.warnings rt
        ++ map Adapter.unsupported_warning
               (filter (fun d => negb (Adapter.is_supported d)) descs).
Proof.
  intros Ha Hl H. unfold Adapter.createModelFromArchitecture in H.
  rewrite try_rethrow in H.
  apply bind_ok in H. destruct H as (s & rta & Ea & H).
  inversion Ea; subst; clear Ea. rewrite Ha in H.
  apply bind_ok in H. destruct H as ([] & rtb & Eb & H).
  inversion Eb; subst; clear Eb. rewrite Hl in H.
  apply bind_ok in H. destruct H as ([] & rt1 & H1 & H).
  eapply forEach_described in H1; [|simpl; reflexivity].
  destruct H1 as (new & Hm & Hf & Hw). simpl in Hm, Hw.
  apply bind_ok in H. destruct H as ([] & rt2 & H2 & H).
  inversion H; subst; clear H.
  unfold Adapter.model_compile, bind, Adapter.this, lift, Tf.compile in H2.
  rewrite Hm in H2.
  destruct (tf_compile_accepts _ _); [|discriminate].
  inversion H2; subst; clear H2. simpl.
  eexists. split; [reflexivity|]. simpl. split; [exact Hf | exact Hw].
Qed.

Lemma createModelFromArchitecture_returns rt arch descs :
  Adapter.accepts_layers lib ->
  Adapter.modelArchitecture (Adapter.svc rt) = Some arch ->
  Adapter.arch_layers arch = Some descs ->
  exists rt', Adapter.createModelFromArchitecture rt = (Ok true, rt').
Proof.
  intros Acc Ha Hl. unfold Adapter.createModelFromArchitecture.
  rewrite try_rethrow. unfold bind at 1. unfold Adapter.this at 1.
  rewrite Ha. unfold bind at 1. unfold Adapter.update at 1. rewrite Hl.
  unfold bind at 1.
  edestruct (forEach_described_returns (Adapter.arch_inputShape arch) descs
               Acc 0) as (rt1 & m1 & Hrun & Hm1);
    [|unfold Adapter.forEach; rewrite Hrun].
  { simpl. reflexivity. }
  unfold Adapter.model_compile, Adapter.this, lift, Tf.compile, bind.
  rewrite Hm1. destruct Acc as (_ & _ & Hc). rewrite Hc.
  eexists. reflexivity.
Qed.

Lemma try_false_ok {S} (c : SE S bool) rt rt' :
  try_catch c (fun _ => ret false) rt = (Ok true, rt') ->
  c rt = (Ok true, rt').
Proof.
  unfold try_catch, ret. destruct (c rt) as [[b|e] rt1]; intros H.
  - exact H.
  - discriminate.
Qed.

(** With no model path and an architecture descriptor that carries a layer
    list, [loadModel] builds the model from the list: whenever it reports
    success, the layers of the model correspond one to one, in order, to the
    descriptors of a supported type, and one warning is logged for each
    descriptor of another type, which is skipped; and a library that accepts
    every layer, every [add] and every [compile] makes it report success. *)
Lemma loadModel_from_architecture_success
      modelPath modelConfig arch descs rt :
  Adapter.truthy_str modelPath = false ->
  Adapter.mc_architecture modelConfig = Some arch ->
  Adapter.arch_layers arch = Some descs ->
  (forall rt',
     Adapter.loadModel modelPath modelConfig rt = (Ok true, rt') ->
     exists m,
       Adapter.model (Adapter.svc rt') = Some m /\
       Forall2 Adapter.built_from (layers m)
               (filter Adapter.is_supported descs) /\
       Adapter.warnings rt'
         = Adapter.warnings rt
           ++ map Adapter.unsupported_warning
                  (filter (fun d => negb (Adapter.is_supported d)) descs)) /\
  (Adapter.accepts_layers lib ->
   exists rt', Adapter.loadModel modelPath modelConfig rt = (Ok true, rt')).
Proof.
  intros Hp Ha Hl.
  assert (Hmode : Adapter.load_mode modelPath modelConfig
                  = Adapter.FromArchitecture).
  { unfold Adapter.load_mode, Adapter.has_layers. rewrite Hp, Ha, Hl.
    reflexivity. }
  split.
  - intros rt' H. rewrite loadModel_after_reset in H.
    apply try_false_ok in H.
    apply bind_ok in H. destruct H as ([] & rta & Ea & H).
    inversion H; subst; clear H.
    unfold Adapter.load_by_mode in Ea. rewrite Hmode in Ea.
    apply bind_ok in Ea. destruct Ea as ([] & rtb & Eb & H).
    inversion Eb; subst; clear Eb.
    apply bind_ok in H. destruct H as ([] & rtc & Ec & H).
    inversion Ec; subst; clear Ec.
    apply bind_ok in H. destruct H as (b & rtd & Ed & H).
    inversion H; subst; clear H.
    eapply createModelFromArchitecture_ok in Ed;
      [exact Ed | simpl; exact Ha | exact Hl].
  - intros Acc. rewrite loadModel_after_reset.
    unfold try_catch, Adapter.load_by_mode. rewrite Hmode.
    unfold bind at 1. unfold bind at 1. unfold Adapter.update at 1.
    unfold bind at 1. unfold Adapter.update at 1.
    unfold bind at 1.
    edestruct (createModelFromArchitecture_returns) as (rt1 & Hrun);
      [exact Acc | | exact Hl | rewrite Hrun].
    { simpl. exact Ha. }
    eexists. reflexivity.
Qed.

Lemma forEach_unsupported shape descs :
  Forall (fun d => Adapter.is_supported d = false) descs ->
  forall i rt,
    exists rt',
      Adapter.forEach_from (Adapter.add_described_layer shape) descs i rt
        = (Ok tt, rt') /\
      Adapter.svc rt' = Adapter.svc rt /\
      Adapter.warnings rt'
        = Adapter.warnings rt ++ map Adapter.unsupported_warning descs.
Proof.
  induction 1 as [|d descs Hd _ IH]; intros i rt.
  - exists rt. cbn [map]. rewrite app_nil_r. repeat split.
  - cbn [Adapter.forEach_from]. unfold bind at 1.
    unfold Adapter.add_described_layer at 1.
    rewrite is_supported_kind in Hd.
    destruct (kind_of_key (Adapter.ld_type d)); [discriminate|].
    unfold Adapter.warn at 1.
    match goal with
    | |- context [Adapter.forEach_from _ _ ?j ?r] =>
        destruct (IH j r) as (rt' & Hrun & Hs & Hw)
    end.
    exists rt'. split; [exact Hrun|]. split; [exact Hs|].
    rewrite Hw. cbn [Adapter.warnings map]. rewrite <- app_assoc.
    reflexivity.
Qed.

(** C5. An unsupported descriptor is logged and skipped, but skipping it
    can be fatal. The [inputShape] of the architecture is given to the
    descriptor at index 0 only, so when that descriptor is of an unsupported
    type and the next one, of a supported type, names no input shape of its
    own, the first layer that is added has none: a library that requires one
    of a first layer makes [loadModel] report failure, the service holding
    an empty sequential model. And when no descriptor is of a supported type
    (or the list is empty), a library that does not compile a model without
    layers makes [loadModel] report failure as well, one warning logged per
    descriptor. *)
Theorem loadModel_unsupported_descriptor_is_fatal
        modelPath modelConfig arch descs rt :
  Adapter.truthy_str modelPath = false ->
  Adapter.mc_architecture modelConfig = Some arch ->
  Adapter.arch_layers arch = Some descs ->
  (Adapter.first_layer_needs_shape lib ->
   forall d d2 rest,
     descs = d :: d2 :: rest ->
     Adapter.is_supported d = false ->
     Adapter.is_supported d2 = true ->
     Adapter.names_input_shape (Adapter.ld_config d2) = false ->
     exists rt',
       Adapter.loadModel modelPath modelConfig rt = (Ok false, rt') /\
       Adapter.model (Adapter.svc rt') = Some sequential /\
       Adapter.warnings rt'
         = Adapter.warnings rt ++ [Adapter.unsupported_warning d]) /\
  (Adapter.compile_needs_layers lib ->
   Forall (fun d => Adapter.is_supported d = false) descs ->
   exists rt' m,
     Adapter.loadModel modelPath modelConfig rt = (Ok false, rt') /\
     Adapter.model (Adapter.svc rt') = Some m /\
     layers m = [] /\
     Adapter.warnings rt'
       = Adapter.warnings rt ++ map Adapter.unsupported_warning descs).
Proof.
  intros Hp Ha Hl.
  assert (Hmode : Adapter.load_mode modelPath modelConfig
                  = Adapter.FromArchitecture).
  { unfold Adapter.load_mode, Adapter.has_layers. rewrite Hp, Ha, Hl.
    reflexivity. }
  assert (Hrun : forall rt0,
             Adapter.loadModel modelPath modelConfig rt0
             = try_catch
                 (Adapter.forEach_from
                    (Adapter.add_described_layer (Adapter.arch_inputShape arch))
                    descs 0 ;;
                  Adapter.model_compile
                    (let hp := Adapter.or_default
                                 (Adapter.mc_hyperparameters modelConfig)
                                 Adapter.no_hp in
                     mkCompileArgs (str_or (Adapter.hp_optimizer hp) "adam")
                       (str_or (Adapter.hp_lossFunction hp)
                               "categoricalCrossentropy")
                       (Adapter.or_default (Adapter.hp_metrics hp)
                                           ["accuracy"]) None) ;;
                  ret true)
                 (fun _ => ret false)
                 (Adapter.mkRuntime
                    (Adapter.set_model (Some sequential)
                       (Adapter.set_hyperparameters
                          (Some (Adapter.or_default
                                   (Adapter.mc_hyperparameters modelConfig)
                                   Adapter.no_hp))
                          (Adapter.set_modelArchitecture (Some arch)
                             (Adapter.svc (Adapter.reset_transfer rt0)))))
                    (Adapter.files rt0) (Adapter.warnings rt0))).
  { intros rt0. rewrite loadModel_after_reset.
    unfold Adapter.load_by_mode. rewrite Hmode.
    unfold Adapter.createModelFromArchitecture, try_catch, bind,
      Adapter.update, Adapter.this, Adapter.forEach.
    cbv beta iota zeta delta
        [Adapter.svc Adapter.modelArchitecture Adapter.set_hyperparameters
         Adapter.set_modelArchitecture Adapter.hyperparameters
         Adapter.set_model Adapter.set_frozenLayers
         Adapter.set_isTransferLearning Adapter.model
         Adapter.transferBaseModel Adapter.isTransferLearning
         Adapter.frozenLayers
         Adapter.files Adapter.warnings Adapter.reset_transfer].
    rewrite Ha, Hl.
    cbv beta iota zeta delta [Adapter.or_default].
    match goal with
    | |- context [Adapter.forEach_from ?g ?ls ?i ?r] =>
        destruct (Adapter.forEach_from g ls i r) as [[[]|e] r1];
          [|reflexivity]
    end.
    match goal with
    | |- context [Adapter.model_compile ?a ?r] =>
        destruct (Adapter.model_compile a r) as [[[]|e] r2]; reflexivity
    end. }
  split.
  - intros Rule d d2 rest -> Hd Hd2 Hshape.
    rewrite is_supported_kind in Hd, Hd2.
    rewrite Hrun. unfold try_catch.
    cbn [Adapter.forEach_from]. unfold bind at 1. unfold bind at 1.
    unfold Adapter.add_described_layer at 1.
    destruct (kind_of_key (Adapter.ld_type d)); [discriminate|].
    unfold Adapter.warn at 1. unfold bind at 1.
    unfold Adapter.add_described_layer at 1.
    destruct (kind_of_key (Adapter.ld_type d2)) as [k|]; [|discriminate].
    change (Adapter.effective_config (Adapter.arch_inputShape arch) d2 1)
      with (Adapter.ld_config d2).
    assert (Hthrow : forall rt1,
               Adapter.model (Adapter.svc rt1) = Some sequential ->
               exists e,
                 (l <- lift (layer_of_kind k (Adapter.ld_config d2)) ;;
                  Adapter.model_add l) rt1 = (Throw e, rt1)).
    { intros rt1 Hm1. unfold bind, lift, layer_of_kind, construct.
      destruct (tf_layer_accepts _ _); [|eexists; reflexivity].
      unfold Adapter.model_add, bind, Adapter.this, lift, Tf.add, throw.
      rewrite Hm1.
      rewrite Rule; [eexists; reflexivity | reflexivity | exact Hshape]. }
    match goal with
    | |- context [bind (lift ?c) ?k ?r] =>
        destruct (Hthrow r eq_refl) as (e & He); rewrite He
    end.
    eexists. split; [reflexivity|]. split; reflexivity.
  - intros Rule Hall.
    rewrite Hrun. unfold try_catch. unfold bind at 1.
    match goal with
    | |- context [Adapter.forEach_from ?g ?ls ?i ?r] =>
        destruct (@forEach_unsupported (Adapter.arch_inputShape arch) descs
                    Hall i r) as (rt1 & Hfor & Hs & Hw)
    end.
    rewrite Hfor. unfold bind at 1.
    unfold Adapter.model_compile, bind, Adapter.this, lift, Tf.compile,
      Adapter.update, ret.
    rewrite Hs. cbn [Adapter.svc Adapter.model Adapter.set_model].
    rewrite Rule by reflexivity.
    eexists. eexists. split; [reflexivity|].
    cbn [Adapter.svc Adapter.model Adapter.set_model Adapter.warnings].
    split; [reflexivity|]. split; [reflexivity|]. exact Hw.
Qed.

End ArchitectureFacts.

(** An unsupported descriptor before a dense layer that leaves its input
    shape to the architecture, on a library that requires an input shape of
    a first layer; without the unsupported descriptor the same library
    builds the model. *)
Lemma loadModel_unsupported_descriptor_is_fatal_witness :
  let dense := Adapter.mkLayerDesc "dense" [("units", VNum 1%Q)] in
  let attention := Adapter.mkLayerDesc "attention" [] in
  let request descs :=
    Adapter.mkModelConfig
      (Some (Adapter.mkArchitecture (Some descs) (VArr [VNum 4%Q])))
      None None VUndefined VUndefined None in
  (exists rt',
     @Adapter.loadModel Double.lib_shapes None (request [attention; dense])
                        Adapter.boot
     = (Ok false, rt') /\
     Adapter.warnings rt' = ["Unsupported layer type: attention"]) /\
  (exists rt',
     @Adapter.loadModel Double.lib_shapes None (request [attention])
                        Adapter.boot
     = (Ok false, rt') /\
     Adapter.warnings rt' = ["Unsupported layer type: attention"]) /\
  fst (@Adapter.loadModel Double.lib_shapes None (request [dense])
         Adapter.boot) = Ok true.
Proof.
  intros dense attention request.
  split; [|split; [|reflexivity]].
  - destruct (@loadModel_unsupported_descriptor_is_fatal Double.lib_shapes
                None (request [attention; dense])
                _ _ Adapter.boot eq_refl eq_refl eq_refl) as [H _].
    destruct (H (fun m l Hm Hs =>
                   eq_trans
                     (f_equal (fun ls => match ls with
                                         | [] => Adapter.names_input_shape
                                                   (config l)
                                         | _ :: _ => true
                                         end) Hm) Hs)
                _ _ _ eq_refl eq_refl eq_refl eq_refl)
      as (rt' & Hrun & _ & Hw).
    exists rt'. split; [exact Hrun | exact Hw].
  - destruct (@loadModel_unsupported_descriptor_is_fatal Double.lib_shapes
                None (request [attention])
                _ _ Adapter.boot eq_refl eq_refl eq_refl) as [_ H].
    destruct (H (fun m a Hm =>
                   f_equal (fun ls => match ls with
                                      | [] => false
                                      | _ :: _ => true
                                      end) Hm)
                (Forall_cons attention eq_refl (Forall_nil _)))
      as (rt' & m & Hrun & _ & _ & Hw).
    exists rt'. split; [exact Hrun | exact Hw].
Defined.

(** A descriptor with an unsupported type between two supported ones. *)
Example loadModel_from_architecture_success_example :
  exists rt',
    @Adapter.loadModel Double.lib None
       (Adapter.mkModelConfig
          (Some (Adapter.mkArchitecture
                   (Some [Adapter.mkLayerDesc "dense" [("units", VNum 8%Q)];
                          Adapter.mkLayerDesc "attention" [];
                          Adapter.mkLayerDesc "dropout" []])
                   (VArr [VNum 4%Q])))
          None None VUndefined VUndefined None)
       Adapter.boot = (Ok true, rt') /\
    option_map (fun m => map className (layers m))
               (Adapter.model (Adapter.svc rt')) = Some ["Dense"; "Dropout"] /\
    Adapter.warnings rt' = ["Unsupported layer type: attention"].
Proof.
  destruct (@loadModel_from_architecture_success Double.lib None
              (Adapter.mkModelConfig
                 (Some (Adapter.mkArchitecture
                          (Some [Adapter.mkLayerDesc "dense"
                                   [("units", VNum 8%Q)];
                                 Adapter.mkLayerDesc "attention" [];
                                 Adapter.mkLayerDesc "dropout" []])
                          (VArr [VNum 4%Q])))
                 None None VUndefined VUndefined None)
              _ _ Adapter.boot eq_refl eq_refl eq_refl) as [_ Hret].
  destruct Hret as (rt' & Hrun).
  - repeat split.
  - exists rt'. split; [exact Hrun|].
    vm_compute in Hrun. inversion Hrun; subst. split; reflexivity.
Defined.

(** *** Transfer learning *)

Lemma freeze_last_snoc ls l :
  Adapter.freeze_last (ls ++ [l])
  = ls ++ [mkLayer (className l) (config l) false].
Proof.
  unfold Adapter.freeze_last. rewrite rev_app_distr. simpl.
  rewrite rev_involutive. reflexivity.
Qed.

Section TransferFacts.
Context {lib : TensorLib}.

Lemma copy_base_step freeze outs l i rt m :
  Adapter.model (Adapter.svc rt) = Some m ->
  match Adapter.copy_base_layer freeze outs l i rt with
  | (Ok _, rt1) =>
      if existsb (Z.eqb (Z.of_nat i)) outs then rt1 = rt
      else
        exists l',
          Adapter.copy_of freeze l' (i, l) /\
          Adapter.model (Adapter.svc rt1)
            = Some (mkModel (layers m ++ [l']) (compiled m)) /\
          Adapter.frozenLayers (Adapter.svc rt1)
            = Adapter.frozenLayers (Adapter.svc rt)
              ++ (if freeze then [i] else []) /\
          Adapter.isTransferLearning (Adapter.svc rt1)
            = Adapter.isTransferLearning (Adapter.svc rt) /\
          Adapter.transferBaseModel (Adapter.svc rt1)
            = Adapter.transferBaseModel (Adapter.svc rt)
  | (Throw _, _) =>
      existsb (Z.eqb (Z.of_nat i)) outs = false /\
      (layers_lookup (toLowerCase (className l)) = None \/
       ~ Adapter.accepts_layers lib)
  end.
Proof.
  intros Hm. unfold Adapter.copy_base_layer.
  destruct (existsb (Z.eqb (Z.of_nat i)) outs) eqn:Out; [reflexivity|].
  unfold bind at 1. unfold lift at 1. unfold layer_of_key, construct.
  destruct (layers_lookup (toLowerCase (className l))) as [cls|] eqn:L;
    [|auto].
  destruct (tf_layer_accepts cls (getConfig l)) eqn:Acc.
  2: { split; [reflexivity|]. right. intros (H & _).
       rewrite H in Acc. discriminate. }
  unfold bind at 1.
  unfold Adapter.model_add, bind, Adapter.this, lift, Tf.add.
  rewrite Hm. destruct (tf_add_accepts m _) eqn:Add.
  2: { split; [reflexivity|]. right. intros (_ & H & _).
       rewrite H in Add. discriminate. }
  unfold Adapter.update. destruct freeze.
  - unfold Adapter.freeze_added_layer, Adapter.update. simpl.
    rewrite freeze_last_snoc. simpl.
    eexists. split; [|split; [reflexivity|]]; [|auto].
    unfold Adapter.copy_of. simpl. auto.
  - unfold ret. simpl.
    eexists. split; [|split; [reflexivity|]]; [|rewrite app_nil_r; auto].
    unfold Adapter.copy_of. cbn [snd className config trainable].
    split; [exact L|]. split; [reflexivity|].
    apply trainable_of_getConfig.
Qed.

Lemma forEach_copied freeze outs ls :
  forall i rt rt' m,
    Adapter.forEach_from (Adapter.copy_base_layer freeze outs) ls i rt
      = (Ok tt, rt') ->
    Adapter.model (Adapter.svc rt) = Some m ->
    exists new,
      Adapter.model (Adapter.svc rt')
        = Some (mkModel (layers m ++ new) (compiled m)) /\
      Forall2 (Adapter.copy_of freeze) new (Adapter.kept_from outs ls i) /\
      Adapter.frozenLayers (Adapter.svc rt')
        = Adapter.frozenLayers (Adapter.svc rt)
          ++ (if freeze then map fst (Adapter.kept_from outs ls i) else []) /\
      Adapter.isTransferLearning (Adapter.svc rt')
        = Adapter.isTransferLearning (Adapter.svc rt) /\
      Adapter.transferBaseModel (Adapter.svc rt')
        = Adapter.transferBaseModel (Adapter.svc rt).
Proof.
  induction ls as [|l ls IH]; intros i rt rt' m H Hm.
  - inversion H; subst. exists [].
    destruct m, freeze; simpl; rewrite !app_nil_r;
      repeat split; auto; constructor.
  - simpl in H. apply bind_ok in H. destruct H as ([] & rt1 & H1 & H2).
    pose proof (copy_base_step freeze outs l i rt Hm) as Step.
    rewrite H1 in Step. simpl.
    destruct (existsb (Z.eqb (Z.of_nat i)) outs).
    + subst rt1. apply (IH _ _ _ _ H2 Hm).
    + destruct Step as (l' & Hc & Hm1 & Hf1 & Ht1 & Hb1).
      destruct (IH _ _ _ _ H2 Hm1) as (new & Hm' & Hall & Hf' & Ht' & Hb').
      exists (l' :: new). simpl in Hm'. rewrite <- app_assoc in Hm'.
      split; [exact Hm'|]. split; [constructor; assumption|].
      split; [|split; congruence].
      rewrite Hf', Hf1, <- app_assoc. destruct freeze; reflexivity.
Qed.

Lemma forEach_copied_returns freeze outs ls :
  Adapter.accepts_layers lib ->
  forall i rt m,
    Adapter.model (Adapter.svc rt) = Some m ->
    Forall (fun il => layers_lookup (toLowerCase (className (snd il)))
                      <> None)
           (Adapter.kept_from outs ls i) ->
    exists rt' m',
      Adapter.forEach_from (Adapter.copy_base_layer freeze outs) ls i rt
        = (Ok tt, rt') /\
      Adapter.model (Adapter.svc rt') = Some m'.
Proof.
  intros Acc. induction ls as [|l ls IH]; intros i rt m Hm Hall.
  - exists rt, m. auto.
  - simpl. unfold bind. simpl in Hall.
    pose proof (copy_base_step freeze outs l i rt Hm) as Step.
    destruct (Adapter.copy_base_layer freeze outs l i rt) as [[[]|e] rt1].
    + destruct (existsb (Z.eqb (Z.of_nat i)) outs).
      * subst rt1. apply (IH (S i) rt m Hm Hall).
      * destruct Step as (l' & _ & Hm1 & _).
        inversion Hall; subst. apply (IH (S i) rt1 _ Hm1). assumption.
    + destruct Step as (Out & [L | NA]); [|contradiction].
      rewrite Out in Hall. inversion Hall; subst. simpl in *. contradiction.
Qed.

(** What [setupTransferLearning] builds when the factory of every copied
    layer is found under its lower-cased class name and the library accepts
    the layers: the new model holds a copy of each base layer whose index is
    not an output index, in order; the copies are frozen and their indices
    pushed on [frozenLayers] exactly when the flag is truthy. *)
Lemma setupTransferLearning_copies path freezeBaseLayers outputLayers rt base :
  tf_loadLayersModel path = Ok base ->
  Adapter.accepts_layers lib ->
  let outs := Adapter.effective_outputs outputLayers
                (List.length (layers base)) in
  let kept := Adapter.kept_from outs (layers base) 0 in
  Forall (fun il => layers_lookup (toLowerCase (className (snd il))) <> None)
         kept ->
  exists rt' m,
    Adapter.setupTransferLearning path freezeBaseLayers outputLayers rt
      = (Ok true, rt') /\
    Adapter.model (Adapter.svc rt') = Some m /\
    Forall2 (Adapter.copy_of (Adapter.freeze_flag freezeBaseLayers))
            (layers m) kept /\
    Adapter.frozenLayers (Adapter.svc rt')
      = Adapter.frozenLayers (Adapter.svc rt)
        ++ (if Adapter.freeze_flag freezeBaseLayers then map fst kept
            else []) /\
    Adapter.isTransferLearning (Adapter.svc rt') = true /\
    Adapter.transferBaseModel (Adapter.svc rt') = Some base.
Proof.
  intros Hload Acc outs kept Hall.
  unfold Adapter.setupTransferLearning. rewrite try_rethrow.
  unfold bind at 1. unfold lift at 1. rewrite Hload.
  unfold bind at 1. unfold Adapter.update at 1.
  unfold bind at 1. unfold Adapter.update at 1.
  unfold bind at 1. unfold Adapter.update at 1.
  unfold bind at 1. unfold Adapter.forEach. fold outs.
  match goal with
  | |- context [Adapter.forEach_from ?g ?ls 0 ?r] => set (rt0 := r)
  end.
  destruct (forEach_copied_returns (Adapter.freeze_flag freezeBaseLayers)
              outs (layers base) Acc 0 rt0 (m := sequential) eq_refl Hall)
    as (rt1 & m1 & Hrun & _).
  rewrite Hrun.
  destruct (forEach_copied _ _ _ _ _ Hrun (m := sequential) eq_refl)
    as (new & Hm & Hc & Hf & Ht & Hb).
  exists rt1, (mkModel new None). unfold ret.
  split; [reflexivity|]. split; [exact Hm|]. split; [exact Hc|].
  split; [exact Hf|]. split; [exact Ht | exact Hb].
Qed.

Lemma forEach_copied_throws freeze outs ls :
  forall i rt m,
    Adapter.model (Adapter.svc rt) = Some m ->
    Exists (fun il => layers_lookup (toLowerCase (className (snd il))) = None)
           (Adapter.kept_from outs ls i) ->
    exists e rt',
      Adapter.forEach_from (Adapter.copy_base_layer freeze outs) ls i rt
      = (Throw e, rt').
Proof.
  induction ls as [|l ls IH]; intros i rt m Hm Hex; simpl in Hex.
  - inversion Hex.
  - simpl. unfold bind.
    pose proof (copy_base_step freeze outs l i rt Hm) as Step.
    destruct (Adapter.copy_base_layer freeze outs l i rt) as [[[]|e] rt1].
    + destruct (existsb (Z.eqb (Z.of_nat i)) outs).
      * subst rt1. apply (IH (S i) rt m Hm Hex).
      * destruct Step as (l' & Hc & Hm1 & _).
        inversion Hex as [? ? Hhead | ? ? Htail]; subst.
        -- destruct Hc as (Hc & _). simpl in Hhead, Hc. congruence.
        -- apply (IH (S i) rt1 _ Hm1 Htail).
    + exists e, rt1. reflexivity.
Qed.

(** Whenever one of the layers to copy has a class name whose lower-cased
    form is not a property of [tf.layers], [setupTransferLearning] throws,
    and [loadModel] in the transfer-learning mode reports failure. *)
Lemma setupTransferLearning_throws_on_unresolved_class
      path freezeBaseLayers outputLayers rt base :
  tf_loadLayersModel path = Ok base ->
  Exists (fun il => layers_lookup (toLowerCase (className (snd il))) = None)
         (Adapter.kept_from
            (Adapter.effective_outputs outputLayers
               (List.length (layers base)))
            (layers base) 0) ->
  exists e rt',
    Adapter.setupTransferLearning path freezeBaseLayers outputLayers rt
    = (Throw e, rt').
Proof.
  intros Hload Hex.
  unfold Adapter.setupTransferLearning. rewrite try_rethrow.
  unfold bind at 1. unfold lift at 1. rewrite Hload.
  unfold bind at 1. unfold Adapter.update at 1.
  unfold bind at 1. unfold Adapter.update at 1.
  unfold bind at 1. unfold Adapter.update at 1.
  unfold bind at 1. unfold Adapter.forEach.
  match goal with
  | |- context [Adapter.forEach_from ?g ?ls 0 ?r] => set (rt0 := r)
  end.
  destruct (forEach_copied_throws (Adapter.freeze_flag freezeBaseLayers)
              _ _ 0 rt0 (m := sequential) eq_refl Hex) as (e & rt1 & Hrun).
  rewrite Hrun. exists e, rt1. reflexivity.
Qed.

End TransferFacts.

Section TransferFailure.
Context {lib : TensorLib}.

(** C4, at a convolutional base model. When [tf.layers] has no property
    [maxpooling2d] (the factory is [maxPooling2d]), copying the base
    [Conv2D; MaxPooling2D; Flatten; Dense] stops with a TypeError at the
    pooling layer: the new model holds the copy of the first layer only,
    where the layers of index 0, 1 and 2 were to be copied. *)
Theorem setupTransferLearning_pooling_layer_throws path freezeBaseLayers rt :
  tf_layers_other "maxpooling2d" = None ->
  tf_loadLayersModel path = Ok Double.cnn_base ->
  Adapter.accepts_layers lib ->
  exists msg rt',
    Adapter.setupTransferLearning path freezeBaseLayers None rt
      = (Throw (TypeError msg), rt') /\
    option_map (fun m => map className (layers m))
               (Adapter.model (Adapter.svc rt')) = Some ["Conv2D"] /\
    map (fun il => className (snd il))
        (Adapter.kept_from
           (Adapter.effective_outputs None
              (List.length (layers Double.cnn_base)))
           (layers Double.cnn_base) 0)
      = ["Conv2D"; "MaxPooling2D"; "Flatten"].
Proof.
  intros Hno Hload (Hl & Ha & Hc).
  unfold Adapter.setupTransferLearning. rewrite try_rethrow.
  unfold bind at 1. unfold lift at 1. rewrite Hload.
  assert (Hlook : layers_lookup "maxpooling2d" = None) by exact Hno.
  assert (Hconv : layers_lookup "conv2d" = Some "Conv2D") by reflexivity.
  destruct (Adapter.freeze_flag freezeBaseLayers);
    cbv -[layers_lookup tf_layer_accepts tf_add_accepts];
    rewrite Hconv, Hl, Ha;
    cbv -[layers_lookup tf_layer_accepts tf_add_accepts];
    rewrite Hlook;
    eexists; eexists; (split; [reflexivity|]); split; reflexivity.
Qed.

End TransferFailure.

(** *** [loadModel] and the state of an earlier load *)

Section LoadResets.
Context {lib : TensorLib}.

(** What a call of [setupTransferLearning] that returns has done: it loaded
    a base model, set the flag, and pushed on [frozenLayers] the indices of
    the copied layers when it froze them. *)
Lemma setupTransferLearning_returns_inv
      path freezeBaseLayers outputLayers rt b rt' :
  Adapter.setupTransferLearning path freezeBaseLayers outputLayers rt
    = (Ok b, rt') ->
  exists base,
    tf_loadLayersModel path = Ok base /\
    b = true /\
    Adapter.isTransferLearning (Adapter.svc rt') = true /\
    Adapter.frozenLayers (Adapter.svc rt')
      = Adapter.frozenLayers (Adapter.svc rt)
        ++ (if Adapter.freeze_flag freezeBaseLayers
            then map fst
                   (Adapter.kept_from
                      (Adapter.effective_outputs outputLayers
                         (List.length (layers base)))
                      (layers base) 0)
            else []) /\
    Adapter.transferBaseModel (Adapter.svc rt') = Some base.
Proof.
  unfold Adapter.setupTransferLearning. rewrite try_rethrow.
  unfold bind at 1. unfold lift at 1.
  destruct (tf_loadLayersModel path) as [base|e]; [|discriminate].
  unfold bind at 1. unfold Adapter.update at 1.
  unfold bind at 1. unfold Adapter.update at 1.
  unfold bind at 1. unfold Adapter.update at 1.
  unfold bind at 1. unfold Adapter.forEach.
  match goal with
  | |- context [Adapter.forEach_from ?g ?ls 0 ?r] => set (rt0 := r)
  end.
  destruct (Adapter.forEach_from
              (Adapter.copy_base_layer (Adapter.freeze_flag freezeBaseLayers)
                 (Adapter.effective_outputs outputLayers
                    (List.length (layers base))))
              (layers base) 0 rt0) as [[[]|e] rt1] eqn:Hrun;
    [|discriminate].
  unfold ret. intros H. injection H as <- <-.
  destruct (forEach_copied _ _ _ _ _ Hrun (m := sequential) eq_refl)
    as (new & Hm & Hc & Hf & Ht & Hb).
  exists base. split; [reflexivity|]. split; [reflexivity|].
  split; [exact Ht|]. split; [exact Hf | exact Hb].
Qed.

(** [loadModel] does not read the transfer-learning state that it finds. *)
Lemma loadModel_forgets_transfer_state modelPath modelConfig b l rt :
  Adapter.loadModel modelPath modelConfig (Adapter.with_transfer_state b l rt)
  = Adapter.loadModel modelPath modelConfig rt.
Proof. rewrite !loadModel_after_reset. reflexivity. Qed.

(** C10. [loadModel] begins, in every mode, by resetting the
    transfer-learning state: it behaves as on the reset runtime, and its
    result and the runtime it leaves are the same whatever transfer-learning
    state an earlier load left behind. When the mode it chooses is not the
    transfer-learning one, the state is [false] and the empty list when the
    call ends, and that is what [getModelSummary] reports and what
    [saveModel] writes into the metadata afterwards. When the mode is the
    transfer-learning one and the call reports success, the flag is set and
    the frozen indices are those of the layers copied and frozen by this call
    alone. *)
Theorem loadModel_clears_transfer_state modelPath modelConfig rt r rt' :
  Adapter.loadModel modelPath modelConfig rt = (r, rt') ->
  Adapter.loadModel modelPath modelConfig (Adapter.reset_transfer rt)
    = (r, rt') /\
  (forall b l,
     Adapter.loadModel modelPath modelConfig
                       (Adapter.with_transfer_state b l rt) = (r, rt')) /\
  (Adapter.load_mode modelPath modelConfig <> Adapter.Transfer ->
   Adapter.isTransferLearning (Adapter.svc rt') = false /\
   Adapter.frozenLayers (Adapter.svc rt') = [] /\
   (forall s rt2,
      Adapter.getModelSummary rt' = (Ok s, rt2) ->
      Adapter.sum_isTransferLearning s = false /\
      Adapter.sum_frozenLayers s = []) /\
   (forall MODELS_DIR join path metadata now rt2,
      Adapter.saveModel MODELS_DIR join path metadata now rt'
        = (Ok true, rt2) ->
      exists m md,
        Adapter.files rt2
          = Adapter.files rt' ++ [(path, Adapter.mkArtifact m true md)] /\
        Adapter.md_isTransferLearning md = false /\
        Adapter.md_frozenLayers md = [])) /\
  (Adapter.load_mode modelPath modelConfig = Adapter.Transfer ->
   r = Ok true ->
   exists base,
     tf_loadLayersModel
       (Adapter.or_default (Adapter.mc_baseModelPath modelConfig) EmptyString)
       = Ok base /\
     Adapter.isTransferLearning (Adapter.svc rt') = true /\
     Adapter.frozenLayers (Adapter.svc rt')
       = (if Adapter.freeze_flag (Adapter.mc_freezeBaseLayers modelConfig)
          then map fst
                 (Adapter.kept_from
                    (Adapter.effective_outputs
                       (Adapter.mc_outputLayers modelConfig)
                       (List.length (layers base)))
                    (layers base) 0)
          else [])).
Proof.
  intros H.
  split; [|split; [|split]].
  - rewrite <- H. rewrite !loadModel_after_reset. reflexivity.
  - intros b l. rewrite loadModel_forgets_transfer_state. exact H.
  - intros Hm.
    assert (Hst : Adapter.transfer_state rt' = (false, [])).
    { rewrite loadModel_after_reset in H.
      assert (K : Adapter.stable Adapter.transfer_state
                    (try_catch
                       (Adapter.load_by_mode modelPath modelConfig ;;
                        ret true) (fun _ => ret false))).
      { apply stable_try.
        - apply stable_bind; [apply keeps_load_by_mode; exact Hm|].
          intros; apply stable_ret.
        - intros; apply stable_ret. }
      apply K in H. rewrite H. reflexivity. }
    unfold Adapter.transfer_state in Hst. injection Hst as Ht Hf.
    split; [|split; [|split]].
    + exact Ht.
    + exact Hf.
    + intros s rt2 Hs. apply getModelSummary_transfer_state in Hs.
      unfold Adapter.transfer_state in Hs. injection Hs as Hs1 Hs2.
      split; congruence.
    + intros MODELS_DIR join path metadata now rt2 Hs.
      apply saveModel_true_metadata in Hs.
      destruct Hs as (m & md & _ & Hfiles & Hi & Hfr).
      exists m, md. repeat split; congruence.
  - intros Hm Hr. subst r.
    rewrite loadModel_after_reset in H.
    unfold Adapter.load_by_mode in H. rewrite Hm in H.
    unfold try_catch in H.
    match type of H with
    | context [bind (bind ?c _) _ ?x] =>
        destruct (c x) as [[b|e] rt1] eqn:Hs
    end.
    + unfold bind in H. rewrite Hs in H. unfold ret in H.
      injection H as <-.
      destruct (setupTransferLearning_returns_inv _ _ _ _ Hs)
        as (base & Hload & _ & Ht & Hf & _).
      exists base. split; [exact Hload|]. split; [exact Ht|].
      exact Hf.
    + unfold bind in H. rewrite Hs in H. discriminate.
Qed.

End LoadResets.

(** A service that holds stale transfer-learning state loads the default
    model, or sets up transfer learning from a base model of three layers
    whose last is the output. *)
Lemma loadModel_clears_transfer_state_witness :
  let stale :=
    Adapter.mkRuntime
      (Adapter.mkService None None None None true [7; 8]) [] [] in
  let transfer :=
    Adapter.mkModelConfig None None (Some "file://base/model.json")
                          (VBool true) VUndefined None in
  (Adapter.isTransferLearning
     (Adapter.svc (snd (@Adapter.loadModel Double.lib None Adapter.no_config
                          stale))) = false /\
   Adapter.frozenLayers
     (Adapter.svc (snd (@Adapter.loadModel Double.lib None Adapter.no_config
                          stale))) = []) /\
  Adapter.frozenLayers
    (Adapter.svc (snd (@Adapter.loadModel Double.lib None transfer stale)))
  = [0; 1].
Proof.
  intros stale transfer. split.
  - assert (Hmode : Adapter.load_mode None Adapter.no_config
                    <> Adapter.Transfer) by discriminate.
    destruct (@loadModel_clears_transfer_state Double.lib None
                Adapter.no_config stale _ _ eq_refl) as (_ & _ & H & _).
    destruct (H Hmode) as (H1 & H2 & _).
    split; [exact H1 | exact H2].
  - destruct (@loadModel_clears_transfer_state Double.lib None transfer
                stale _ _ eq_refl) as (_ & _ & _ & H).
    destruct (H eq_refl eq_refl) as (base & Hb & _ & Hf).
    cbn in Hb. injection Hb as <-. exact Hf.
Defined.


(** A convolutional base, loaded by the library double. *)
Lemma setupTransferLearning_pooling_layer_throws_witness :
  exists msg rt',
    @Adapter.setupTransferLearning
       (Double.lib_with Double.cnn_base [] Double.one_epoch)
       "file://models/base/model.json" (VBool true) None Double.live
      = (Throw (TypeError msg), rt') /\
    option_map (fun m => map className (layers m))
               (Adapter.model (Adapter.svc rt')) = Some ["Conv2D"].
Proof.
  destruct (@setupTransferLearning_pooling_layer_throws
              (Double.lib_with Double.cnn_base [] Double.one_epoch)
              "file://models/base/model.json" (VBool true) Double.live
              eq_refl eq_refl)
    as (msg & rt' & H1 & H2 & _).
  - repeat split.
  - exists msg, rt'. split; assumption.
Defined.

(** *** The AI controller *)

Lemma lookup_upsert d docs :
  AiController.lookup (AiController.doc_id d) (AiController.upsert d docs)
  = Some d.
Proof.
  unfold AiController.lookup.
  induction docs as [|d' docs IH]; simpl.
  - rewrite Nat.eqb_refl. reflexivity.
  - destruct (Nat.eqb (AiController.doc_id d') (AiController.doc_id d)) eqn:E;
      simpl.
    + rewrite Nat.eqb_refl. reflexivity.
    + rewrite E. exact IH.
Qed.

Section AiControllerFacts.
Context {lib : TensorLib}.

(** [POST /ai/predict]: when the model record exists and the prediction step
    throws, the handler answers 500 and leaves the collection as it was; the
    status of the record is not set to [error]. *)
Lemma predict_failure_keeps_collection req w inputData modelId aiModel e rt' :
  AiController.pq_inputData req = Some inputData ->
  AiController.pq_modelId req = Some modelId ->
  AiController.lookup modelId (AiController.aimodels w) = Some aiModel ->
  Adapter.predict inputData (AiController.runtime w) = (Throw e, rt') ->
  AiController.predict req w
  = (Ok (AiController.fail_with 500 "Error making prediction" e),
     AiController.mkWorld rt' (AiController.aimodels w)
                          (AiController.next_id w) (AiController.clock w)).
Proof.
  intros Hi Hm Hl Hp.
  unfold AiController.predict, try_catch, bind, AiController.findById,
    AiController.adapter, ret.
  rewrite Hi, Hm, Hl, Hp. reflexivity.
Qed.

(** [POST /ai/train]: when the model record exists and the training step
    throws, the handler answers 500; the record has gained the training
    data, and its status is what it was before the request. *)
Lemma trainModel_failure_keeps_status req w trainData labels modelId aiModel :
  AiController.tr_trainData req = Some trainData ->
  AiController.tr_labels req = Some labels ->
  AiController.tr_modelId req = Some modelId ->
  AiController.lookup modelId (AiController.aimodels w) = Some aiModel ->
  forall e rt',
    Adapter.trainModel trainData labels (AiController.tr_epochs req)
                       (AiController.tr_batchSize req) None
                       (AiController.runtime w) = (Throw e, rt') ->
    exists w',
      AiController.trainModel req w
      = (Ok (AiController.fail_with 500 "Error training AI model" e), w') /\
      option_map AiController.doc_status
                 (AiController.lookup modelId (AiController.aimodels w'))
      = Some (AiController.doc_status aiModel).
Proof.
  intros Hd Hl Hm Hf e rt' Ht.
  assert (Hid : AiController.doc_id aiModel = modelId).
  { unfold AiController.lookup in Hf. apply find_some in Hf.
    destruct Hf as [_ Hf]. apply Nat.eqb_eq. exact Hf. }
  unfold AiController.trainModel, try_catch, bind, AiController.findById,
    AiController.addTrainingData, AiController.now, AiController.save,
    AiController.adapter, bind, ret.
  rewrite Hd, Hl, Hm, Hf. simpl. rewrite Ht.
  eexists. split; [reflexivity|]. simpl.
  rewrite <- Hid.
  change (AiController.doc_id aiModel)
    with (AiController.doc_id
            (AiController.with_trainingData
               (AiController.doc_trainingData aiModel
                ++ [AiController.mkTrainingRecord trainData labels
                      (AiController.clock w)]) aiModel)) at 1.
  rewrite lookup_upsert. reflexivity.
Qed.

(** C2. A training or prediction step that fails on an existing model record
    leaves the status of the record as it was (the handler answers 500):
    here the record of a model initialized before the process restarted, the
    adapter holding no live model, keeps the status [initialized] through a
    failed prediction and a failed training. *)
Theorem failed_step_does_not_set_error_status :
  (exists resp w',
     AiController.predict
       (AiController.mkPredictReq (Some 0) (Some [[(1 # 10)%Q]])
          AiController.UserIdAbsent)
       Double.restarted = (Ok resp, w') /\
     AiController.code resp = 500 /\
     option_map AiController.doc_status
                (AiController.lookup 0 (AiController.aimodels w'))
     = Some "initialized") /\
  (exists resp w',
     AiController.trainModel
       (AiController.mkTrainReq (Some 0) (Some [[(1 # 10)%Q]])
                                (Some [[1%Q]]) (Some 1) None)
       Double.restarted = (Ok resp, w') /\
     AiController.code resp = 500 /\
     option_map AiController.doc_status
                (AiController.lookup 0 (AiController.aimodels w'))
     = Some "initialized").
Proof.
  split.
  - eexists. eexists. split.
    + eapply predict_failure_keeps_collection; reflexivity.
    + split; reflexivity.
  - edestruct (@trainModel_failure_keeps_status
                 (AiController.mkTrainReq (Some 0) (Some [[(1 # 10)%Q]])
                                          (Some [[1%Q]]) (Some 1) None)
                 Double.restarted) as (w' & Hrun & Hst);
      [reflexivity | reflexivity | reflexivity | reflexivity
       | reflexivity |].
    eexists. eexists. split; [exact Hrun|]. split; [reflexivity | exact Hst].
Qed.

(** *** Initialize, then train *)

Lemma loadModel_default_returns rt :
  Adapter.accepts_layers lib ->
  exists rt' m,
    Adapter.loadModel None Adapter.no_config rt = (Ok true, rt') /\
    Adapter.model (Adapter.svc rt') = Some m /\
    compiled m = Some Adapter.default_compile.
Proof.
  intros (Hl & Ha & Hc).
  rewrite loadModel_after_reset.
  unfold Adapter.load_by_mode.
  change (Adapter.load_mode None Adapter.no_config) with Adapter.Fallback.
  repeat (cbv -[tf_layer_accepts tf_add_accepts tf_compile_accepts];
          progress rewrite ?Hl, ?Ha, ?Hc).
  eexists. eexists. split; [reflexivity|]. split; reflexivity.
Qed.

Lemma adapter_trainModel_returns trainData labels epochs batchSize rt m c r m' :
  Adapter.model (Adapter.svc rt) = Some m ->
  compiled m = Some c ->
  tf_tensor2d_accepts trainData = true ->
  tf_tensor2d_accepts labels = true ->
  tf_fit m trainData labels
         (mkFitArgs (Adapter.or_default epochs 10)
                    (Adapter.or_default batchSize 32) (2 # 10)%Q)
    = Ok (r, m') ->
  run_onEpochEnd Adapter.onEpochEnd r (epoch r) 0 = Ok tt ->
  Adapter.trainModel trainData labels epochs batchSize None rt
  = (Ok r, Adapter.mkRuntime (Adapter.set_model (Some m') (Adapter.svc rt))
                             (Adapter.files rt) (Adapter.warnings rt)).
Proof.
  intros Hm Hc Hd Hl Hfit Hcb.
  unfold Adapter.trainModel. rewrite try_rethrow.
  unfold bind, Adapter.this, lift, ret, tensor2d, Adapter.update.
  rewrite Hm, Hc, Hd, Hl. simpl. rewrite Hm. unfold fit.
  rewrite Hfit, Hcb. reflexivity.
Qed.

(** The callback of [trainModel] throws at the first epoch whose logs hold
    no loss. *)
Lemma onEpochEnd_without_loss r e es i :
  nth_error (history_loss r) i = None ->
  exists err, run_onEpochEnd Adapter.onEpochEnd r (e :: es) i = Throw err.
Proof.
  intros Hn. cbn [run_onEpochEnd]. unfold Adapter.onEpochEnd, logs_at.
  cbn [log_loss]. rewrite Hn. cbn [Adapter.toFixed]. eexists. reflexivity.
Qed.

(** [trainModel] of the service rejects when [fit] trains on no example:
    either the library rejects, or its first epoch ends with logs that hold
    no loss and the callback of the service throws. *)
Lemma adapter_trainModel_no_examples trainData labels epochs batchSize rt m c :
  Adapter.no_examples_no_loss lib ->
  Adapter.model (Adapter.svc rt) = Some m ->
  compiled m = Some c ->
  tf_tensor2d_accepts trainData = true ->
  tf_tensor2d_accepts labels = true ->
  let a := mkFitArgs (Adapter.or_default epochs 10)
                     (Adapter.or_default batchSize 32) (2 # 10)%Q in
  training_examples (List.length trainData) a = 0%Z ->
  0 < fit_epochs a ->
  exists e rt',
    Adapter.trainModel trainData labels epochs batchSize None rt
    = (Throw e, rt').
Proof.
  intros Hrule Hm Hc Hd Hl a Hn He.
  unfold Adapter.trainModel. rewrite try_rethrow.
  unfold bind, Adapter.this, lift, ret, tensor2d, Adapter.update.
  rewrite Hm, Hc, Hd, Hl. simpl. rewrite Hm. unfold fit.
  fold a.
  destruct (tf_fit m trainData labels a) as [[r m']|e] eqn:Hfit.
  - destruct (Hrule _ _ _ _ _ _ Hn He Hfit) as [Hep Hloss].
    destruct (epoch r) as [|e0 es]; [congruence|].
    destruct (@onEpochEnd_without_loss r e0 es 0) as (err & Herr).
    { rewrite Hloss. reflexivity. }
    rewrite Herr. eexists. eexists. reflexivity.
  - eexists. eexists. reflexivity.
Qed.

Lemma initializeModel_returns req w :
  AiController.ir_userId req <> AiController.UserIdMalformed ->
  Adapter.accepts_layers lib ->
  exists resp w1 d1 m,
    AiController.initializeModel req w = (Ok resp, w1) /\
    AiController.code resp = 200 /\
    AiController.lookup (AiController.next_id w) (AiController.aimodels w1)
      = Some d1 /\
    AiController.doc_status d1 = "initialized" /\
    AiController.doc_trainingHistory d1 = None /\
    Adapter.model (Adapter.svc (AiController.runtime w1)) = Some m /\
    compiled m = Some Adapter.default_compile.
Proof.
  intros Hu Acc.
  destruct (loadModel_default_returns (AiController.runtime w) Acc)
    as (rt' & m & Hload & Hm & Hc).
  unfold AiController.initializeModel, try_catch, bind,
    AiController.create_model, bind, AiController.fresh_id,
    AiController.now, AiController.save, AiController.adapter, ret, lift.
  destruct (AiController.ir_userId req); [| |congruence];
  simpl; rewrite Hload; simpl;
  eexists; eexists; eexists; exists m.
  all: split; [reflexivity|]; simpl; (split; [reflexivity|]);
    (split;
     [ match goal with
       | |- AiController.lookup ?i (AiController.upsert ?d _) = _ =>
           change i with (AiController.doc_id d); apply lookup_upsert
       end |]);
    simpl; auto.
Qed.

(** [POST /ai/train]: when the model record exists and the training step
    throws, the handler answers 500 and the stored record is the one it
    found, with the training data of the request appended. *)
Lemma trainModel_failure_keeps_record req w trainData labels modelId aiModel :
  AiController.tr_trainData req = Some trainData ->
  AiController.tr_labels req = Some labels ->
  AiController.tr_modelId req = Some modelId ->
  AiController.lookup modelId (AiController.aimodels w) = Some aiModel ->
  forall e rt',
    Adapter.trainModel trainData labels (AiController.tr_epochs req)
                       (AiController.tr_batchSize req) None
                       (AiController.runtime w) = (Throw e, rt') ->
    exists w',
      AiController.trainModel req w
      = (Ok (AiController.fail_with 500 "Error training AI model" e), w') /\
      AiController.lookup modelId (AiController.aimodels w')
      = Some (AiController.with_trainingData
                (AiController.doc_trainingData aiModel
                 ++ [AiController.mkTrainingRecord trainData labels
                       (AiController.clock w)]) aiModel).
Proof.
  intros Hd Hl Hm Hf e rt' Ht.
  assert (Hid : AiController.doc_id aiModel = modelId).
  { unfold AiController.lookup in Hf. apply find_some in Hf.
    destruct Hf as [_ Hf]. apply Nat.eqb_eq. exact Hf. }
  unfold AiController.trainModel, try_catch, bind, AiController.findById,
    AiController.addTrainingData, AiController.now, AiController.save,
    AiController.adapter, bind, ret.
  rewrite Hd, Hl, Hm, Hf. simpl. rewrite Ht.
  eexists. split; [reflexivity|]. simpl.
  rewrite <- Hid.
  change (AiController.doc_id aiModel)
    with (AiController.doc_id
            (AiController.with_trainingData
               (AiController.doc_trainingData aiModel
                ++ [AiController.mkTrainingRecord trainData labels
                      (AiController.clock w)]) aiModel)) at 1.
  apply lookup_upsert.
Qed.

(** Initializing a model and training it for one epoch on data of which the
    validation split leaves something to train on: when the library builds
    the default model, accepts the two tensors and the fit resolves to a
    history of the one epoch [0] whose logs hold a loss and an accuracy,
    both requests succeed, the status of the record goes from [initialized]
    to [trained], and the persisted [trainingHistory.epochs] is the number 1
    (the controller computes the string [01], which the schema casts). *)
Lemma initialize_then_train_recorded ireq w trainData labels :
  AiController.ir_userId ireq <> AiController.UserIdMalformed ->
  Adapter.accepts_layers lib ->
  tf_tensor2d_accepts trainData = true ->
  tf_tensor2d_accepts labels = true ->
  (forall m, exists r m',
      tf_fit m trainData labels (mkFitArgs 1 32 (2 # 10)%Q) = Ok (r, m') /\
      epoch r = [0] /\
      run_onEpochEnd Adapter.onEpochEnd r (epoch r) 0 = Ok tt) ->
  exists resp1 w1 d1 resp2 w2 d2,
    AiController.initializeModel ireq w = (Ok resp1, w1) /\
    AiController.code resp1 = 200 /\
    AiController.lookup (AiController.next_id w) (AiController.aimodels w1)
      = Some d1 /\
    AiController.doc_status d1 = "initialized" /\
    AiController.trainModel
      (AiController.mkTrainReq (Some (AiController.next_id w))
         (Some trainData) (Some labels) (Some 1) None) w1
      = (Ok resp2, w2) /\
    AiController.code resp2 = 200 /\
    AiController.lookup (AiController.next_id w) (AiController.aimodels w2)
      = Some d2 /\
    AiController.doc_status d2 = "trained" /\
    option_map AiController.epochs (AiController.doc_trainingHistory d2)
      = Some 1.
Proof.
  intros Hu Acc Hd Hl Hfit.
  destruct (initializeModel_returns ireq w Hu Acc)
    as (resp1 & w1 & d1 & m & Hinit & Hcode & Hlook & Hst & _ & Hm & Hc).
  destruct (Hfit m) as (r & m' & Hr & He & Hcb).
  assert (Hid : AiController.doc_id d1 = AiController.next_id w).
  { unfold AiController.lookup in Hlook. apply find_some in Hlook.
    destruct Hlook as [_ Hlook]. apply Nat.eqb_eq. exact Hlook. }
  exists resp1, w1, d1.
  unfold AiController.trainModel, try_catch, bind, AiController.findById,
    AiController.addTrainingData, bind, AiController.now, AiController.save,
    AiController.adapter, ret.
  cbn [AiController.tr_trainData AiController.tr_labels
       AiController.tr_modelId AiController.tr_epochs
       AiController.tr_batchSize AiController.runtime AiController.aimodels
       AiController.clock AiController.next_id].
  rewrite Hlook.
  rewrite (adapter_trainModel_returns _ _ (Some 1) None _ Hm Hc Hd Hl Hr Hcb).
  rewrite He. cbn [lift AiController.cast_trainingHistory].
  eexists. eexists. eexists.
  split; [exact Hinit|]. split; [exact Hcode|]. split; [reflexivity|].
  split; [exact Hst|]. split; [reflexivity|]. split; [reflexivity|].
  split.
  { cbn [AiController.aimodels]. rewrite <- Hid.
    match goal with
    | |- AiController.lookup ?i (AiController.upsert ?d _) = _ =>
        change i with (AiController.doc_id d)
    end.
    apply lookup_upsert. }
  split; reflexivity.
Qed.

(** C9. The scenario itself does not train. [trainModel] of the service
    passes its default [validationSplit] of 0.2 to [fit], which of the one
    example of the scenario leaves [floor(1 * 0.8) = 0] to train on; a
    library whose epochs over no example end with logs that hold no loss
    makes the callback of the service throw at [logs.loss.toFixed], or
    rejects itself. So, when the library builds the default model and
    accepts the two tensors, the initialization answers 200, the training
    request of the scenario answers 500, the status of the record stays
    [initialized], and no [trainingHistory] is stored. *)
Theorem initialize_then_train_scenario_fails ireq w :
  AiController.ir_userId ireq <> AiController.UserIdMalformed ->
  Adapter.accepts_layers lib ->
  Adapter.no_examples_no_loss lib ->
  tf_tensor2d_accepts AiController.scenario_trainData = true ->
  tf_tensor2d_accepts AiController.scenario_labels = true ->
  exists resp1 w1 d1 resp2 w2 d2,
    AiController.initializeModel ireq w = (Ok resp1, w1) /\
    AiController.code resp1 = 200 /\
    AiController.lookup (AiController.next_id w) (AiController.aimodels w1)
      = Some d1 /\
    AiController.doc_status d1 = "initialized" /\
    AiController.trainModel
      (AiController.mkTrainReq (Some (AiController.next_id w))
         (Some AiController.scenario_trainData)
         (Some AiController.scenario_labels) (Some 1) None) w1
      = (Ok resp2, w2) /\
    AiController.code resp2 = 500 /\
    AiController.lookup (AiController.next_id w) (AiController.aimodels w2)
      = Some d2 /\
    AiController.doc_status d2 = "initialized" /\
    AiController.doc_trainingHistory d2 = None.
Proof.
  intros Hu Acc Hrule Hd Hl.
  destruct (initializeModel_returns ireq w Hu Acc)
    as (resp1 & w1 & d1 & m & Hinit & Hcode & Hlook & Hst & Hth & Hm & Hc).
  destruct (@adapter_trainModel_no_examples
              AiController.scenario_trainData AiController.scenario_labels
              (Some 1) None (AiController.runtime w1) m _ Hrule Hm Hc Hd Hl)
    as (e & rt' & Ht).
  { reflexivity. }
  { cbn. lia. }
  destruct (@trainModel_failure_keeps_record
              (AiController.mkTrainReq (Some (AiController.next_id w))
                 (Some AiController.scenario_trainData)
                 (Some AiController.scenario_labels) (Some 1) None)
              w1 _ _ _ d1 eq_refl eq_refl eq_refl Hlook e rt' Ht)
    as (w2 & Hrun & Hrec).
  exists resp1, w1, d1. eexists. exists w2. eexists.
  split; [exact Hinit|]. split; [exact Hcode|]. split; [exact Hlook|].
  split; [exact Hst|]. split; [exact Hrun|]. split; [reflexivity|].
  split; [exact Hrec|]. split; [exact Hst | exact Hth].
Qed.

(** *** Cloning *)

Lemma nat_of_toString n :
  option_map Nat.of_uint (DecimalString.NilZero.uint_of_string (nat_toString n))
  = Some n.
Proof.
  unfold nat_toString.
  rewrite <- (DecimalNat.Unsigned.of_to n) at 2.
  destruct (Nat.to_uint n); try reflexivity;
    rewrite DecimalString.NilZero.usu by discriminate; reflexivity.
Qed.

Lemma nat_toString_inj a b : nat_toString a = nat_toString b -> a = b.
Proof.
  intros H. pose proof (nat_of_toString a) as Ha.
  rewrite H, nat_of_toString in Ha. congruence.
Qed.

(** What [cloneModelForTransfer] does with a source that has an owner: 403
    and no new record unless the requester owns the source or the source is
    public; otherwise a record whose [baseModel] is the source, and which is
    frozen unless the request passed [false]. *)
Lemma clone_of_owned_source req w modelId source owner :
  AiController.cq_modelId req = Some modelId ->
  AiController.lookup modelId (AiController.aimodels w) = Some source ->
  AiController.doc_userId source = Some owner ->
  (Nat.eqb owner (AiController.cq_user req)
   || AiController.doc_isPublic source = false ->
   AiController.cloneModelForTransfer req w
   = (Ok (AiController.fail 403
            "You do not have permission to clone this model"), w)) /\
  (Nat.eqb owner (AiController.cq_user req)
   || AiController.doc_isPublic source = true ->
   exists resp w' new,
     AiController.cloneModelForTransfer req w = (Ok resp, w') /\
     AiController.code resp = 200 /\
     AiController.lookup (AiController.next_id w) (AiController.aimodels w')
       = Some new /\
     AiController.doc_baseModel new = Some (AiController.doc_id source) /\
     AiController.doc_userId new = Some (AiController.cq_user req) /\
     AiController.doc_status new = "initialized" /\
     AiController.doc_freezeBaseLayers new
       = Some (match AiController.cq_freezeBaseLayers req with
               | VBool false => false
               | _ => true
               end)).
Proof.
  intros Hm Hl Ho.
  assert (Heq : String.eqb (nat_toString owner)
                           (nat_toString (AiController.cq_user req))
                = Nat.eqb owner (AiController.cq_user req)).
  { destruct (Nat.eqb_spec owner (AiController.cq_user req)) as [->|Hne].
    - apply String.eqb_refl.
    - apply String.eqb_neq. intros H. apply Hne.
      apply nat_toString_inj. exact H. }
  split; intros Hacc.
  - unfold AiController.cloneModelForTransfer, try_catch, bind,
      AiController.findById, lift, AiController.owner_toString, ret.
    rewrite Hm, Hl, Ho, Heq, Hacc. reflexivity.
  - unfold AiController.cloneModelForTransfer, try_catch, bind,
      AiController.findById, lift, AiController.owner_toString, ret.
    rewrite Hm, Hl, Ho, Heq, Hacc.
    unfold AiController.clone, bind, AiController.fresh_id, AiController.now,
      AiController.save, ret. simpl.
    eexists. eexists. eexists. split; [reflexivity|]. simpl.
    split; [reflexivity|].
    match goal with
    | |- AiController.lookup ?i (AiController.upsert ?d _) = _ /\ _ =>
        change i with (AiController.doc_id d)
    end.
    rewrite lookup_upsert. split; [reflexivity|]. simpl.
    repeat split.
Qed.

(** C8, at a source without an owner. [initializeModel] stores no [userId]
    when the request names none; for such a source the access check throws
    before it compares anything, and the handler answers 500, not 403,
    whether the source is public or not; no record is created. *)
Theorem clone_of_ownerless_source_is_500 req w modelId source :
  AiController.cq_modelId req = Some modelId ->
  AiController.lookup modelId (AiController.aimodels w) = Some source ->
  AiController.doc_userId source = None ->
  exists resp,
    AiController.cloneModelForTransfer req w = (Ok resp, w) /\
    AiController.code resp = 500.
Proof.
  intros Hm Hl Ho.
  unfold AiController.cloneModelForTransfer, try_catch, bind,
    AiController.findById, lift, AiController.owner_toString, ret.
  rewrite Hm, Hl, Ho. eexists. split; reflexivity.
Qed.

End AiControllerFacts.

(** User 9 asks for a clone of the private model that has no owner. *)
Lemma clone_of_ownerless_source_is_500_witness :
  exists resp,
    AiController.cloneModelForTransfer
      (AiController.mkCloneReq 9 (Some 0) (Some "copy") None VUndefined)
      Double.two_models = (Ok resp, Double.two_models) /\
    AiController.code resp = 500.
Proof.
  apply (clone_of_ownerless_source_is_500
           (AiController.mkCloneReq 9 (Some 0) (Some "copy") None VUndefined)
           Double.two_models (modelId := 0) (source := Double.default_doc));
    reflexivity.
Defined.

(** The scenario on a library double whose fit records nothing for an epoch
    over no example, from an empty collection. *)
Lemma initialize_then_train_scenario_fails_witness :
  exists resp1 w1 resp2 w2,
    @AiController.initializeModel Double.lib_split
       (AiController.mkInitReq None None AiController.UserIdAbsent)
       Double.empty_world
      = (Ok resp1, w1) /\
    AiController.code resp1 = 200 /\
    @AiController.trainModel Double.lib_split
      (AiController.mkTrainReq (Some 0)
         (Some AiController.scenario_trainData)
         (Some AiController.scenario_labels) (Some 1) None) w1
      = (Ok resp2, w2) /\
    AiController.code resp2 = 500 /\
    option_map AiController.doc_status
               (AiController.lookup 0 (AiController.aimodels w2))
    = Some "initialized".
Proof.
  destruct (@initialize_then_train_scenario_fails Double.lib_split
              (AiController.mkInitReq None None AiController.UserIdAbsent)
              Double.empty_world)
    as (resp1 & w1 & d1 & resp2 & w2 & d2 & Hi & Hc1 & _ & _ & Ht & Hc2
        & Hl2 & Hs2 & _).
  - discriminate.
  - repeat split.
  - intros m x y a r m' Hn He Hfit. cbn in Hfit.
    injection Hfit as <- _. unfold Double.split_history. rewrite Hn.
    cbn [Z.eqb epoch history_loss]. split; [|reflexivity].
    destruct (fit_epochs a); [lia | discriminate].
  - reflexivity.
  - reflexivity.
  - exists resp1, w1, resp2, w2.
    split; [exact Hi|]. split; [exact Hc1|]. split; [exact Ht|].
    split; [exact Hc2|].
    change (AiController.next_id Double.empty_world) with 0 in Hl2.
    rewrite Hl2. cbn [option_map]. rewrite Hs2. reflexivity.
Defined.

(** *** Registration *)

Section AuthFacts.
Variable findByUsernameOrEmail :
  list AuthController.User -> string -> option AuthController.User.
Variable save_accepts :
  list AuthController.User -> AuthController.UserData -> bool.
Variable generateToken : AuthController.User -> string.

Local Notation "'register'" :=
  (AuthController.register findByUsernameOrEmail save_accepts generateToken).
Local Notation "'register_all'" :=
  (AuthController.register_all findByUsernameOrEmail save_accepts
                               generateToken).

Lemma register_step req w :
  exists resp w',
    register req w = (Ok resp, w') /\
    ((AuthController.users w' = AuthController.users w /\
      AuthController.created_role resp = None) \/
     (exists u,
        AuthController.users w' = AuthController.users w ++ [u] /\
        AuthController.created_role resp = Some (AuthController.role u) /\
        AuthController.role u
        = if Nat.eqb (List.length (AuthController.users w)) 0
          then "admin" else "user")).
Proof.
  unfold AuthController.register, try_catch, bind,
    AuthController.find_existing, AuthController.countDocuments,
    AuthController.create_user, ret.
  destruct (orb (String.eqb (str_or (AuthController.rq_username req)
                                   EmptyString) EmptyString)
                (String.eqb (str_or (AuthController.rq_password req)
                                   EmptyString) EmptyString)).
  { eexists. eexists. split; [reflexivity|]. left. split; reflexivity. }
  match goal with
  | |- context [if orb (AuthController.is_some ?a) ?b then _ else _] =>
      destruct (orb (AuthController.is_some a) b)
  end.
  { eexists. eexists. split; [reflexivity|]. left. split; reflexivity. }
  destruct (Nat.eqb (List.length (AuthController.users w)) 0) eqn:E3;
    match goal with
    | |- context [save_accepts ?a ?b] => destruct (save_accepts a b)
    end;
    eexists; eexists; (split; [reflexivity|]);
    first [ left; split; reflexivity
          | right; eexists; split; [reflexivity|]; split;
            [reflexivity | simpl; rewrite ?E3; reflexivity] ].
Qed.

Lemma expected_roles_snoc n :
  AuthController.expected_roles (S n)
  = AuthController.expected_roles n
    ++ [if Nat.eqb n 0 then "admin" else "user"].
Proof.
  destruct n as [|k]; [reflexivity|].
  simpl. f_equal. apply (repeat_cons k "user").
Qed.

Lemma register_all_roles reqs :
  forall w,
    map AuthController.role (AuthController.users w)
    = AuthController.expected_roles (List.length (AuthController.users w)) ->
    exists new,
      AuthController.users (snd (register_all reqs w))
      = AuthController.users w ++ new /\
      AuthController.created_roles (fst (register_all reqs w))
      = map AuthController.role new /\
      map AuthController.role (AuthController.users w ++ new)
      = AuthController.expected_roles
          (List.length (AuthController.users w ++ new)).
Proof.
  induction reqs as [|q reqs IH]; intros w Inv.
  - exists []. simpl. rewrite app_nil_r. auto.
  - simpl. destruct (register_step q w) as (resp & w1 & Hrun & Hcase).
    rewrite Hrun.
    destruct (register_all reqs w1) as [rs w2] eqn:Hrest. simpl.
    destruct Hcase as [(Hu & Hr) | (u & Hu & Hr & Hrole)].
    + destruct (IH w1) as (new & Hnew & Hroles & Hinv).
      { rewrite Hu. exact Inv. }
      rewrite Hrest in Hnew, Hroles. simpl in Hnew, Hroles.
      exists new. rewrite Hr, <- Hu. auto.
    + destruct (IH w1) as (new & Hnew & Hroles & Hinv).
      { rewrite Hu, map_app, length_app, Inv. simpl.
        rewrite Nat.add_1_r, expected_roles_snoc, Hrole. reflexivity. }
      rewrite Hrest in Hnew, Hroles. simpl in Hnew, Hroles.
      exists (u :: new). rewrite Hr. simpl.
      rewrite Hu, <- app_assoc in Hnew, Hinv. simpl in Hnew, Hinv.
      split; [exact Hnew|]. split; [f_equal; exact Hroles | exact Hinv].
Qed.


End AuthFacts.

(** *** Dataset creation *)

Section DatasetFacts.
Variable DATASET_DIR : string.
Variable create_accepts :
  list DatasetController.Dataset -> DatasetController.CreateReq -> bool.

Lemma findOne_has_named name creator ds :
  DatasetController.has_named name creator ds
  = match DatasetController.findOne_name_creator name creator ds with
    | Some _ => true
    | None => false
    end.
Proof.
  unfold DatasetController.has_named, DatasetController.findOne_name_creator.
  induction ds as [|d ds IH]; simpl; [reflexivity|].
  destruct (andb _ _); [reflexivity | exact IH].
Qed.

(** C6 (as amended). [createDataset] answers 400 and leaves the collection
    as it was exactly when the requester already has a dataset of that name,
    active or soft-deleted; otherwise it either creates one active dataset of
    that name for the requester and answers 201, or the document is refused
    and it answers 500 without creating anything. *)
Theorem createDataset_duplicate_name req w :
  exists resp w',
    DatasetController.createDataset DATASET_DIR create_accepts req w
      = (Ok resp, w') /\
    (DatasetController.code resp = 400 <->
     DatasetController.has_named (DatasetController.cr_name req)
       (DatasetController.cr_user req) (DatasetController.datasets w)
     = true) /\
    (DatasetController.code resp = 400 -> w' = w) /\
    (DatasetController.code resp <> 400 ->
     (DatasetController.code resp = 500 /\
      DatasetController.datasets w' = DatasetController.datasets w) \/
     (DatasetController.code resp = 201 /\
      exists d,
        DatasetController.datasets w' = DatasetController.datasets w ++ [d] /\
        DatasetController.ds_name d = DatasetController.cr_name req /\
        DatasetController.ds_creator d = DatasetController.cr_user req /\
        DatasetController.ds_isActive d = true)).
Proof.
  rewrite findOne_has_named.
  unfold DatasetController.createDataset, try_catch, bind,
    DatasetController.ensure_dir, DatasetController.create, ret.
  destruct (DatasetController.findOne_name_creator _ _ _) as [d|].
  - eexists. eexists. split; [reflexivity|]. simpl.
    split; [split; reflexivity|]. split; [reflexivity|].
    intros H. exfalso. apply H. reflexivity.
  - destruct (existsb _ (DatasetController.dirs w)); simpl;
      destruct (create_accepts _ req);
      eexists; eexists; (split; [reflexivity|]); simpl;
      (split; [split; discriminate|]); (split; [discriminate|]); intros _;
      first [ left; split; reflexivity
            | right; split; [reflexivity|]; eexists;
              split; [reflexivity|]; repeat split ].
Qed.

End DatasetFacts.

(** C6 as stated fails: after user 2 has created the dataset [sales] and
    deleted it, no active dataset of that name is left, and yet a second
    request of user 2 for the name is answered 400: the name of a
    soft-deleted dataset cannot be used again. *)
Lemma createDataset_rejects_name_of_deleted_dataset :
  ~ (forall DATASET_DIR create_accepts req w resp w',
       DatasetController.createDataset DATASET_DIR create_accepts req w
         = (Ok resp, w') ->
       (DatasetController.code resp = 400 <->
        DatasetController.has_active (DatasetController.cr_name req)
          (DatasetController.cr_user req) (DatasetController.datasets w)
        = true)).
Proof.
  intros H.
  specialize (H "/srv/app/datasets" (fun _ _ => true) Double.sales_request
                Double.sales_deleted _ _ eq_refl).
  destruct H as [H _]. specialize (H eq_refl). discriminate H.
Qed.

(* ================================================================== *)
(** ** Further properties of the adapter *)
(* ================================================================== *)

Ltac se_stable :=
  repeat first
    [ apply stable_ret | apply stable_throw | apply stable_lift
    | apply stable_this
    | apply stable_bind; [|intros ?]
    | apply stable_try; [|intros ?]
    | apply stable_update; intros ?; reflexivity ].

Lemma is_output_type_kind d :
  AdapterMore.is_output_type d
  = match AdapterMore.output_kind (Adapter.ld_type d) with
    | Some _ => true
    | None => false
    end.
Proof.
  unfold AdapterMore.is_output_type, AdapterMore.output_types,
    AdapterMore.output_kind, kind_of_key, all_kinds.
  cbn [existsb find kind_key].
  repeat match goal with
         | |- context [String.eqb (Adapter.ld_type d) ?b] =>
             let E := fresh "E" in
             destruct (String.eqb_spec (Adapter.ld_type d) b) as [E|E];
             [rewrite ?E; reflexivity|]
         end.
  reflexivity.
Qed.

Lemma output_kind_key t k : AdapterMore.output_kind t = Some k -> t = kind_key k.
Proof.
  unfold AdapterMore.output_kind.
  destruct (kind_of_key t) as [k'|] eqn:K; [|discriminate].
  apply kind_of_key_some in K.
  destruct k'; intros H; inversion H; subst; reflexivity.
Qed.

Section OutputLayerFacts.
Context {lib : TensorLib}.

Lemma add_output_step d i rt m :
  Adapter.model (Adapter.svc rt) = Some m ->
  match AdapterMore.add_output_layer d i rt with
  | (Ok _, rt1) =>
      ((AdapterMore.is_output_type d = true /\
        exists l, AdapterMore.output_of l d /\
                  Adapter.svc rt1
                    = Adapter.set_model
                        (Some (mkModel (layers m ++ [l]) (compiled m)))
                        (Adapter.svc rt) /\
                  Adapter.warnings rt1 = Adapter.warnings rt) \/
       (AdapterMore.is_output_type d = false /\
        Adapter.svc rt1 = Adapter.svc rt /\
        Adapter.warnings rt1
          = Adapter.warnings rt ++ [AdapterMore.output_warning d])) /\
      Adapter.files rt1 = Adapter.files rt
  | (Throw _, _) => ~ Adapter.accepts_layers lib
  end.
Proof.
  intros Hm. unfold AdapterMore.add_output_layer. rewrite is_output_type_kind.
  destruct (AdapterMore.output_kind (Adapter.ld_type d)) as [k|] eqn:K.
  - unfold bind, lift, layer_of_kind, construct.
    destruct (tf_layer_accepts _ _) eqn:Acc.
    + unfold Adapter.model_add, bind, Adapter.this, lift, Tf.add.
      rewrite Hm. destruct (tf_add_accepts m _) eqn:Add.
      * split; [|reflexivity]. left. split; [reflexivity|].
        eexists. split; [|split; reflexivity].
        exists k. simpl. split; [apply output_kind_key; exact K|].
        repeat split.
      * intros (_ & H & _). rewrite H in Add. discriminate.
    + intros (H & _). rewrite H in Acc. discriminate.
  - split; [|reflexivity]. right. split; [reflexivity|]. simpl. auto.
Qed.

Lemma forEach_output descs :
  forall i rt rt' m,
    Adapter.forEach_from AdapterMore.add_output_layer descs i rt
      = (Ok tt, rt') ->
    Adapter.model (Adapter.svc rt) = Some m ->
    exists new,
      Adapter.svc rt'
        = Adapter.set_model (Some (mkModel (layers m ++ new) (compiled m)))
                            (Adapter.svc rt) /\
      Forall2 AdapterMore.output_of new
              (filter AdapterMore.is_output_type descs) /\
      Adapter.warnings rt'
        = Adapter.warnings rt
          ++ map AdapterMore.output_warning
                 (filter (fun d => negb (AdapterMore.is_output_type d)) descs) /\
      Adapter.files rt' = Adapter.files rt.
Proof.
  induction descs as [|d descs IH]; intros i rt rt' m H Hm.
  - inversion H; subst. exists []. rewrite !app_nil_r.
    destruct rt' as [s f w]. destruct s. simpl in *. subst.
    destruct m. repeat split. constructor.
  - simpl in H. apply bind_ok in H. destruct H as ([] & rt1 & H1 & H2).
    pose proof (add_output_step d i rt Hm) as Step.
    rewrite H1 in Step. destruct Step as [Step Hfiles].
    destruct Step as [(Sup & l & Hb & Hs1 & Hw1) | (Sup & Hs1 & Hw1)].
    + assert (Hm1 : Adapter.model (Adapter.svc rt1)
                    = Some (mkModel (layers m ++ [l]) (compiled m))).
      { rewrite Hs1. reflexivity. }
      destruct (IH _ _ _ _ H2 Hm1) as (new & Hs' & Hf & Hw' & Hfl').
      exists (l :: new). simpl in Hs'. simpl. rewrite Sup. simpl.
      rewrite <- app_assoc in Hs'. rewrite Hs1 in Hs'.
      split; [exact Hs'|]. split; [constructor; assumption|].
      split; congruence.
    + assert (Hm1 : Adapter.model (Adapter.svc rt1) = Some m).
      { rewrite Hs1. exact Hm. }
      destruct (IH _ _ _ _ H2 Hm1) as (new & Hs' & Hf & Hw' & Hfl').
      exists new. simpl. rewrite Sup. simpl. rewrite Hs1 in Hs'.
      split; [exact Hs'|]. split; [exact Hf|].
      split; [|congruence].
      rewrite Hw', Hw1, <- app_assoc. reflexivity.
Qed.

Lemma forEach_output_returns descs :
  Adapter.accepts_layers lib ->
  forall i rt m,
    Adapter.model (Adapter.svc rt) = Some m ->
    exists rt',
      Adapter.forEach_from AdapterMore.add_output_layer descs i rt
      = (Ok tt, rt').
Proof.
  intros Acc. induction descs as [|d descs IH]; intros i rt m Hm.
  - exists rt. reflexivity.
  - simpl. unfold bind.
    pose proof (add_output_step d i rt Hm) as Step.
    destruct (AdapterMore.add_output_layer d i rt) as [[[]|e] rt1].
    + destruct Step as [[(_ & l & _ & Hs1 & _) | (_ & Hs1 & _)] _].
      * apply (IH (S i) rt1 (mkModel (layers m ++ [l]) (compiled m))).
        rewrite Hs1. reflexivity.
      * apply (IH (S i) rt1 m). rewrite Hs1. exact Hm.
    + contradiction.
Qed.

(** X1. On a live model, whenever [addOutputLayers] returns, the model has
    kept its layers, their [trainable] flags and its compilation as they
    were and has gained, after them and in order, one layer for each
    descriptor of type dense, conv2d, flatten or dropout, constructed from
    the configuration of the descriptor and trainable unless that
    configuration says otherwise; every other
    descriptor (the types lstm, gru, maxPooling2d and batchNormalization
    included) has only produced a warning; the transfer-learning state, the
    hyperparameters and the saved files are untouched. When the library
    accepts the layers, the method does return. *)
Theorem addOutputLayers_appends outputLayers rt m :
  Adapter.model (Adapter.svc rt) = Some m ->
  (forall b rt',
     AdapterMore.addOutputLayers outputLayers rt = (Ok b, rt') ->
     b = true /\
     exists new,
       Adapter.svc rt'
         = Adapter.set_model (Some (mkModel (layers m ++ new) (compiled m)))
                             (Adapter.svc rt) /\
       Forall2 AdapterMore.output_of new
               (filter AdapterMore.is_output_type outputLayers) /\
       Adapter.warnings rt'
         = Adapter.warnings rt
           ++ map AdapterMore.output_warning
                  (filter (fun d => negb (AdapterMore.is_output_type d))
                          outputLayers) /\
       Adapter.files rt' = Adapter.files rt) /\
  (Adapter.accepts_layers lib ->
   exists rt', AdapterMore.addOutputLayers outputLayers rt = (Ok true, rt')).
Proof.
  intros Hm. split.
  - intros b rt' H. unfold AdapterMore.addOutputLayers in H.
    rewrite try_rethrow in H. unfold bind at 1 in H.
    unfold Adapter.this at 1 in H. rewrite Hm in H.
    apply bind_ok in H. destruct H as ([] & rt1 & H1 & H2).
    inversion H2; subst; clear H2. split; [reflexivity|].
    apply (forEach_output _ _ _ H1 Hm).
  - intros Acc. unfold AdapterMore.addOutputLayers.
    rewrite try_rethrow. unfold bind at 1. unfold Adapter.this at 1.
    rewrite Hm. unfold bind, Adapter.forEach.
    destruct (forEach_output_returns outputLayers Acc 0 rt Hm) as (rt1 & Hrun).
    rewrite Hrun. exists rt1. reflexivity.
Qed.

End OutputLayerFacts.

(** A new head on the live default model: a dense layer, a recurrent layer
    that is skipped, a dropout layer. *)
Lemma addOutputLayers_appends_witness :
  exists rt',
    @AdapterMore.addOutputLayers Double.lib
       [Adapter.mkLayerDesc "dense" [("units", VNum 4%Q)];
        Adapter.mkLayerDesc "lstm" [("units", VNum 4%Q)];
        Adapter.mkLayerDesc "dropout" []] Double.live = (Ok true, rt') /\
    option_map (fun m => map className (layers m))
               (Adapter.model (Adapter.svc rt'))
      = Some ["Dense"; "Dense"; "Dense"; "Dense"; "Dropout"] /\
    Adapter.warnings rt' = ["Unsupported layer type for output: lstm"].
Proof.
  destruct (@addOutputLayers_appends Double.lib
              [Adapter.mkLayerDesc "dense" [("units", VNum 4%Q)];
               Adapter.mkLayerDesc "lstm" [("units", VNum 4%Q)];
               Adapter.mkLayerDesc "dropout" []] Double.live _ eq_refl)
    as [_ Hret].
  destruct Hret as (rt' & Hrun).
  - repeat split.
  - exists rt'. split; [exact Hrun|].
    vm_compute in Hrun. inversion Hrun; subst. split; reflexivity.
Defined.

Section GuardFacts.
Context {lib : TensorLib}.

(** X2. On a service that holds no model, [predict], [getModelSummary],
    [addOutputLayers] and [updateHyperparameters] throw the error "No model
    available", [saveModel] returns [false], and [trainModel], which has no
    such guard, throws a TypeError instead; none of them changes the
    runtime. *)
Theorem methods_without_live_model rt :
  Adapter.model (Adapter.svc rt) = None ->
  let err := PlainError "No model available. Create or load a model first." in
  (forall input, Adapter.predict input rt = (Throw err, rt)) /\
  Adapter.getModelSummary rt = (Throw err, rt) /\
  (forall ls, AdapterMore.addOutputLayers ls rt = (Throw err, rt)) /\
  (forall hp, AdapterMore.updateHyperparameters hp rt = (Throw err, rt)) /\
  (forall dir join path md now,
     Adapter.saveModel dir join path md now rt = (Ok false, rt)) /\
  (forall data labels epochs batchSize split,
     exists msg,
       Adapter.trainModel data labels epochs batchSize split rt
       = (Throw (TypeError msg), rt)).
Proof.
  intros Hm err. repeat split; intros.
  - unfold Adapter.predict. rewrite try_rethrow.
    unfold bind, Adapter.this. rewrite Hm. reflexivity.
  - unfold Adapter.getModelSummary. rewrite try_rethrow.
    unfold bind, Adapter.this. rewrite Hm. reflexivity.
  - unfold AdapterMore.addOutputLayers. rewrite try_rethrow.
    unfold bind, Adapter.this. rewrite Hm. reflexivity.
  - unfold AdapterMore.updateHyperparameters. rewrite try_rethrow.
    unfold bind, Adapter.this. rewrite Hm. reflexivity.
  - unfold Adapter.saveModel, try_catch, bind, Adapter.this.
    rewrite Hm. reflexivity.
  - unfold Adapter.trainModel. rewrite try_rethrow.
    unfold bind, Adapter.this. rewrite Hm. eexists. reflexivity.
Qed.

(** X7. [predict] and [getModelSummary] only read: whatever they return or
    throw, the runtime (the service object, the saved files, the warnings)
    is afterwards what it was before. *)
Theorem predict_and_summary_only_read rt :
  (forall input r rt', Adapter.predict input rt = (r, rt') -> rt' = rt) /\
  (forall r rt', Adapter.getModelSummary rt = (r, rt') -> rt' = rt).
Proof.
  split.
  - intros input r rt' H.
    apply (fun K => K rt r rt' H :
             (fun x : Adapter.Runtime => x) rt' = rt).
    unfold Adapter.predict. se_stable.
    destruct (Adapter.model a); unfold Adapter.no_model; se_stable.
  - intros r rt' H.
    apply (fun K => K rt r rt' H :
             (fun x : Adapter.Runtime => x) rt' = rt).
    unfold Adapter.getModelSummary. se_stable.
    destruct (Adapter.model a); unfold Adapter.no_model; se_stable.
Qed.

(** X6. [loadModel] and [saveModel] never throw: whatever the library does
    and whatever the state and the arguments, each returns a boolean. *)
Theorem loadModel_and_saveModel_never_throw rt :
  (forall modelPath modelConfig,
     exists b, fst (Adapter.loadModel modelPath modelConfig rt) = Ok b) /\
  (forall dir join path md now,
     exists b, fst (Adapter.saveModel dir join path md now rt) = Ok b).
Proof.
  split; intros.
  - unfold Adapter.loadModel, try_catch.
    destruct ((_ ;; _) rt) as [[b|e] rt1]; eexists; reflexivity.
  - unfold Adapter.saveModel, try_catch.
    destruct ((_ <- _ ;; _) rt) as [[b|e] rt1]; eexists; reflexivity.
Qed.

End GuardFacts.

Lemma methods_without_live_model_witness :
  @Adapter.getModelSummary Double.lib Adapter.boot
  = (Throw (PlainError "No model available. Create or load a model first."),
     Adapter.boot).
Proof.
  exact (proj1 (proj2 (@methods_without_live_model Double.lib Adapter.boot
                         eq_refl))).
Defined.

(** *** Hyperparameters *)

Lemma pick_assoc {A} (a b c : option A) :
  AdapterMore.pick (AdapterMore.pick a b) c
  = AdapterMore.pick a (AdapterMore.pick b c).
Proof. destruct c, b; reflexivity. Qed.

Lemma merge_hp_assoc a b c :
  AdapterMore.merge_hp (AdapterMore.merge_hp a b) c
  = AdapterMore.merge_hp a (AdapterMore.merge_hp b c).
Proof.
  unfold AdapterMore.merge_hp. simpl. rewrite !pick_assoc. reflexivity.
Qed.

Lemma merge_hp_idem a b :
  AdapterMore.merge_hp (AdapterMore.merge_hp a b) b = AdapterMore.merge_hp a b.
Proof.
  unfold AdapterMore.merge_hp. simpl.
  destruct b as [o l m r]. simpl.
  destruct o, l, m, r; reflexivity.
Qed.

Section HyperparameterFacts.
Context {lib : TensorLib}.

Lemma updateHyperparameters_run patch rt m :
  Adapter.model (Adapter.svc rt) = Some m ->
  let new := AdapterMore.merge_hp
               (Adapter.or_default (Adapter.hyperparameters (Adapter.svc rt))
                                   Adapter.no_hp) patch in
  let stored := Adapter.set_hyperparameters (Some new) (Adapter.svc rt) in
  AdapterMore.updateHyperparameters patch rt
  = if tf_compile_accepts m (AdapterMore.compile_args_of new)
    then (Ok true,
          Adapter.mkRuntime
            (Adapter.set_model
               (Some (mkModel (layers m)
                              (Some (AdapterMore.compile_args_of new))))
               stored)
            (Adapter.files rt) (Adapter.warnings rt))
    else (Throw (LibraryError "model cannot be compiled"),
          Adapter.mkRuntime
            (Adapter.set_model
               (Some (mkModel (layers m)
                        (if tf_compile_sets_optimizer m
                              (AdapterMore.compile_args_of new)
                         then Some (AdapterMore.compile_args_of new)
                         else None)))
               stored)
            (Adapter.files rt) (Adapter.warnings rt)).
Proof.
  intros Hm new stored.
  unfold AdapterMore.updateHyperparameters. rewrite try_rethrow.
  unfold bind at 1. unfold Adapter.this at 1. rewrite Hm.
  unfold bind at 1. unfold Adapter.update at 1.
  unfold bind at 1. unfold Adapter.this at 1.
  cbn [Adapter.svc Adapter.hyperparameters Adapter.set_hyperparameters
       Adapter.or_default].
  fold new.
  unfold bind, Adapter.model_compile, bind, Adapter.this, lift, Tf.compile,
    Adapter.update, ret.
  cbn [Adapter.svc Adapter.model Adapter.set_hyperparameters].
  rewrite Hm.
  destruct (tf_compile_accepts m (AdapterMore.compile_args_of new));
    reflexivity.
Qed.


(** X4. Two calls of [updateHyperparameters] store what one call with the
    merged patch stores (the later patch winning), whether the
    recompilations succeed or not; in particular the same patch applied
    twice stores what it stores applied once. *)
Theorem updateHyperparameters_composes p q rt m :
  Adapter.model (Adapter.svc rt) = Some m ->
  let after x r := snd (AdapterMore.updateHyperparameters x r) in
  Adapter.hyperparameters (Adapter.svc (after q (after p rt)))
  = Adapter.hyperparameters
      (Adapter.svc (after (AdapterMore.merge_hp p q) rt)) /\
  Adapter.hyperparameters (Adapter.svc (after p (after p rt)))
  = Adapter.hyperparameters (Adapter.svc (after p rt)).
Proof.
  intros Hm after.
  assert (Step : forall x r mm,
             Adapter.model (Adapter.svc r) = Some mm ->
             Adapter.hyperparameters (Adapter.svc (after x r))
             = Some (AdapterMore.merge_hp
                       (Adapter.or_default
                          (Adapter.hyperparameters (Adapter.svc r))
                          Adapter.no_hp) x) /\
             exists mm', Adapter.model (Adapter.svc (after x r)) = Some mm').
  { intros x r mm Hmm. unfold after.
    rewrite (updateHyperparameters_run x r Hmm).
    destruct (tf_compile_accepts mm _); simpl; split;
      try reflexivity; eexists; try reflexivity; exact Hmm. }
  destruct (Step p rt m Hm) as (Hp & m1 & Hm1).
  split.
  - destruct (Step q _ _ Hm1) as (Hq & _).
    destruct (Step (AdapterMore.merge_hp p q) rt m Hm) as (Hpq & _).
    rewrite Hq, Hpq, Hp. simpl. rewrite merge_hp_assoc. reflexivity.
  - destruct (Step p _ _ Hm1) as (Hpp & _).
    rewrite Hpp, Hp. simpl. rewrite merge_hp_idem. reflexivity.
Qed.

End HyperparameterFacts.


Lemma updateHyperparameters_composes_witness :
  Adapter.hyperparameters
    (Adapter.svc
       (snd (@AdapterMore.updateHyperparameters Double.lib
               (Adapter.mkHyper None (Some "meanSquaredError") None None)
               (snd (@AdapterMore.updateHyperparameters Double.lib
                       (Adapter.mkHyper (Some "sgd") None None None)
                       Double.live)))))
  = Some (Adapter.mkHyper (Some "sgd") (Some "meanSquaredError") None None).
Proof.
  rewrite (proj1 (@updateHyperparameters_composes Double.lib
                    (Adapter.mkHyper (Some "sgd") None None None)
                    (Adapter.mkHyper None (Some "meanSquaredError") None None)
                    Double.live _ eq_refl)).
  reflexivity.
Defined.

(** *** Loading: what a failed or a path-based load leaves behind *)

Section LoadFacts.
Context {lib : TensorLib}.

(** X5. With a model path, [loadModel] ignores the configuration. When the
    library fails to load the path, it returns [false] and the model that
    was live stays live, with the transfer-learning state reset; when the
    library loads a model, it returns [true], the loaded model is live, and
    the architecture descriptor and the hyperparameters that the service
    holds from an earlier model are kept as they were. *)
Theorem loadModel_from_path modelPath modelConfig rt r rt' :
  Adapter.truthy_str modelPath = true ->
  Adapter.loadModel modelPath modelConfig rt = (r, rt') ->
  Adapter.isTransferLearning (Adapter.svc rt') = false /\
  Adapter.frozenLayers (Adapter.svc rt') = [] /\
  Adapter.modelArchitecture (Adapter.svc rt')
    = Adapter.modelArchitecture (Adapter.svc rt) /\
  Adapter.hyperparameters (Adapter.svc rt')
    = Adapter.hyperparameters (Adapter.svc rt) /\
  match tf_loadLayersModel (Adapter.or_default modelPath EmptyString) with
  | Ok m => r = Ok true /\ Adapter.model (Adapter.svc rt') = Some m
  | Throw _ =>
      r = Ok false /\
      Adapter.model (Adapter.svc rt') = Adapter.model (Adapter.svc rt)
  end.
Proof.
  intros Hp H. rewrite loadModel_after_reset in H.
  unfold Adapter.load_by_mode, Adapter.load_mode in H. rewrite Hp in H.
  unfold try_catch, bind, lift, Adapter.update, ret in H.
  destruct (tf_loadLayersModel (Adapter.or_default modelPath EmptyString));
    inversion H; subst; simpl; repeat split.
Qed.

Lemma add_described_throw shape d i rt e rt1 m :
  Adapter.model (Adapter.svc rt) = Some m ->
  Adapter.add_described_layer shape d i rt = (Throw e, rt1) ->
  rt1 = rt /\
  exists kind,
    kind_of_key (Adapter.ld_type d) = Some kind /\
    let cfg := Adapter.effective_config shape d i in
    (tf_layer_accepts (kind_className kind) cfg = false \/
     tf_add_accepts m (mkLayer (kind_className kind) cfg (trainable_of cfg))
     = false).
Proof.
  intros Hm. unfold Adapter.add_described_layer.
  destruct (kind_of_key (Adapter.ld_type d)) as [k|].
  - unfold bind, lift, layer_of_kind, construct.
    destruct (tf_layer_accepts _ _) eqn:Acc.
    + unfold Adapter.model_add, bind, Adapter.this, lift, Tf.add,
        Adapter.update, throw.
      rewrite Hm.
      destruct (tf_add_accepts m _) eqn:Add; intros H; inversion H.
      split; [reflexivity|]. exists k. split; [reflexivity|].
      right. exact Add.
    + intros H; inversion H. split; [reflexivity|].
      exists k. split; [reflexivity|]. left. exact Acc.
  - unfold Adapter.warn. intros H; inversion H.
Qed.

Lemma forEach_described_throw shape descs :
  forall i rt e rt' m,
    Adapter.forEach_from (Adapter.add_described_layer shape) descs i rt
      = (Throw e, rt') ->
    Adapter.model (Adapter.svc rt) = Some m ->
    exists new k d kind,
      Adapter.model (Adapter.svc rt')
        = Some (mkModel (layers m ++ new) (compiled m)) /\
      Forall2 Adapter.built_from new
              (filter Adapter.is_supported (firstn k descs)) /\
      nth_error descs k = Some d /\
      kind_of_key (Adapter.ld_type d) = Some kind /\
      let cfg := Adapter.effective_config shape d (i + k) in
      (tf_layer_accepts (kind_className kind) cfg = false \/
       tf_add_accepts (mkModel (layers m ++ new) (compiled m))
                      (mkLayer (kind_className kind) cfg (trainable_of cfg))
       = false).
Proof.
  induction descs as [|d descs IH]; intros i rt e rt' m H Hm.
  - inversion H.
  - simpl in H. unfold bind in H.
    pose proof (add_described_step shape d i rt Hm) as Step.
    destruct (Adapter.add_described_layer shape d i rt) as [[[]|e1] rt1] eqn:E.
    + destruct Step as [(Sup & l & Hb & Hm1 & _) | (Sup & Hm1 & _)].
      * destruct (IH _ _ _ _ _ H Hm1)
          as (new & k & d' & kind & Hm' & Hf & Hn & Hk & Hr).
        exists (l :: new), (S k), d', kind.
        cbn [layers compiled] in Hm', Hr. rewrite <- app_assoc in Hm', Hr.
        split; [exact Hm'|]. split.
        { simpl. rewrite Sup. constructor; assumption. }
        split; [exact Hn|]. split; [exact Hk|].
        replace (i + S k) with (S i + k) by lia. exact Hr.
      * destruct (IH _ _ _ _ _ H Hm1)
          as (new & k & d' & kind & Hm' & Hf & Hn & Hk & Hr).
        exists new, (S k), d', kind.
        split; [exact Hm'|]. split.
        { simpl. rewrite Sup. exact Hf. }
        split; [exact Hn|]. split; [exact Hk|].
        replace (i + S k) with (S i + k) by lia. exact Hr.
    + inversion H; subst.
      destruct (add_described_throw _ _ _ _ Hm E) as (-> & kind & Hk & Hr).
      exists [], 0, d, kind. rewrite app_nil_r, Nat.add_0_r.
      assert (Em : mkModel (layers m) (compiled m) = m) by (destruct m; reflexivity).
      rewrite Em.
      split; [exact Hm|]. split; [constructor|].
      split; [reflexivity|]. split; [exact Hk | exact Hr].
Qed.

(** X10. When [loadModel] builds from an architecture descriptor and reports
    failure, the model that was live before is gone: the service holds the
    sequential model under construction, with the layers of the supported
    descriptors that precede the point of failure. That point is either a
    descriptor of a supported type whose layer the library refused to
    construct or to add to those layers (the model is then not compiled), or
    the end of the list, the library having refused the compilation. *)
Theorem loadModel_from_architecture_failure
        modelPath modelConfig arch descs rt rt' :
  Adapter.truthy_str modelPath = false ->
  Adapter.mc_architecture modelConfig = Some arch ->
  Adapter.arch_layers arch = Some descs ->
  Adapter.loadModel modelPath modelConfig rt = (Ok false, rt') ->
  exists m k,
    Adapter.model (Adapter.svc rt') = Some m /\
    Forall2 Adapter.built_from (layers m)
            (filter Adapter.is_supported (firstn k descs)) /\
    ((exists d kind,
        nth_error descs k = Some d /\
        kind_of_key (Adapter.ld_type d) = Some kind /\
        compiled m = None /\
        let cfg := Adapter.effective_config (Adapter.arch_inputShape arch)
                                            d k in
        (tf_layer_accepts (kind_className kind) cfg = false \/
         tf_add_accepts m (mkLayer (kind_className kind) cfg
                                   (trainable_of cfg)) = false)) \/
     (k = List.length descs /\
      let hp := Adapter.or_default (Adapter.mc_hyperparameters modelConfig)
                                   Adapter.no_hp in
      let args :=
        mkCompileArgs (str_or (Adapter.hp_optimizer hp) "adam")
          (str_or (Adapter.hp_lossFunction hp) "categoricalCrossentropy")
          (Adapter.or_default (Adapter.hp_metrics hp) ["accuracy"]) None in
      tf_compile_accepts (mkModel (layers m) None) args = false /\
      compiled m
      = (if tf_compile_sets_optimizer (mkModel (layers m) None) args
         then Some args else None))).
Proof.
  intros Hp Ha Hl H.
  assert (Hmode : Adapter.load_mode modelPath modelConfig
                  = Adapter.FromArchitecture).
  { unfold Adapter.load_mode, Adapter.has_layers. rewrite Hp, Ha, Hl.
    reflexivity. }
  rewrite loadModel_after_reset in H.
  unfold Adapter.load_by_mode in H. rewrite Hmode in H.
  unfold try_catch in H.
  unfold bind at 1 in H. unfold bind at 1 in H.
  unfold Adapter.update at 1 in H.
  unfold bind at 1 in H. unfold Adapter.update at 1 in H.
  unfold bind at 1 in H.
  unfold Adapter.createModelFromArchitecture in H.
  rewrite try_rethrow in H.
  unfold bind at 1 in H. unfold Adapter.this at 1 in H.
  cbn [Adapter.svc Adapter.modelArchitecture Adapter.set_hyperparameters
       Adapter.set_modelArchitecture Adapter.hyperparameters] in H.
  rewrite Ha in H.
  unfold bind at 1 in H. unfold Adapter.update at 1 in H.
  rewrite Hl in H. unfold bind at 1 in H. unfold Adapter.forEach in H.
  match type of H with
  | context [Adapter.forEach_from ?g ?ls 0 ?r] =>
      set (rt0 := r) in H;
      destruct (Adapter.forEach_from g ls 0 rt0) as [[[]|e] rt1] eqn:Run
  end.
  - destruct (forEach_described _ _ _ _ Run (m := sequential) eq_refl)
      as (new & Hm & Hf & _).
    unfold bind, Adapter.model_compile, bind, Adapter.this, lift, Tf.compile,
      Adapter.update, ret in H.
    rewrite Hm in H. cbn [layers compiled sequential app] in H.
    destruct (tf_compile_accepts _ _) eqn:Acc; [discriminate|].
    inversion H; subst. cbn [Adapter.svc Adapter.model Adapter.set_model].
    eexists. exists (List.length descs).
    split; [reflexivity|]. rewrite firstn_all. cbn [layers compiled].
    split; [exact Hf|]. right.
    split; [reflexivity|]. split; [exact Acc | reflexivity].
  - destruct (forEach_described_throw _ _ _ _ Run (m := sequential) eq_refl)
      as (new & k & d & kind & Hm & Hf & Hn & Hk & Hr).
    unfold ret in H. inversion H; subst.
    exists (mkModel new None), k.
    split; [exact Hm|]. split; [exact Hf|]. left.
    exists d, kind. split; [exact Hn|]. split; [exact Hk|].
    split; [reflexivity|]. exact Hr.
Qed.

End LoadFacts.

(** A library that cannot load any path, on the live default model. *)
Lemma loadModel_from_path_witness :
  let failing : TensorLib :=
    {| tf_layers_other := fun _ => None;
       tf_layer_accepts := fun _ _ => true;
       tf_add_accepts := fun _ _ => true;
       tf_compile_accepts := fun _ _ => true;
       tf_compile_sets_optimizer := fun _ _ => false;
       tf_loadLayersModel := fun _ => Throw (LibraryError "not found");
       tf_tensor2d_accepts := fun _ => true;
       tf_predict := fun _ _ => Ok [];
       tf_fit := fun m _ _ _ => Ok (Double.one_epoch, m);
       tf_save_accepts := fun _ _ => true;
       tf_countParams := fun _ => 0 |} in
  Adapter.model
    (Adapter.svc
       (snd (@Adapter.loadModel failing (Some "file://gone/model.json")
               Adapter.no_config Double.live)))
  = Adapter.model (Adapter.svc Double.live).
Proof.
  intros failing.
  destruct (@loadModel_from_path failing (Some "file://gone/model.json")
              Adapter.no_config Double.live _ _ eq_refl eq_refl)
    as (_ & _ & _ & _ & H).
  exact (proj2 H).
Defined.

(** A library that rejects dropout layers: the descriptor list dense,
    dropout, dense fails at its second entry. *)
Lemma loadModel_from_architecture_failure_witness :
  let strict : TensorLib :=
    {| tf_layers_other := fun _ => None;
       tf_layer_accepts := fun c _ => negb (String.eqb c "Dropout");
       tf_add_accepts := fun _ _ => true;
       tf_compile_accepts := fun _ _ => true;
       tf_compile_sets_optimizer := fun _ _ => false;
       tf_loadLayersModel := fun _ => Ok Double.mlp_base;
       tf_tensor2d_accepts := fun _ => true;
       tf_predict := fun _ _ => Ok [];
       tf_fit := fun m _ _ _ => Ok (Double.one_epoch, m);
       tf_save_accepts := fun _ _ => true;
       tf_countParams := fun _ => 0 |} in
  let config :=
    Adapter.mkModelConfig
      (Some (Adapter.mkArchitecture
               (Some [Adapter.mkLayerDesc "dense" [("units", VNum 8%Q)];
                      Adapter.mkLayerDesc "dropout" [];
                      Adapter.mkLayerDesc "dense" [("units", VNum 1%Q)]])
               (VArr [VNum 4%Q])))
      None None VUndefined VUndefined None in
  exists m,
    Adapter.model
      (Adapter.svc (snd (@Adapter.loadModel strict None config Double.live)))
    = Some m /\ map className (layers m) = ["Dense"].
Proof.
  intros strict config.
  destruct (@loadModel_from_architecture_failure strict None config _ _
              Double.live _ eq_refl eq_refl eq_refl eq_refl)
    as (m & k & Hm & _).
  exists m. split; [exact Hm|].
  vm_compute in Hm. injection Hm as <-. reflexivity.
Defined.

(** *** The summary *)

Section SummaryFacts.
Context {lib : TensorLib}.

Lemma fold_trainable ls :
  forall acc,
    fold_left
      (fun sum l => if Adapter.sum_trainable l then sum + Adapter.sum_params l
                    else sum)
      (map (fun l => Adapter.mkLayerSummary (className l) (trainable l)
                                            (tf_countParams l)) ls) acc
    = acc + list_sum (map tf_countParams (filter trainable ls)).
Proof.
  induction ls as [|l ls IH]; intros acc; simpl.
  - lia.
  - rewrite IH. destruct (trainable l); simpl; lia.
Qed.

Lemma list_sum_filter_le (f : Layer -> nat) (p : Layer -> bool) ls :
  list_sum (map f (filter p ls)) <= list_sum (map f ls).
Proof.
  induction ls as [|l ls IH]; simpl; [lia|].
  destruct (p l); simpl; lia.
Qed.

Lemma getModelSummary_run rt m :
  Adapter.model (Adapter.svc rt) = Some m ->
  exists s,
    Adapter.getModelSummary rt = (Ok s, rt) /\
    map Adapter.sum_type (Adapter.sum_layers s) = map className (layers m) /\
    map Adapter.sum_trainable (Adapter.sum_layers s)
      = map trainable (layers m) /\
    Adapter.trainableParams s
      = list_sum (map tf_countParams (filter trainable (layers m))) /\
    Adapter.trainableParams s <= Adapter.totalParams s /\
    Adapter.trainableParams s + Adapter.nonTrainableParams s
      = Adapter.totalParams s /\
    Adapter.sum_isTransferLearning s
      = Adapter.isTransferLearning (Adapter.svc rt) /\
    Adapter.sum_frozenLayers s = Adapter.frozenLayers (Adapter.svc rt).
Proof.
  intros Hm. unfold Adapter.getModelSummary. 
  eexists. rewrite try_rethrow. unfold bind, Adapter.this, ret. rewrite Hm.
  split; [reflexivity|]. cbn [Adapter.sum_layers Adapter.trainableParams
    Adapter.totalParams Adapter.nonTrainableParams
    Adapter.sum_isTransferLearning Adapter.sum_frozenLayers].
  rewrite fold_trainable, !map_map. simpl.
  pose proof (list_sum_filter_le tf_countParams trainable (layers m)).
  repeat split; try reflexivity; lia.
Qed.


Lemma filter_uniform_flags (v : bool) (ls : list Layer) :
  Forall (fun b => b = v) (map trainable ls) ->
  filter trainable ls = if v then ls else [].
Proof.
  induction ls as [|l ls IH]; simpl; intros H.
  - destruct v; reflexivity.
  - apply Forall_cons_iff in H. destruct H as [Hl Hrest]. rewrite Hl.
    specialize (IH Hrest). destruct v; [f_equal|]; exact IH.
Qed.


End SummaryFacts.



(* ================================================================== *)
(** ** Further properties of the AI controller *)
(* ================================================================== *)

Lemma nat_eqb_toString a b :
  String.eqb (nat_toString a) (nat_toString b) = Nat.eqb a b.
Proof.
  destruct (Nat.eqb_spec a b) as [->|Hne].
  - apply String.eqb_refl.
  - apply String.eqb_neq. intros H. apply Hne.
    apply nat_toString_inj. exact H.
Qed.

Lemma not_owner_of_owned model owner user :
  AiController.doc_userId model = Some owner ->
  AiControllerMore.not_owner model user = Ok (negb (Nat.eqb owner user)).
Proof.
  intros Ho. unfold AiControllerMore.not_owner, AiController.owner_toString.
  rewrite Ho, nat_eqb_toString. reflexivity.
Qed.

Lemma lookup_id id docs d :
  AiController.lookup id docs = Some d -> AiController.doc_id d = id.
Proof.
  unfold AiController.lookup. intros H. apply find_some in H.
  destruct H as [_ H]. apply Nat.eqb_eq. exact H.
Qed.

Lemma saveModel_relative_path_returns_false_any
      {lib : TensorLib} MODELS_DIR node_path_join path metadata now rt :
  Adapter.is_relative path = true ->
  Adapter.saveModel MODELS_DIR node_path_join path metadata now rt
  = (Ok false, rt).
Proof.
  unfold Adapter.saveModel, try_catch, bind, Adapter.this,
    Adapter.no_model, lift, ret, throw, Adapter.call_join.
  intros H.
  destruct (Adapter.model (Adapter.svc rt)) as [m|]; [|reflexivity].
  rewrite H. reflexivity.
Qed.

Section SaveHandlerFacts.
Context {lib : TensorLib}.
Variable MODELS_DIR : string.
Variable node_path_join : string -> string -> string.

Local Notation "'saveModel'" :=
  (AiControllerMore.saveModel MODELS_DIR node_path_join).

(** X11. [POST /ai/save] on an existing record. With a [savePath] that
    is not empty and begins with none of [file://], [http://], [https://]
    the handler answers 500 and changes nothing: no file, no status, no path on the record. With
    no [savePath] the default path [file://./models/model_<id>] is handed to
    the library as it is; when a model is live and the library accepts the
    save, the handler answers 200, the model and its metadata are written
    under that path, and the record gets the status [saved] and that path. *)
Theorem save_request_by_path req now s modelId aiModel :
  AiControllerMore.sv_modelId req = Some modelId ->
  AiController.lookup modelId
    (AiController.aimodels (AiControllerMore.world s)) = Some aiModel ->
  (forall p,
     AiControllerMore.sv_savePath req = Some p ->
     p <> EmptyString ->
     Adapter.is_relative p = true ->
     saveModel req now s
     = (Ok (AiController.fail 500 "Failed to save model"), s)) /\
  (forall m,
     AiControllerMore.sv_savePath req = None ->
     Adapter.model
       (Adapter.svc (AiController.runtime (AiControllerMore.world s)))
       = Some m ->
     tf_save_accepts m (AiControllerMore.default_save_path modelId) = true ->
     exists resp s' d md,
       saveModel req now s = (Ok resp, s') /\
       AiController.code resp = 200 /\
       AiControllerMore.modelPath_of modelId s'
         = Some (AiControllerMore.default_save_path modelId) /\
       AiController.lookup modelId
         (AiController.aimodels (AiControllerMore.world s')) = Some d /\
       AiController.doc_status d = "saved" /\
       Adapter.files (AiController.runtime (AiControllerMore.world s'))
         = Adapter.files (AiController.runtime (AiControllerMore.world s))
           ++ [(AiControllerMore.default_save_path modelId,
                Adapter.mkArtifact m true md)]).
Proof.
  intros Hid Hl. pose proof (lookup_id _ _ Hl) as Hdoc. split.
  - intros p Hp Hnonempty Hrel.
    assert (Hne : str_or (Some p) (AiControllerMore.default_save_path modelId)
                  = p).
    { destruct p; [contradiction | reflexivity]. }
    unfold AiControllerMore.saveModel, try_catch, bind,
      AiControllerMore.in_world, AiController.findById, AiController.adapter,
      ret.
    rewrite Hid. cbn [fst snd]. rewrite Hl, Hp, Hne.
    rewrite (saveModel_relative_path_returns_false_any MODELS_DIR
               node_path_join p [] now _ Hrel).
    destruct s as [w paths]. destruct w. reflexivity.
  - intros m Hp Hm Hacc.
    assert (Hpre : Adapter.is_relative
                     (AiControllerMore.default_save_path modelId) = false)
      by reflexivity.
    destruct (saveModel_prefixed_path MODELS_DIR node_path_join
                (AiControllerMore.default_save_path modelId) [] now
                (AiController.runtime (AiControllerMore.world s)) Hpre Hm Hacc)
      as (md & Hsave & _).
    unfold AiControllerMore.saveModel, try_catch, bind,
      AiControllerMore.in_world, AiController.findById, AiController.adapter,
      AiControllerMore.set_modelPath, AiController.save, ret.
    rewrite Hid. cbn [fst snd]. rewrite Hl, Hp.
    unfold str_or. cbn [AiControllerMore.world]. rewrite Hsave.
    cbn [AiControllerMore.world AiControllerMore.modelPaths
         AiController.runtime AiController.aimodels AiController.next_id
         AiController.clock].
    eexists. eexists. exists (AiController.with_status "saved" aiModel), md.
    split; [reflexivity|]. split; [reflexivity|].
    split.
    { unfold AiControllerMore.modelPath_of. simpl.
      rewrite Hdoc, Nat.eqb_refl. reflexivity. }
    split.
    { cbn [AiControllerMore.world AiController.aimodels].
      rewrite <- Hdoc.
      change (AiController.doc_id aiModel)
        with (AiController.doc_id (AiController.with_status "saved" aiModel))
        at 1.
      apply lookup_upsert. }
    split; reflexivity.
Qed.

End SaveHandlerFacts.

(** A relative [savePath] for the record of the restarted process. *)
Lemma save_request_by_path_witness :
  let s := AiControllerMore.mkStore Double.restarted [] in
  @AiControllerMore.saveModel Double.lib "/srv/app/models"
     (fun a b => (a ++ "/" ++ b)%string)
     (AiControllerMore.mkSaveReq (Some 0) (Some "my_model"))
     "2024-01-01T00:00:00Z" s
  = (Ok (AiController.fail 500 "Failed to save model"), s).
Proof.
  intros s.
  apply (proj1 (@save_request_by_path Double.lib "/srv/app/models"
                  (fun a b => (a ++ "/" ++ b)%string)
                  (AiControllerMore.mkSaveReq (Some 0) (Some "my_model"))
                  "2024-01-01T00:00:00Z" s 0 Double.default_doc
                  eq_refl eq_refl) "my_model" eq_refl).
  - discriminate.
  - reflexivity.
Defined.

Lemma loadModel_returns_bool {lib : TensorLib} modelPath modelConfig rt :
  exists b rt', Adapter.loadModel modelPath modelConfig rt = (Ok b, rt').
Proof.
  unfold Adapter.loadModel, try_catch.
  destruct ((_ ;; _) rt) as [[b|e] rt1]; eexists; eexists; reflexivity.
Qed.

Section OwnerGateFacts.
Context {lib : TensorLib}.
Variable schema_updateArchitecture :
  AiController.AIModelDoc -> Val -> Val -> Val ->
  AiController.Handler AiController.AIModelDoc.
Variable schema_updateHyperparameters :
  AiController.AIModelDoc -> Val ->
  AiController.Handler AiController.AIModelDoc.
Variable schema_addVisualization :
  AiController.AIModelDoc -> Val -> Val -> AiController.Handler Val.
Variable schema_createVersion :
  AiController.AIModelDoc -> string -> Val -> Val ->
  AiController.Handler AiController.AIModelDoc.
Variable currentVersion : AiController.AIModelDoc -> nat.


(** X13. Visibility and cloning together. For a private model with an
    owner and a requester who is another user: the requester's clone request
    is answered 403 and so is the requester's attempt to make the model
    public; once the owner has made the model public, the same clone request
    is answered 200 and produces a record whose [baseModel] is the model;
    once the owner has made it private again, the clone request is answered
    403 again. *)
Theorem clone_follows_visibility w modelId model owner other name description
        freeze :
  AiController.lookup modelId (AiController.aimodels w) = Some model ->
  AiController.doc_userId model = Some owner ->
  AiController.doc_isPublic model = false ->
  owner <> other ->
  let cloneReq := AiController.mkCloneReq other (Some modelId) name
                                          description freeze in
  let set_by u b := AiControllerMore.mkVisibilityReq u (Some modelId) (Some b) in
  let code_of (r : Result AiController.Response * AiController.World) :=
    match fst r with Ok resp => AiController.code resp | Throw _ => 0 end in
  let w_public :=
    snd (AiControllerMore.toggleModelVisibility (set_by owner true) w) in
  let w_private :=
    snd (AiControllerMore.toggleModelVisibility (set_by owner false)
           w_public) in
  code_of (AiController.cloneModelForTransfer cloneReq w) = 403 /\
  AiControllerMore.toggleModelVisibility (set_by other true) w
    = (Ok (AiControllerMore.forbidden
             "You do not have permission to change this model's visibility"),
       w) /\
  code_of (AiControllerMore.toggleModelVisibility (set_by owner true) w)
    = 200 /\
  (exists resp w' new,
     AiController.cloneModelForTransfer cloneReq w_public = (Ok resp, w') /\
     AiController.code resp = 200 /\
     AiController.lookup (AiController.next_id w_public)
                         (AiController.aimodels w') = Some new /\
     AiController.doc_baseModel new = Some modelId /\
     AiController.doc_userId new = Some other) /\
  code_of (AiController.cloneModelForTransfer cloneReq w_private) = 403.
Proof.
  intros Hl Ho Hpriv Hne cloneReq set_by code_of w_public w_private.
  pose proof (lookup_id _ _ Hl) as Hid.
  assert (Hb : Nat.eqb owner other = false) by (apply Nat.eqb_neq; exact Hne).
  assert (Htoggle : forall b ww mm,
             AiController.lookup modelId (AiController.aimodels ww) = Some mm ->
             AiController.doc_userId mm = Some owner ->
             exists resp,
               AiControllerMore.toggleModelVisibility (set_by owner b) ww
               = (Ok resp,
                  AiController.mkWorld (AiController.runtime ww)
                    (AiController.upsert (AiControllerMore.with_isPublic b mm)
                                         (AiController.aimodels ww))
                    (AiController.next_id ww) (AiController.clock ww)) /\
               AiController.code resp = 200).
  { intros b ww mm Hll Hoo.
    unfold AiControllerMore.toggleModelVisibility, try_catch, bind,
      AiController.findById, lift, AiController.save, ret. simpl.
    rewrite Hll, (not_owner_of_owned mm owner Hoo), Nat.eqb_refl. simpl.
    eexists. split; reflexivity. }
  assert (Hlook : forall b ww mm,
             AiController.lookup modelId (AiController.aimodels ww) = Some mm ->
             AiController.lookup modelId
               (AiController.upsert (AiControllerMore.with_isPublic b mm)
                                    (AiController.aimodels ww))
             = Some (AiControllerMore.with_isPublic b mm)).
  { intros b ww mm Hll. rewrite <- (lookup_id _ _ Hll).
    change (AiController.doc_id mm)
      with (AiController.doc_id (AiControllerMore.with_isPublic b mm)) at 1.
    apply lookup_upsert. }
  destruct (Htoggle true w model Hl Ho) as (r1 & Hr1 & Hc1).
  assert (Hwp : w_public
                = AiController.mkWorld (AiController.runtime w)
                    (AiController.upsert
                       (AiControllerMore.with_isPublic true model)
                       (AiController.aimodels w))
                    (AiController.next_id w) (AiController.clock w)).
  { unfold w_public. rewrite Hr1. reflexivity. }
  assert (Hlp : AiController.lookup modelId (AiController.aimodels w_public)
                = Some (AiControllerMore.with_isPublic true model)).
  { rewrite Hwp. simpl. apply (Hlook true w model Hl). }
  destruct (Htoggle false w_public _ Hlp Ho) as (r2 & Hr2 & Hc2).
  assert (Hlq : AiController.lookup modelId (AiController.aimodels w_private)
                = Some (AiControllerMore.with_isPublic false
                          (AiControllerMore.with_isPublic true model))).
  { unfold w_private. rewrite Hr2. simpl. apply (Hlook false w_public _ Hlp). }
  split; [|split; [|split; [|split]]].
  - destruct (clone_of_owned_source cloneReq w (modelId := modelId)
                eq_refl Hl Ho) as [H403 _].
    unfold code_of. rewrite H403; [reflexivity|].
    simpl. rewrite Hb, Hpriv. reflexivity.
  - unfold AiControllerMore.toggleModelVisibility, try_catch, bind,
      AiController.findById, lift, ret. simpl.
    rewrite Hl, (not_owner_of_owned model other Ho), Hb. reflexivity.
  - unfold code_of. rewrite Hr1. exact Hc1.
  - destruct (clone_of_owned_source cloneReq w_public (modelId := modelId)
                (source := AiControllerMore.with_isPublic true model)
                eq_refl Hlp Ho) as [_ H200].
    destruct H200 as (resp & w' & new & Hrun & Hc & Hnew & Hbase & Hown & _).
    { simpl. apply orb_true_r. }
    exists resp, w', new. repeat split; try assumption.
    rewrite Hbase. simpl. rewrite Hid. reflexivity.
  - destruct (clone_of_owned_source cloneReq w_private (modelId := modelId)
                (source := AiControllerMore.with_isPublic false
                             (AiControllerMore.with_isPublic true model))
                eq_refl Hlq Ho) as [H403 _].
    unfold code_of. rewrite H403; [reflexivity|].
    simpl. rewrite Hb. reflexivity.
Qed.

(** X14. There is one live model for all records: a prediction request that
    names an existing record is answered from the model the adapter holds,
    whichever record is named, so the responses for two existing records are
    the same; only the record on which the prediction is stored differs. *)
Theorem predict_ignores_which_record w a b da db input user :
  AiController.lookup a (AiController.aimodels w) = Some da ->
  AiController.lookup b (AiController.aimodels w) = Some db ->
  let req id := AiController.mkPredictReq (Some id) (Some input) user in
  fst (AiController.predict (req a) w) = fst (AiController.predict (req b) w) /\
  AiController.runtime (snd (AiController.predict (req a) w))
  = AiController.runtime (snd (AiController.predict (req b) w)).
Proof.
  intros Ha Hb req.
  unfold AiController.predict, try_catch, bind, AiController.findById,
    AiController.adapter, AiController.addPrediction, bind,
    AiController.now, AiController.fresh_id, AiController.save, ret.
  simpl. rewrite Ha, Hb.
  destruct (Adapter.predict input (AiController.runtime w)) as [[p|e] rt'];
    destruct user; simpl; split; reflexivity.
Qed.

(** X15. [initializeModel] converts the [userId] of the request, stores a
    new record, and only then loads the default model. A [userId] from which
    no ObjectId can be made makes the conversion throw: the handler answers
    500 with [Error initializing AI model] and nothing is stored. With any
    other [userId], whatever the library does, the handler answers 200 or
    500 with [Failed to initialize AI model], the collection holds the new
    record afterwards with the converted [userId], and the status of the
    record is [initialized] in the first case and [error] in the second. *)
Theorem initializeModel_record_by_userId req w :
  (AiController.ir_userId req = AiController.UserIdMalformed ->
   exists resp,
     AiController.initializeModel req w = (Ok resp, w) /\
     AiController.code resp = 500 /\
     AiController.msg resp = "Error initializing AI model") /\
  (forall userId,
     AiController.objectId_of (AiController.ir_userId req) = Ok userId ->
     exists resp w' d,
       AiController.initializeModel req w = (Ok resp, w') /\
       AiController.lookup (AiController.next_id w) (AiController.aimodels w')
         = Some d /\
       AiController.doc_userId d = userId /\
       AiController.next_id w' = S (AiController.next_id w) /\
       ((AiController.code resp = 200 /\
         AiController.doc_status d = "initialized") \/
        (AiController.code resp = 500 /\
         AiController.msg resp = "Failed to initialize AI model" /\
         AiController.doc_status d = "error"))).
Proof.
  split.
  - intros Hu.
    unfold AiController.initializeModel, try_catch, bind, lift, ret.
    rewrite Hu. cbn [AiController.objectId_of].
    eexists. split; [reflexivity|]. split; reflexivity.
  - intros userId Hu.
    unfold AiController.initializeModel, try_catch, bind,
      AiController.create_model, bind, AiController.fresh_id,
      AiController.now, AiController.save, AiController.adapter, ret, lift.
    rewrite Hu. simpl.
    destruct (loadModel_returns_bool None Adapter.no_config
                (AiController.runtime w)) as (b & rt' & Hload).
    rewrite Hload. destruct b; simpl;
      eexists; eexists; eexists; (split; [reflexivity|]); simpl;
      (split;
       [ match goal with
         | |- AiController.lookup ?i (AiController.upsert ?d _) = _ =>
             change i with (AiController.doc_id d); apply lookup_upsert
         end |]);
      simpl; (split; [reflexivity|]); (split; [reflexivity|]);
      [left | right]; repeat split; reflexivity.
Qed.

End OwnerGateFacts.


Lemma clone_follows_visibility_witness :
  match fst (AiController.cloneModelForTransfer
               (AiController.mkCloneReq 9 (Some 1) None None VUndefined)
               Double.two_models) with
  | Ok resp => AiController.code resp
  | Throw _ => 0
  end = 403.
Proof.
  assert (Hne : 7 <> 9) by discriminate.
  exact (proj1 (clone_follows_visibility Double.two_models 1 (other := 9)
                  None None VUndefined eq_refl eq_refl eq_refl Hne)).
Defined.

Lemma predict_ignores_which_record_witness :
  fst (@AiController.predict Double.lib
         (AiController.mkPredictReq (Some 0) (Some [[1%Q]])
            AiController.UserIdAbsent)
         Double.two_models)
  = fst (@AiController.predict Double.lib
           (AiController.mkPredictReq (Some 1) (Some [[1%Q]])
            AiController.UserIdAbsent)
           Double.two_models).
Proof.
  exact (proj1 (@predict_ignores_which_record Double.lib Double.two_models
                  0 1 _ _ [[1%Q]] AiController.UserIdAbsent eq_refl
                  eq_refl)).
Defined.

(** A request whose [userId] names no ObjectId and a request of user 7, on
    an empty collection. *)
Lemma initializeModel_record_by_userId_witness :
  (exists resp,
     @AiController.initializeModel Double.lib
        (AiController.mkInitReq None None AiController.UserIdMalformed)
        Double.empty_world
     = (Ok resp, Double.empty_world) /\
     AiController.code resp = 500 /\
     AiController.msg resp = "Error initializing AI model") /\
  (exists resp w' d,
     @AiController.initializeModel Double.lib
        (AiController.mkInitReq None None (AiController.UserIdOk 7))
        Double.empty_world
     = (Ok resp, w') /\
     AiController.lookup 0 (AiController.aimodels w') = Some d /\
     AiController.doc_userId d = Some 7).
Proof.
  split.
  - exact (proj1 (@initializeModel_record_by_userId Double.lib
                    (AiController.mkInitReq None None
                       AiController.UserIdMalformed)
                    Double.empty_world) eq_refl).
  - destruct (proj2 (@initializeModel_record_by_userId Double.lib
                       (AiController.mkInitReq None None
                          (AiController.UserIdOk 7))
                       Double.empty_world) (Some 7) eq_refl)
      as (resp & w' & d & Hrun & Hlook & Hu & _).
    exists resp, w', d.
    split; [exact Hrun|]. split; [exact Hlook | exact Hu].
Defined.

(* ================================================================== *)
(** ** Further properties of the dataset controller *)
(* ================================================================== *)

Lemma NoDup_map_eq {A B} (f : A -> B) l x y :
  NoDup (map f l) -> In x l -> In y l -> f x = f y -> x = y.
Proof.
  induction l as [|a l IH]; simpl; intros Hnd Hx Hy Hf; [contradiction|].
  inversion Hnd as [|? ? Hnotin Hnd']; subst.
  destruct Hx as [->|Hx], Hy as [->|Hy]; auto.
  - exfalso. apply Hnotin. rewrite Hf. apply in_map. exact Hy.
  - exfalso. apply Hnotin. rewrite <- Hf. apply in_map. exact Hx.
Qed.

Lemma replace_absent d ds :
  ~ In (DatasetController.ds_id d) (map DatasetController.ds_id ds) ->
  DatasetControllerMore.replace d ds = ds.
Proof.
  unfold DatasetControllerMore.replace.
  induction ds as [|a ds IH]; simpl; intros H; [reflexivity|].
  destruct (Nat.eqb_spec (DatasetController.ds_id a)
                         (DatasetController.ds_id d)) as [E|E].
  - exfalso. apply H. left. exact E.
  - f_equal. apply IH. intros Hin. apply H. right. exact Hin.
Qed.

Lemma replace_ids d ds :
  map DatasetController.ds_id (DatasetControllerMore.replace d ds)
  = map DatasetController.ds_id ds.
Proof.
  unfold DatasetControllerMore.replace.
  induction ds as [|a ds IH]; simpl; [reflexivity|].
  rewrite IH.
  destruct (Nat.eqb_spec (DatasetController.ds_id a)
                         (DatasetController.ds_id d)) as [E|E];
    [rewrite E|]; reflexivity.
Qed.

Lemma replace_length d ds :
  List.length (DatasetControllerMore.replace d ds) = List.length ds.
Proof. unfold DatasetControllerMore.replace. apply length_map. Qed.

Lemma replace_in d ds x :
  In x (DatasetControllerMore.replace d ds) ->
  x = d \/ (In x ds /\ DatasetController.ds_id x <> DatasetController.ds_id d).
Proof.
  unfold DatasetControllerMore.replace. intros H.
  apply in_map_iff in H. destruct H as (a & Ha & Hin).
  destruct (Nat.eqb_spec (DatasetController.ds_id a)
                         (DatasetController.ds_id d)) as [E|E].
  - left. symmetry. exact Ha.
  - right. subst x. split; assumption.
Qed.

Lemma replace_keys d ds :
  NoDup (map DatasetController.ds_id ds) ->
  NoDup (map DatasetControllerMore.key ds) ->
  (forall d', In d' ds ->
              DatasetController.ds_id d' <> DatasetController.ds_id d ->
              DatasetControllerMore.key d' <> DatasetControllerMore.key d) ->
  NoDup (map DatasetControllerMore.key (DatasetControllerMore.replace d ds)).
Proof.
  induction ds as [|a ds IH]; intros Hid Hk Hother; [constructor|].
  inversion Hid as [|? ? Hid1 Hid2]; subst.
  inversion Hk as [|? ? Hk1 Hk2]; subst.
  change (DatasetControllerMore.replace d (a :: ds))
    with ((if Nat.eqb (DatasetController.ds_id a) (DatasetController.ds_id d)
           then d else a) :: DatasetControllerMore.replace d ds).
  destruct (Nat.eqb_spec (DatasetController.ds_id a)
                         (DatasetController.ds_id d)) as [E|E].
  - rewrite replace_absent by (rewrite <- E; exact Hid1).
    simpl. constructor; [|exact Hk2].
    intros Hin. apply in_map_iff in Hin. destruct Hin as (x & Hx & Hin).
    apply (Hother x); [right; exact Hin | | exact Hx].
    intros Heq. apply Hid1. rewrite E, <- Heq. apply in_map. exact Hin.
  - simpl. constructor.
    + intros Hin. apply in_map_iff in Hin. destruct Hin as (x & Hx & Hin).
      apply replace_in in Hin. destruct Hin as [->|[Hin _]].
      * apply (Hother a); [left; reflexivity | exact E | symmetry; exact Hx].
      * apply Hk1. rewrite <- Hx. apply in_map. exact Hin.
    + apply IH; [exact Hid2 | exact Hk2 |].
      intros d' Hin. apply Hother. right. exact Hin.
Qed.

Section DatasetInvariant.
Variable DATASET_DIR : string.
Variable create_accepts :
  list DatasetController.Dataset -> DatasetController.CreateReq -> bool.
Variable save_accepts : DatasetController.Dataset -> bool.

Local Notation "'handle'" :=
  (DatasetControllerMore.handle DATASET_DIR create_accepts save_accepts).
Local Notation "'run'" :=
  (DatasetControllerMore.run DATASET_DIR create_accepts save_accepts).

Local Notation "'dataset_inv'" := DatasetControllerMore.well_formed.

Lemma ids_in_order_NoDup ds :
  DatasetControllerMore.ids_in_order ds ->
  NoDup (map DatasetController.ds_id ds).
Proof.
  unfold DatasetControllerMore.ids_in_order. intros ->. apply seq_NoDup.
Qed.

Lemma create_keeps_inv req w :
  dataset_inv (DatasetController.datasets w) ->
  dataset_inv
    (DatasetController.datasets
       (snd (DatasetController.createDataset DATASET_DIR create_accepts
               req w))).
Proof.
  intros [Hids Hkeys].
  unfold DatasetController.createDataset, try_catch, bind,
    DatasetController.ensure_dir, DatasetController.create, ret.
  destruct (DatasetController.findOne_name_creator _ _ _) as [d|] eqn:F;
    [split; assumption|].
  assert (Hfresh : ~ In (DatasetController.cr_user req,
                         DatasetController.cr_name req)
                        (map DatasetControllerMore.key
                             (DatasetController.datasets w))).
  { intros Hin. apply in_map_iff in Hin. destruct Hin as (x & Hx & Hin).
    unfold DatasetController.findOne_name_creator in F.
    apply (find_none _ _ F) in Hin.
    unfold DatasetControllerMore.key in Hx. injection Hx as Hc Hn.
    rewrite Hc, Hn, String.eqb_refl, Nat.eqb_refl in Hin. discriminate. }
  destruct (existsb _ (DatasetController.dirs w)); simpl;
    destruct (create_accepts _ req); simpl; try (split; assumption);
    (split;
     [ unfold DatasetControllerMore.ids_in_order in *;
       rewrite map_app, length_app, Hids; simpl;
       rewrite Nat.add_1_r, seq_S; reflexivity
     | rewrite map_app; simpl;
       apply NoDup_app; [exact Hkeys | repeat constructor; intros [] | ];
       intros x Hx [Hin|[]]; subst x; apply Hfresh; exact Hx ]).
Qed.

Lemma delete_keeps_inv user id w :
  dataset_inv (DatasetController.datasets w) ->
  dataset_inv
    (DatasetController.datasets
       (snd (DatasetController.deleteDataset user id w))).
Proof.
  intros Inv.
  unfold DatasetController.deleteDataset, try_catch.
  destruct (find _ (DatasetController.datasets w)) as [d|];
    [|exact Inv].
  destruct (negb _); [exact Inv|]. simpl.
  destruct Inv as [Hids Hkeys].
  split.
  - unfold DatasetControllerMore.ids_in_order in *.
    rewrite length_map, map_map, <- Hids. apply map_ext.
    intros a. destruct (Nat.eqb _ id); reflexivity.
  - rewrite map_map.
    erewrite map_ext; [exact Hkeys|].
    intros a. destruct (Nat.eqb _ id); reflexivity.
Qed.

Lemma update_keeps_inv req w :
  dataset_inv (DatasetController.datasets w) ->
  dataset_inv
    (DatasetController.datasets
       (snd (DatasetControllerMore.updateDataset save_accepts req w))).
Proof.
  intros [Hids Hkeys].
  pose proof (ids_in_order_NoDup Hids) as Hnd.
  unfold DatasetControllerMore.updateDataset, try_catch.
  destruct (DatasetControllerMore.findById _ _) as [d|] eqn:F;
    [|split; assumption].
  destruct (Nat.eqb_spec (DatasetController.ds_creator d)
                         (DatasetControllerMore.ur_user req)) as [Hc|Hc];
    simpl; [|split; assumption].
  unfold DatasetControllerMore.findById in F.
  pose proof (find_some _ _ F) as [Hin Hidd].
  apply Nat.eqb_eq in Hidd.
  match goal with
  | |- context [if ?c then DatasetControllerMore.findOne_other _ _ _ _
                else None] => destruct c eqn:Ren
  end.
  - destruct (DatasetControllerMore.findOne_other _ _ _ _) eqn:Other;
      [split; assumption|].
    destruct (save_accepts _); simpl; [|split; assumption].
    split.
    + unfold DatasetControllerMore.ids_in_order in *.
      rewrite replace_length, replace_ids. exact Hids.
    + apply replace_keys; [exact Hnd | exact Hkeys |].
      intros d' Hin' Hne Hk.
      unfold DatasetControllerMore.findOne_other in Other.
      apply (find_none _ _ Other) in Hin'.
      unfold DatasetControllerMore.key in Hk. simpl in Hk.
      injection Hk as Hcr Hnm.
      destruct (DatasetControllerMore.ur_name req) as [n|]; [|discriminate].
      assert (Hn : str_or (Some n) EmptyString = n)
        by (destruct n; reflexivity).
      assert (Hn' : str_or (Some n) (DatasetController.ds_name d) = n).
      { destruct n; [discriminate Ren | reflexivity]. }
      rewrite Hn in Hin'. rewrite Hn' in Hnm.
      rewrite Hnm, Hcr, Hc, String.eqb_refl, Nat.eqb_refl in Hin'.
      simpl in Hin'. apply negb_false_iff, Nat.eqb_eq in Hin'.
      apply Hne. exact Hin'.
  - destruct (save_accepts _); simpl; [|split; assumption].
    assert (Hname : str_or (DatasetControllerMore.ur_name req)
                           (DatasetController.ds_name d)
                    = DatasetController.ds_name d).
    { destruct (DatasetControllerMore.ur_name req) as [n|]; [|reflexivity].
      destruct n as [|c n]; [reflexivity|].
      cbn [negb andb String.eqb] in Ren.
      change (negb (String.eqb (String c n) (DatasetController.ds_name d))
              = false) in Ren.
      apply negb_false_iff, String.eqb_eq in Ren.
      simpl. exact Ren. }
    split.
    + unfold DatasetControllerMore.ids_in_order in *.
      rewrite replace_length, replace_ids. exact Hids.
    + apply replace_keys; [exact Hnd | exact Hkeys |].
      intros d' Hin' Hne Hk. apply Hne.
      unfold DatasetControllerMore.key in Hk. simpl in Hk.
      rewrite Hname in Hk.
      rewrite (NoDup_map_eq _ _ _ _ Hkeys Hin' Hin Hk). reflexivity.
Qed.

(** X16. Whatever creation, update and soft-delete requests are handled, one
    after the other, starting from an empty collection, and whichever of
    them succeed: no two datasets of the collection, active or soft-deleted,
    have the same creator and the same name, and the id of each dataset is
    its position in the collection. *)
Theorem dataset_names_stay_unique requests dirs0 :
  let ds := DatasetController.datasets
              (run requests (DatasetController.mkWorld [] dirs0)) in
  NoDup (map DatasetControllerMore.key ds) /\
  DatasetControllerMore.ids_in_order ds.
Proof.
  intros ds.
  assert (Hinv : forall rs w,
             dataset_inv (DatasetController.datasets w) ->
             dataset_inv (DatasetController.datasets (run rs w))).
  { induction rs as [|r rs IH]; intros w Inv; [exact Inv|].
    simpl. apply IH. destruct r as [req|req|user id]; simpl.
    - apply create_keeps_inv. exact Inv.
    - apply update_keeps_inv. exact Inv.
    - apply delete_keeps_inv. exact Inv. }
  destruct (Hinv requests (DatasetController.mkWorld [] dirs0)) as [Hi Hk].
  - split; [reflexivity | constructor].
  - split; [exact Hk | exact Hi].
Qed.

End DatasetInvariant.

Lemma dataset_requests_example :
  map DatasetControllerMore.key
      (DatasetController.datasets
         (DatasetControllerMore.run "/srv/app/datasets" (fun _ _ => true)
            (fun _ => true)
            [DatasetControllerMore.Create Double.sales_request;
             DatasetControllerMore.Delete 2 0;
             DatasetControllerMore.Create Double.sales_request;
             DatasetControllerMore.Create
               (DatasetController.mkCreateReq 3 "sales" "Other" "csv" None
                                              None);
             DatasetControllerMore.Update
               (DatasetControllerMore.mkUpdateReq 3 1 (Some "sales 2023")
                                                  None None None)]
            (DatasetController.mkWorld [] [])))
  = [(2, "sales"); (3, "sales 2023")].
Proof. reflexivity. Qed.

Section DatasetUpdateFacts.
Variable save_accepts : DatasetController.Dataset -> bool.

Local Notation "'updateDataset'" :=
  (DatasetControllerMore.updateDataset save_accepts).

Lemma find_map_same_id (g : DatasetController.Dataset ->
                           DatasetController.Dataset) id ds :
  (forall d, DatasetController.ds_id (g d) = DatasetController.ds_id d) ->
  find (fun d => Nat.eqb (DatasetController.ds_id d) id) (map g ds)
  = option_map g
      (find (fun d => Nat.eqb (DatasetController.ds_id d) id) ds).
Proof.
  intros Hg. induction ds as [|a ds IH]; simpl; [reflexivity|].
  rewrite Hg. destruct (Nat.eqb (DatasetController.ds_id a) id);
    [reflexivity | exact IH].
Qed.

(** X17. [deleteDataset] is a soft delete. Whoever asks and whatever the id,
    the collection keeps every record, each with all its fields except
    possibly the active flag, and the directories are untouched; a request
    of another user than the creator, or for an unknown id, changes
    nothing; the creator's request clears the flag of the records with that
    id; and a repeated request changes nothing more. *)
Theorem deleteDataset_is_soft user id w :
  let w' := snd (DatasetController.deleteDataset user id w) in
  Forall2 (fun d d' => DatasetController.set_inactive d'
                       = DatasetController.set_inactive d /\
                       (DatasetController.ds_isActive d' = true ->
                        DatasetController.ds_isActive d = true))
          (DatasetController.datasets w) (DatasetController.datasets w') /\
  DatasetController.dirs w' = DatasetController.dirs w /\
  (forall d,
     DatasetControllerMore.findById id (DatasetController.datasets w)
       = Some d ->
     (DatasetController.ds_creator d <> user -> w' = w) /\
     (DatasetController.ds_creator d = user ->
      DatasetControllerMore.findById id (DatasetController.datasets w')
      = Some (DatasetController.set_inactive d))) /\
  (DatasetControllerMore.findById id (DatasetController.datasets w) = None ->
   w' = w) /\
  snd (DatasetController.deleteDataset user id w') = w'.
Proof.
  intros w'. unfold w'. clear w'.
  assert (Hrefl : forall ds,
             Forall2 (fun d d' => DatasetController.set_inactive d'
                                  = DatasetController.set_inactive d /\
                                  (DatasetController.ds_isActive d' = true ->
                                   DatasetController.ds_isActive d = true))
                     ds ds).
  { induction ds; constructor; auto. }
  set (g := fun d => if Nat.eqb (DatasetController.ds_id d) id
                     then DatasetController.set_inactive d else d).
  assert (Hgid : forall d, DatasetController.ds_id (g d)
                           = DatasetController.ds_id d).
  { intros d. unfold g. destruct (Nat.eqb _ id); reflexivity. }
  assert (Hgg : forall ds, map g (map g ds) = map g ds).
  { intros ds. rewrite map_map. apply map_ext. intros d. unfold g.
    destruct (Nat.eqb (DatasetController.ds_id d) id) eqn:E.
    - simpl. rewrite E. reflexivity.
    - rewrite E. reflexivity. }
  unfold DatasetControllerMore.findById.
  unfold DatasetController.deleteDataset, try_catch.
  destruct (find _ (DatasetController.datasets w)) as [d|] eqn:F.
  2: { simpl. rewrite F.
       split; [apply Hrefl|]. split; [reflexivity|].
       split; [intros d Hd; discriminate|].
       split; [reflexivity|]. destruct w; reflexivity. }
  destruct (Nat.eqb_spec (DatasetController.ds_creator d) user) as [Hc|Hc];
    simpl.
  2: { rewrite F. destruct (Nat.eqb_spec (DatasetController.ds_creator d) user);
         [contradiction|]. simpl.
       split; [apply Hrefl|]. split; [reflexivity|].
       split; [intros d0 Hd0; injection Hd0 as <-;
               split; [reflexivity | contradiction]|].
       split; [reflexivity|]. destruct w; reflexivity. }
  fold g. split.
  { clear F. induction (DatasetController.datasets w) as [|a ds IH];
      simpl; constructor; [|exact IH].
    unfold g. destruct (Nat.eqb _ id); simpl; auto.
    split; [reflexivity | discriminate]. }
  split; [reflexivity|]. split.
  { intros d0 Hd0. injection Hd0 as <-. split; [contradiction|].
    intros _. rewrite (find_map_same_id g id _ Hgid), F. simpl.
    unfold g. apply find_some in F. destruct F as [_ F]. rewrite F.
    reflexivity. }
  split; [discriminate|].
  rewrite (find_map_same_id g id _ Hgid), F. simpl.
  assert (Hcg : DatasetController.ds_creator (g d) = user).
  { unfold g. destruct (Nat.eqb _ id); simpl; exact Hc. }
  rewrite Hcg, Nat.eqb_refl. simpl. fold g. rewrite Hgg. reflexivity.
Qed.

(** X18. Renaming through [updateDataset], requested by the creator with a
    name that is not empty and differs from the present one: when another
    dataset of the creator, active or soft-deleted, has that name, the answer
    is 400 and nothing changes; when none has and the document is accepted,
    the answer is 200 and the record carries the new name, while its id,
    creator, format, storage location, file name and active flag stay as
    they were (the file name keeps following the first name). *)
Theorem updateDataset_rename req w d n :
  DatasetControllerMore.findById (DatasetControllerMore.ur_id req)
    (DatasetController.datasets w) = Some d ->
  DatasetController.ds_creator d = DatasetControllerMore.ur_user req ->
  DatasetControllerMore.ur_name req = Some n ->
  n <> EmptyString ->
  n <> DatasetController.ds_name d ->
  (forall d',
     In d' (DatasetController.datasets w) ->
     DatasetController.ds_name d' = n ->
     DatasetController.ds_creator d' = DatasetControllerMore.ur_user req ->
     DatasetController.ds_id d' <> DatasetController.ds_id d ->
     exists resp,
       updateDataset req w = (Ok resp, w) /\
       DatasetController.code resp = 400) /\
  ((forall d',
      In d' (DatasetController.datasets w) ->
      DatasetController.ds_name d' = n ->
      DatasetController.ds_creator d' = DatasetControllerMore.ur_user req ->
      DatasetController.ds_id d' = DatasetController.ds_id d) ->
   save_accepts (DatasetControllerMore.apply_update req d) = true ->
   exists resp d',
     updateDataset req w
     = (Ok resp,
        DatasetController.mkWorld
          (DatasetControllerMore.replace d' (DatasetController.datasets w))
          (DatasetController.dirs w)) /\
     DatasetController.code resp = 200 /\
     DatasetController.ds_name d' = n /\
     DatasetController.ds_id d' = DatasetController.ds_id d /\
     DatasetController.ds_creator d' = DatasetController.ds_creator d /\
     DatasetController.ds_format d' = DatasetController.ds_format d /\
     DatasetController.ds_location d' = DatasetController.ds_location d /\
     DatasetController.ds_fileName d' = DatasetController.ds_fileName d /\
     DatasetController.ds_isActive d' = DatasetController.ds_isActive d).
Proof.
  intros F Hc Hn Hne Hdiff.
  assert (Hren : andb (negb (String.eqb n EmptyString))
                      (negb (String.eqb n (DatasetController.ds_name d)))
                 = true).
  { apply andb_true_iff. split; apply negb_true_iff, String.eqb_neq;
      assumption. }
  assert (Hs1 : str_or (Some n) EmptyString = n) by (destruct n; reflexivity).
  assert (Hs2 : str_or (Some n) (DatasetController.ds_name d) = n).
  { destruct n; [contradiction | reflexivity]. }
  split.
  - intros d' Hin Hname Hcr Hid.
    unfold DatasetControllerMore.updateDataset, try_catch.
    rewrite F, Hc, Nat.eqb_refl, Hn, Hren, Hs1. cbn [negb].
    destruct (DatasetControllerMore.findOne_other n _ _ _) eqn:O.
    + eexists. split; reflexivity.
    + exfalso. unfold DatasetControllerMore.findOne_other in O.
      apply (find_none _ _ O) in Hin.
      rewrite Hname, Hcr, String.eqb_refl, Nat.eqb_refl in Hin.
      simpl in Hin. apply negb_false_iff, Nat.eqb_eq in Hin. contradiction.
  - intros Hnone Hacc.
    unfold DatasetControllerMore.updateDataset, try_catch.
    rewrite F, Hc, Nat.eqb_refl, Hn, Hren, Hs1. cbn [negb].
    destruct (DatasetControllerMore.findOne_other n _ _ _) eqn:O.
    + exfalso. unfold DatasetControllerMore.findOne_other in O.
      apply find_some in O. destruct O as [Hin O].
      apply andb_true_iff in O. destruct O as [O Oid].
      apply andb_true_iff in O. destruct O as [On Oc].
      apply String.eqb_eq in On. apply Nat.eqb_eq in Oc.
      apply negb_true_iff, Nat.eqb_neq in Oid.
      apply Oid. apply Hnone; assumption.
    + rewrite Hacc.
      eexists. exists (DatasetControllerMore.apply_update req d).
      split; [reflexivity|]. split; [reflexivity|].
      unfold DatasetControllerMore.apply_update. simpl. rewrite Hn, Hs2.
      repeat split; exact Hc.
Qed.

End DatasetUpdateFacts.

(** User 2 has a soft-deleted dataset [sales] and an active dataset
    [forecast], and asks to rename the second to [sales]. *)
Lemma updateDataset_rename_witness :
  let w :=
    snd (DatasetController.createDataset "/srv/app/datasets"
           (fun _ _ => true)
           (DatasetController.mkCreateReq 2 "forecast" "Next year" "csv" None
                                          None)
           Double.sales_deleted) in
  exists resp,
    DatasetControllerMore.updateDataset (fun _ => true)
      (DatasetControllerMore.mkUpdateReq 2 1 (Some "sales") None None None) w
    = (Ok resp, w) /\
    DatasetController.code resp = 400.
Proof.
  intros w.
  assert (H1 : "sales" <> EmptyString) by discriminate.
  assert (H2 : "sales" <> "forecast") by discriminate.
  destruct (updateDataset_rename (fun _ => true)
              (DatasetControllerMore.mkUpdateReq 2 1 (Some "sales") None None
                                                 None)
              w (n := "sales") eq_refl eq_refl eq_refl H1 H2) as [H400 _].
  apply (H400 (DatasetController.set_inactive
                 (DatasetController.mkDataset 0 "sales" "Monthly sales" "csv"
                    "private" [] 2 "/srv/app/datasets/2" "sales.csv" true))).
  - left. reflexivity.
  - reflexivity.
  - reflexivity.
  - discriminate.
Defined.

(* ------------------------------------------------------------------ *)
(** *** The dataset listing and the access checks *)
(* ------------------------------------------------------------------ *)

Section DatasetQueryFacts.
Import DatasetController DatasetAccess.

Lemma build_query_fields req :
  q_isActive (build_query req) = true /\
  q_format (build_query req)
  = (match lq_format req with
     | Some (String _ _ as f) => Some f
     | _ => None
     end) /\
  q_tags (build_query req)
  = (match lq_tag req with
     | Some (String _ _ as t) => Some t
     | _ => None
     end) /\
  q_or (build_query req)
  = (let u := lq_user req in
     match lq_visibility req with
     | Some (String _ _ as v) =>
         [[CreatorIs u; VisibilityIs v]]
           ++ (if String.eqb v "private" then []
               else [[VisibilityIs "public"]])
           ++ [[SharedWithUser u]]
     | _ => [[CreatorIs u]; [VisibilityIs "public"]; [SharedWithUser u]]
     end).
Proof.
  unfold build_query.
  destruct (lq_format req) as [[|c1 f]|], (lq_tag req) as [[|c2 t]|],
    (lq_visibility req) as [[|c3 v]|]; cbn -[String.eqb];
    repeat split;
    try (destruct (String.eqb (String c3 v) "private"); reflexivity).
Qed.

Lemma existsb_eqb_In (t : string) ts :
  existsb (String.eqb t) ts = true <-> In t ts.
Proof.
  rewrite existsb_exists. split.
  - intros [x [Hin Hx]]. apply String.eqb_eq in Hx. subst. exact Hin.
  - intros Hin. exists t. split; [exact Hin | apply String.eqb_refl].
Qed.

Lemma In_firstn {A} (x : A) n l : In x (firstn n l) -> In x l.
Proof.
  intros H. rewrite <- (firstn_skipn n l). apply in_or_app. left. exact H.
Qed.

Lemma In_skipn {A} (x : A) n l : In x (skipn n l) -> In x l.
Proof.
  intros H. rewrite <- (firstn_skipn n l). apply in_or_app. right. exact H.
Qed.

Lemma matches_listed req d :
  matches (build_query req) d = true <-> listed req d.
Proof.
  destruct (build_query_fields req) as [Ha [Hf [Ht Ho]]].
  unfold matches, listed. rewrite Ha, Hf, Ht, Ho.
  rewrite !andb_true_iff.
  assert (Hact : Bool.eqb (ds_isActive (core d)) true = true
                 <-> ds_isActive (core d) = true).
  { destruct (ds_isActive (core d)); simpl; intuition congruence. }
  assert (Hfmt : (match (match lq_format req with
                         | Some (String _ _ as f) => Some f
                         | _ => None
                         end) with
                  | Some f => String.eqb (ds_format (core d)) f
                  | None => true
                  end) = true
                 <-> (forall f, lq_format req = Some f -> f <> EmptyString ->
                                ds_format (core d) = f)).
  { destruct (lq_format req) as [[|c f]|].
    - split; [|reflexivity]. intros _ f E. injection E as <-. congruence.
    - rewrite String.eqb_eq. split.
      + intros E f0 E0 _. injection E0 as <-. exact E.
      + intros H. apply H; [reflexivity | discriminate].
    - split; [|reflexivity]. intros _ f E. discriminate. }
  assert (Htag : (match (match lq_tag req with
                         | Some (String _ _ as t) => Some t
                         | _ => None
                         end) with
                  | Some t => existsb (String.eqb t) (ds_tags (core d))
                  | None => true
                  end) = true
                 <-> (forall t, lq_tag req = Some t -> t <> EmptyString ->
                                In t (ds_tags (core d)))).
  { destruct (lq_tag req) as [[|c t]|].
    - split; [|reflexivity]. intros _ f E. injection E as <-. congruence.
    - rewrite existsb_eqb_In. split.
      + intros E f0 E0 _. injection E0 as <-. exact E.
      + intros H. apply H; [reflexivity | discriminate].
    - split; [|reflexivity]. intros _ f E. discriminate. }
  assert (Hscope : existsb (forallb (holds d))
                     (let u := lq_user req in
                      match lq_visibility req with
                      | Some (String _ _ as v) =>
                          [[CreatorIs u; VisibilityIs v]]
                            ++ (if String.eqb v "private" then []
                                else [[VisibilityIs "public"]])
                            ++ [[SharedWithUser u]]
                      | _ => [[CreatorIs u]; [VisibilityIs "public"];
                              [SharedWithUser u]]
                      end) = true
                   <-> in_scope req d).
  { unfold in_scope, shared_with.
    destruct (lq_visibility req) as [[|c v]|].
    - cbn -[String.eqb]. rewrite !orb_true_iff, !andb_true_iff.
      rewrite Nat.eqb_eq, String.eqb_eq. intuition congruence.
    - destruct (String.eqb_spec (String c v) "private") as [E|E];
        cbn -[String.eqb]; rewrite !orb_true_iff, !andb_true_iff;
        rewrite Nat.eqb_eq, !String.eqb_eq; intuition congruence.
    - cbn -[String.eqb]. rewrite !orb_true_iff, !andb_true_iff.
      rewrite Nat.eqb_eq, String.eqb_eq. intuition congruence. }
  rewrite Hact, Hfmt, Htag, Hscope. tauto.
Qed.

Lemma chunks_cover {A} (l : list A) L n :
  List.length l <= n * L ->
  concat (map (fun k => firstn L (skipn (k * L) l)) (seq 0 n)) = l.
Proof.
  revert l. induction n as [|n IH]; intros l Hlen.
  - destruct l; [reflexivity | simpl in Hlen; lia].
  - change (seq 0 (S n)) with (0 :: seq 1 n).
    rewrite <- seq_shift, map_cons, map_map. cbn [concat].
    rewrite (map_ext _ (fun k => firstn L (skipn (k * L) (skipn L l)))).
    + rewrite IH.
      * apply firstn_skipn.
      * rewrite length_skipn. lia.
    + intros k. rewrite skipn_skipn. f_equal. f_equal. lia.
Qed.

Lemma ceil_div_bounds a b :
  (0 <= a)%Z -> (1 <= b)%Z ->
  (0 <= ceil_div a b /\ a <= ceil_div a b * b /\
   (ceil_div a b - 1) * b < a \/ (a = 0 /\ ceil_div a b = 0))%Z.
Proof.
  intros Ha Hb. unfold ceil_div.
  pose proof (Z.mul_div_le (- a) b ltac:(lia)) as H1.
  pose proof (Z.mul_succ_div_gt (- a) b ltac:(lia)) as H2.
  destruct (Z.eq_dec a 0) as [E|E].
  - right. subst. split; [reflexivity|]. rewrite Z.div_0_l by lia. reflexivity.
  - left. nia.
Qed.

Lemma int_or_positive z d : (1 <= z)%Z -> int_or (Some z) d = z.
Proof. intros H. destruct z; [lia | reflexivity | lia]. Qed.

Lemma findById_unique docs d :
  NoDup (map (fun x => ds_id (core x)) docs) ->
  In d docs ->
  findById (ds_id (core d)) docs = Some d.
Proof.
  unfold findById. induction docs as [|a docs IH]; intros Hnd Hin;
    [destruct Hin|].
  simpl in Hnd. inversion Hnd as [|? ? Hnotin Hnd']; subst.
  simpl. destruct Hin as [->|Hin].
  - rewrite Nat.eqb_refl. reflexivity.
  - destruct (Nat.eqb_spec (ds_id (core a)) (ds_id (core d))) as [E|E].
    + exfalso. apply Hnotin. rewrite E.
      apply (in_map (fun x => ds_id (core x))). exact Hin.
    + apply IH; assumption.
Qed.

Lemma hasEditAccess_iff user d :
  hasEditAccess user d = true <->
  (ds_creator (core d) = user \/
   In (mkShare user "edit") (sharedWith d) \/
   In (mkShare user "admin") (sharedWith d)).
Proof.
  unfold hasEditAccess, grants_edit.
  rewrite orb_true_iff, Nat.eqb_eq, existsb_exists. split.
  - intros [H|[[u l] [Hin H]]]; [left; exact H | right].
    cbn [sh_user sh_accessLevel existsb] in H.
    apply andb_true_iff in H. destruct H as [Hu Hl].
    apply Nat.eqb_eq in Hu. subst u.
    rewrite !orb_true_iff, !String.eqb_eq in Hl.
    destruct Hl as [->|[->|Hl]]; [left | right | discriminate]; exact Hin.
  - intros [H|[H|H]]; [left; exact H | right | right];
      eexists; (split; [exact H|]); cbn [sh_user sh_accessLevel];
      rewrite Nat.eqb_refl; reflexivity.
Qed.

End DatasetQueryFacts.

Section DatasetListingFacts.
Import DatasetController DatasetAccess.

Variable sort_updatedAt : list Doc -> list Doc.
Hypothesis sort_permutes : forall l, Permutation (sort_updatedAt l) l.

Local Notation "'getDatasets'" := (DatasetAccess.getDatasets sort_updatedAt).

(** X19. [GET /datasets] answers 200 or 500 and changes nothing. What the
    query it builds selects is, in plain terms: the active datasets that
    pass the format and tag filters and are the requester's own, public, or
    shared with the requester; with a visibility filter [v], the
    requester's own datasets of visibility [v], the public ones unless [v]
    is [private], and, whatever [v] is, every dataset shared with the
    requester. Every dataset in the answer is in the collection and is
    selected by that rule, [total] counts the selected datasets, and
    [count] is the number of datasets in the answer. *)
Theorem getDatasets_lists_what_is_visible req docs :
  (forall d, matches (build_query req) d = true <-> listed req d) /\
  (exists resp,
     getDatasets req docs = (Ok resp, docs) /\
     ((code resp = 500 /\ payload resp
                          = ErrorMessage "skip value must be non-negative") \/
      (code resp = 200 /\
       exists pages page data,
         payload resp
         = Listing (List.length data)
                   (List.length (filter (matches (build_query req)) docs))
                   pages page data /\
         (forall d, In d data -> In d docs /\ listed req d)))).
Proof.
  split; [apply matches_listed|].
  unfold DatasetAccess.getDatasets, try_catch, bind, find_page,
    countDocuments, ret.
  destruct (Z.ltb _ 0).
  - eexists. split; [reflexivity|]. left. split; reflexivity.
  - eexists. split; [reflexivity|]. right. split; [reflexivity|].
    do 3 eexists. split; [reflexivity|].
    intros d Hin. apply In_firstn, In_skipn in Hin.
    apply (Permutation_in _ (sort_permutes _)) in Hin.
    apply filter_In in Hin. destruct Hin as [Hin Hm].
    split; [exact Hin | apply matches_listed; exact Hm].
Qed.

Lemma getDatasets_page req docs limit p :
  (1 <= limit)%Z -> lq_limit req = Some limit -> 1 <= p ->
  getDatasets (with_page req (Z.of_nat p)) docs
  = (Ok (mkResponse 200 true EmptyString
           (let selected := filter (matches (build_query req)) docs in
            let data := firstn (Z.to_nat limit)
                               (skipn ((p - 1) * Z.to_nat limit)
                                      (sort_updatedAt selected)) in
            Listing (List.length data) (List.length selected)
                    (ceil_div (Z.of_nat (List.length selected)) limit)
                    (Z.of_nat p) data)),
     docs).
Proof.
  intros Hl Hlim Hp.
  unfold DatasetAccess.getDatasets, try_catch, bind, find_page,
    countDocuments, ret.
  assert (Hq : build_query (with_page req (Z.of_nat p)) = build_query req)
    by reflexivity.
  rewrite Hq. cbn [lq_page lq_limit with_page]. rewrite Hlim.
  rewrite !int_or_positive by lia.
  assert (Hs : ((Z.of_nat p - 1) * limit <? 0)%Z = false).
  { apply Z.ltb_ge. nia. }
  rewrite Hs.
  assert (Ha : Z.abs_nat limit = Z.to_nat limit).
  { apply Zabs2Nat.abs_nat_nonneg. lia. }
  assert (Hk : Z.to_nat ((Z.of_nat p - 1) * limit)
               = (p - 1) * Z.to_nat limit).
  { rewrite Z2Nat.inj_mul by lia. f_equal. lia. }
  rewrite Ha, Hk. reflexivity.
Qed.

(** X20. The pages of [GET /datasets]. With a page size [limit >= 1], the
    answers for the pages 1, 2, ..., [totalPages], put one after the other,
    are the selected datasets in the order of the store, each exactly once;
    no page holds more than [limit] datasets, every page after the last is
    empty, and every page reports the same [total] and
    [totalPages = ceil(total / limit)], which is the least number of pages
    that can hold them. *)
Theorem getDatasets_pages_cover req docs limit :
  (1 <= limit)%Z ->
  lq_limit req = Some limit ->
  let selected := sort_updatedAt (filter (matches (build_query req)) docs) in
  let total := List.length selected in
  let pages := Z.to_nat (ceil_div (Z.of_nat total) limit) in
  let answer p := getDatasets (with_page req (Z.of_nat p)) docs in
  concat (map (fun p => data_of (answer p)) (seq 1 pages)) = selected /\
  total <= pages * Z.to_nat limit /\
  (1 <= pages -> (pages - 1) * Z.to_nat limit < total) /\
  (forall p, 1 <= p ->
     List.length (data_of (answer p)) <= Z.to_nat limit /\
     (pages < p -> data_of (answer p) = []) /\
     exists data,
       answer p
       = (Ok (mkResponse 200 true EmptyString
                (Listing (List.length data) total (Z.of_nat pages)
                         (Z.of_nat p) data)), docs)).
Proof.
  intros Hl Hlim selected total pages answer.
  assert (Htot : List.length (filter (matches (build_query req)) docs)
                 = total).
  { unfold total, selected. symmetry. apply Permutation_length.
    apply sort_permutes. }
  pose proof (@ceil_div_bounds (Z.of_nat total) limit ltac:(lia) Hl) as Hc.
  assert (Hpages : Z.of_nat pages = ceil_div (Z.of_nat total) limit).
  { unfold pages. rewrite Z2Nat.id; [reflexivity | lia]. }
  assert (Hup : total <= pages * Z.to_nat limit).
  { apply Nat2Z.inj_le. rewrite Nat2Z.inj_mul, Z2Nat.id by lia.
    rewrite Hpages. lia. }
  assert (Hdata : forall p, 1 <= p ->
            data_of (answer p)
            = firstn (Z.to_nat limit)
                     (skipn ((p - 1) * Z.to_nat limit) selected)).
  { intros p Hp. unfold answer.
    rewrite (@getDatasets_page req docs limit p Hl Hlim Hp). reflexivity. }
  split; [|split; [exact Hup | split]].
  - rewrite <- seq_shift, map_map.
    rewrite (map_ext _ (fun k => firstn (Z.to_nat limit)
                                   (skipn (k * Z.to_nat limit) selected))).
    + apply chunks_cover. exact Hup.
    + intros k. rewrite Hdata by lia. do 3 f_equal. lia.
  - intros H1. apply Nat2Z.inj_lt.
    rewrite Nat2Z.inj_mul, Z2Nat.id, Nat2Z.inj_sub, Hpages by lia.
    change (Z.of_nat 1) with 1%Z. lia.
  - intros p Hp. split; [|split].
    + rewrite Hdata by exact Hp. rewrite length_firstn. lia.
    + intros Hlate. rewrite Hdata by exact Hp.
      rewrite skipn_all2; [destruct (Z.to_nat limit); reflexivity|].
      fold total. nia.
    + unfold answer.
      rewrite (@getDatasets_page req docs limit p Hl Hlim Hp).
      cbv zeta. rewrite Htot, <- Hpages. eexists. reflexivity.
Qed.

End DatasetListingFacts.

Section DatasetLookupFacts.
Import DatasetController DatasetAccess.

Variable user_exists : ObjectId -> bool.

Local Notation "'getDatasetById'" :=
  (DatasetAccess.getDatasetById user_exists).

Lemma some_shared_populated user shares :
  Forall (fun s => user_exists (sh_user s) = true) shares ->
  some_shared user_exists user shares
  = Ok (existsb (fun s => Nat.eqb (sh_user s) user) shares).
Proof.
  induction 1 as [|s shares Hs _ IH]; simpl; [reflexivity|].
  rewrite Hs. destruct (Nat.eqb (sh_user s) user); [reflexivity | exact IH].
Qed.

Lemma hasAccess_populated user d :
  user_exists (ds_creator (core d)) = true ->
  Forall (fun s => user_exists (sh_user s) = true) (sharedWith d) ->
  hasAccess user_exists user d
  = Ok (orb (Nat.eqb (ds_creator (core d)) user)
            (orb (String.eqb (ds_visibility (core d)) "public")
                 (shared_with user d))).
Proof.
  intros Hc Hs. unfold hasAccess. rewrite Hc.
  destruct (Nat.eqb (ds_creator (core d)) user); [reflexivity|].
  destruct (String.eqb (ds_visibility (core d)) "public"); [reflexivity|].
  apply some_shared_populated. exact Hs.
Qed.

(** X21. [GET /datasets/:id] on an existing dataset whose creator and
    sharing partners all have an account: the answer is 200 with the
    dataset when the requester is the creator, or the dataset is public, or
    it is shared with the requester at any access level, and 403 otherwise;
    the collection is not changed. The check does not read the active flag. *)
Theorem getDatasetById_access user id docs d :
  findById id docs = Some d ->
  user_exists (ds_creator (core d)) = true ->
  Forall (fun s => user_exists (sh_user s) = true) (sharedWith d) ->
  let allowed :=
    ds_creator (core d) = user \/
    ds_visibility (core d) = "public" \/
    (exists level, In (mkShare user level) (sharedWith d)) in
  (allowed ->
   getDatasetById user id docs
   = (Ok (mkResponse 200 true EmptyString (One d)), docs)) /\
  (~ allowed ->
   getDatasetById user id docs
   = (Ok (mkResponse 403 false
            "You do not have permission to access this dataset" NoPayload),
      docs)).
Proof.
  intros Hf Hc Hs allowed.
  assert (Hrun : forall b,
             orb (Nat.eqb (ds_creator (core d)) user)
                 (orb (String.eqb (ds_visibility (core d)) "public")
                      (shared_with user d)) = b ->
             getDatasetById user id docs
             = (Ok (if b then mkResponse 200 true EmptyString (One d)
                    else mkResponse 403 false
                           "You do not have permission to access this dataset"
                           NoPayload), docs)).
  { intros b Hb. unfold DatasetAccess.getDatasetById, try_catch, bind, lift.
    rewrite Hf, (hasAccess_populated user d Hc Hs), Hb.
    destruct b; reflexivity. }
  assert (Hiff : orb (Nat.eqb (ds_creator (core d)) user)
                     (orb (String.eqb (ds_visibility (core d)) "public")
                          (shared_with user d)) = true <-> allowed).
  { unfold allowed, shared_with.
    rewrite !orb_true_iff, Nat.eqb_eq, String.eqb_eq, existsb_exists.
    split; (intros [H|[H|H]]; [left; exact H | right; left; exact H |]);
      right; right.
    - destruct H as [[u l] [Hin Hu]]. apply Nat.eqb_eq in Hu.
      simpl in Hu. subst u. exists l. exact Hin.
    - destruct H as [l Hin]. exists (mkShare user l).
      split; [exact Hin | apply Nat.eqb_refl]. }
  split.
  - intros Ha. apply Hiff in Ha. exact (Hrun true Ha).
  - intros Hn.
    destruct (orb (Nat.eqb (ds_creator (core d)) user)
                  (orb (String.eqb (ds_visibility (core d)) "public")
                       (shared_with user d))) eqn:E.
    + exfalso. apply Hn, Hiff. reflexivity.
    + exact (Hrun false eq_refl).
Qed.

End DatasetLookupFacts.

Section DatasetListingAndLookup.
Import DatasetController DatasetAccess.

Variable sort_updatedAt : list Doc -> list Doc.
Variable user_exists : ObjectId -> bool.
Hypothesis sort_permutes : forall l, Permutation (sort_updatedAt l) l.

Local Notation "'getDatasets'" := (DatasetAccess.getDatasets sort_updatedAt).
Local Notation "'getDatasetById'" :=
  (DatasetAccess.getDatasetById user_exists).

(** X22. Listing and lookup. In a collection with distinct ids whose
    datasets refer to existing accounts, every dataset that [GET /datasets]
    lists for a requester is served to that requester by
    [GET /datasets/:id] with 200. The converse fails for soft-deleted
    datasets: such a dataset is in no listing, whatever the requester, the
    page and the filters, and is still served by id to its creator. *)
Theorem listed_datasets_are_served docs :
  NoDup (map (fun x => ds_id (core x)) docs) ->
  Forall (fun d => user_exists (ds_creator (core d)) = true /\
                   Forall (fun s => user_exists (sh_user s) = true)
                          (sharedWith d)) docs ->
  (forall req d,
     In d (data_of (getDatasets req docs)) ->
     getDatasetById (lq_user req) (ds_id (core d)) docs
     = (Ok (mkResponse 200 true EmptyString (One d)), docs)) /\
  (forall d,
     In d docs ->
     ds_isActive (core d) = false ->
     (forall req, ~ In d (data_of (getDatasets req docs))) /\
     getDatasetById (ds_creator (core d)) (ds_id (core d)) docs
     = (Ok (mkResponse 200 true EmptyString (One d)), docs)).
Proof.
  intros Hnd Hex.
  assert (Hlisted : forall req d,
             In d (data_of (getDatasets req docs)) ->
             In d docs /\ listed req d).
  { intros req d. unfold data_of, DatasetAccess.getDatasets, try_catch, bind,
      find_page, countDocuments, ret.
    destruct (Z.ltb _ 0); simpl; [intros []|].
    intros Hin. apply In_firstn, In_skipn in Hin.
    apply (Permutation_in _ (sort_permutes _)) in Hin.
    apply filter_In in Hin. destruct Hin as [Hin Hm].
    split; [exact Hin | apply matches_listed; exact Hm]. }
  assert (Hserve : forall user d,
             In d docs ->
             orb (Nat.eqb (ds_creator (core d)) user)
                 (orb (String.eqb (ds_visibility (core d)) "public")
                      (shared_with user d)) = true ->
             getDatasetById user (ds_id (core d)) docs
             = (Ok (mkResponse 200 true EmptyString (One d)), docs)).
  { intros user d Hin Hb.
    rewrite Forall_forall in Hex. destruct (Hex d Hin) as [Hc Hs].
    unfold DatasetAccess.getDatasetById, try_catch, bind, lift.
    rewrite (@findById_unique docs d Hnd Hin).
    rewrite (@hasAccess_populated user_exists user d Hc Hs), Hb. reflexivity. }
  split.
  - intros req d Hin. destruct (Hlisted req d Hin) as [Hd [_ [Hscope _]]].
    apply Hserve; [exact Hd|].
    rewrite !orb_true_iff, Nat.eqb_eq, String.eqb_eq.
    unfold in_scope in Hscope.
    destruct (lq_visibility req) as [[|c v]|]; tauto.
  - intros d Hin Hoff. split.
    + intros req Hl. destruct (Hlisted req d Hl) as [_ [Hact _]]. congruence.
    + apply Hserve; [exact Hin|]. rewrite Nat.eqb_refl. reflexivity.
Qed.

End DatasetListingAndLookup.

Section DatasetStatisticsFacts.
Import DatasetController DatasetAccess.

Variable save : Doc -> Collection -> Result Collection.

Local Notation "'updateStatistics'" := (DatasetAccess.updateStatistics save).

(** X23. [PUT /datasets/:id/statistics] on an existing dataset. Unless the
    requester is the creator or holds a share of level [edit] or [admin],
    the answer is 403 and the collection is unchanged; a share of level
    [view] is not enough. Otherwise the document handed to [save] has, for
    each of the three statistics, the value of the request when that value
    is truthy and the stored value when it is not (so a stored statistic
    cannot be replaced by [null], 0, an empty string or [false]); the
    answer is 200 when [save] succeeds and 500, with the collection
    unchanged, when it throws. *)
Theorem updateStatistics_edit_access req docs d :
  findById (sq_id req) docs = Some d ->
  let user := sq_user req in
  let may_edit :=
    ds_creator (core d) = user \/
    In (mkShare user "edit") (sharedWith d) \/
    In (mkShare user "admin") (sharedWith d) in
  let d' := set_statistics d (merged_statistics req d) in
  (~ may_edit ->
   updateStatistics req docs
   = (Ok (mkResponse 403 false
            "You do not have permission to update this dataset" NoPayload),
      docs)) /\
  (may_edit ->
   match save d' docs with
   | Ok docs' =>
       updateStatistics req docs
       = (Ok (mkResponse 200 true "Dataset statistics updated successfully"
                         (One d')), docs')
   | Throw e =>
       updateStatistics req docs
       = (Ok (mkResponse 500 false "Error updating dataset statistics"
                         (ErrorMessage (message e))), docs)
   end) /\
  core d' = core d /\ sharedWith d' = sharedWith d /\
  (forall s, statistics d' = Some s ->
     st_summary s
     = (if truthy (sq_summary req) then sq_summary req
        else match statistics d with
             | Some old => st_summary old
             | None => VUndefined
             end)).
Proof.
  intros Hf user may_edit d'.
  pose proof (hasEditAccess_iff user d) as Hiff. fold may_edit in Hiff.
  split; [|split; [|split; [reflexivity | split; [reflexivity|]]]].
  - intros Hn. unfold DatasetAccess.updateStatistics, try_catch.
    rewrite Hf. fold user.
    destruct (hasEditAccess user d); [|reflexivity].
    exfalso. apply Hn, Hiff. reflexivity.
  - intros Hm. apply Hiff in Hm.
    unfold DatasetAccess.updateStatistics, try_catch.
    rewrite Hf. fold user. rewrite Hm. cbn [negb]. fold d'.
    destruct (save d' docs); reflexivity.
  - intros s Hs. unfold d', set_statistics in Hs. cbn [statistics] in Hs.
    injection Hs as <-. reflexivity.
Qed.

End DatasetStatisticsFacts.

Lemma latest_first_permutes l :
  Permutation (DatasetDouble.latest_first l) l.
Proof. apply Permutation_sym, Permutation_rev. Qed.

(** Account 2 filters for [private]: the dataset [sales], private and owned
    by account 1, is selected because it is shared with account 2. *)
Lemma getDatasets_lists_what_is_visible_witness :
  DatasetAccess.matches
    (DatasetAccess.build_query DatasetDouble.private_of_2)
    DatasetDouble.sales = true <->
  DatasetAccess.listed DatasetDouble.private_of_2 DatasetDouble.sales.
Proof.
  exact (proj1 (@getDatasets_lists_what_is_visible
                  DatasetDouble.latest_first latest_first_permutes
                  DatasetDouble.private_of_2 DatasetDouble.docs)
               DatasetDouble.sales).
Defined.

Lemma getDatasets_pages_cover_witness :
  concat
    (map (fun p =>
            DatasetAccess.data_of
              (DatasetAccess.getDatasets DatasetDouble.latest_first
                 (DatasetAccess.with_page DatasetDouble.all_of_2
                                          (Z.of_nat p))
                 DatasetDouble.docs))
         [1; 2])
  = [DatasetDouble.weather; DatasetDouble.sales].
Proof.
  assert (H1 : (1 <= 1)%Z) by lia.
  exact (proj1 (@getDatasets_pages_cover
                  DatasetDouble.latest_first latest_first_permutes
                  DatasetDouble.all_of_2 DatasetDouble.docs 1%Z H1
                  eq_refl)).
Defined.

(** Account 2 holds a [view] share of [sales]. *)
Lemma getDatasetById_access_witness :
  DatasetAccess.getDatasetById DatasetDouble.known_account 2 0
                               DatasetDouble.docs
  = (Ok (DatasetAccess.mkResponse 200 true EmptyString
           (DatasetAccess.One DatasetDouble.sales)),
     DatasetDouble.docs).
Proof.
  assert (Hs : Forall (fun s => DatasetDouble.known_account
                                  (DatasetAccess.sh_user s) = true)
                       (DatasetAccess.sharedWith DatasetDouble.sales)).
  { repeat constructor. }
  apply (proj1 (@getDatasetById_access DatasetDouble.known_account 2 0
                  DatasetDouble.docs DatasetDouble.sales eq_refl eq_refl
                  Hs)).
  right. right. exists "view". left. reflexivity.
Defined.

Lemma docs_ids_distinct :
  NoDup (map (fun x => DatasetController.ds_id (DatasetAccess.core x))
             DatasetDouble.docs).
Proof.
  repeat constructor; simpl; intuition discriminate.
Qed.

Lemma docs_accounts_exist :
  Forall (fun d =>
            DatasetDouble.known_account
              (DatasetController.ds_creator (DatasetAccess.core d)) = true /\
            Forall (fun s => DatasetDouble.known_account
                               (DatasetAccess.sh_user s) = true)
                   (DatasetAccess.sharedWith d))
         DatasetDouble.docs.
Proof.
  repeat constructor.
Qed.

(** The soft-deleted [archive] is served to its creator, account 1. *)
Lemma listed_datasets_are_served_witness :
  DatasetAccess.getDatasetById DatasetDouble.known_account 1 2
                               DatasetDouble.docs
  = (Ok (DatasetAccess.mkResponse 200 true EmptyString
           (DatasetAccess.One DatasetDouble.archive)),
     DatasetDouble.docs).
Proof.
  refine (proj2 (proj2 (@listed_datasets_are_served
                          DatasetDouble.latest_first
                          DatasetDouble.known_account latest_first_permutes
                          DatasetDouble.docs docs_ids_distinct
                          docs_accounts_exist)
                       DatasetDouble.archive _ eq_refl)).
  right. right. left. reflexivity.
Defined.

(** Account 2, with its [view] share of [sales], may not update the
    statistics. *)
Lemma updateStatistics_edit_access_witness :
  let req := DatasetAccess.mkStatisticsReq 2 0 (VObj []) VUndefined
                                           VUndefined in
  DatasetAccess.updateStatistics DatasetDouble.save_in_place req
                                 DatasetDouble.docs
  = (Ok (DatasetAccess.mkResponse 403 false
           "You do not have permission to update this dataset"
           DatasetAccess.NoPayload),
     DatasetDouble.docs).
Proof.
  intros req.
  apply (proj1 (@updateStatistics_edit_access DatasetDouble.save_in_place
                  req DatasetDouble.docs DatasetDouble.sales eq_refl)).
  intros [H|[H|H]]; [discriminate H| |];
    (destruct H as [H|[]]; discriminate H).
Defined.

(* ------------------------------------------------------------------ *)
(** *** The token utilities, the middleware and the admin handlers *)
(* ------------------------------------------------------------------ *)

Section TokenFacts.
Import AuthController AuthMiddleware.

Lemma split_on_nonempty c s : exists h r, split_on c s = h :: r.
Proof.
  induction s as [|a s IH]; simpl.
  - eexists. eexists. reflexivity.
  - destruct (Ascii.eqb a c).
    + eexists. eexists. reflexivity.
    + destruct IH as [h [r ->]]. eexists. eexists. reflexivity.
Qed.

Lemma split_on_no_separator c s :
  forallb (fun a => negb (Ascii.eqb a c)) (list_ascii_of_string s) = true ->
  split_on c s = [s].
Proof.
  induction s as [|a s IH]; simpl; [reflexivity|].
  intros H. apply andb_true_iff in H. destruct H as [Ha Hs].
  apply negb_true_iff in Ha. rewrite Ha, (IH Hs). reflexivity.
Qed.

Lemma split_bearer t :
  split_on " "%char ("Bearer " ++ t)%string = "Bearer" :: split_on " "%char t.
Proof.
  cbn [append split_on Ascii.eqb Bool.eqb].
  destruct (split_on_nonempty " "%char t) as [h [r ->]]. reflexivity.
Qed.

Lemma extract_bearer t cookie :
  extractToken (mkReq (Some ("Bearer " ++ t)%string) cookie)
  = Some (hd EmptyString (split_on " "%char t)).
Proof.
  unfold extractToken. cbn [authorization].
  change (Adapter.truthy_str (Some ("Bearer " ++ t)%string)) with true.
  change (str_or (Some ("Bearer " ++ t)%string) EmptyString) with ("Bearer " ++ t)%string.
  assert (Hp : startsWith ("Bearer " ++ t)%string "Bearer " = true).
  { unfold startsWith. cbn. destruct t; reflexivity. }
  rewrite Hp, split_bearer. cbn [andb nth_error].
  destruct (split_on_nonempty " "%char t) as [h [r ->]]. reflexivity.
Qed.

(** X24. [extractToken]. When the [Authorization] header begins with
    [Bearer ] the token is what follows up to the next space (all of it when
    it holds no space), and the cookie is not consulted, even when that
    token is empty; with any other header, or none, the token is the
    cookie's when that is not empty, and there is none otherwise.
    Hence [authenticate] answers 401 to the header [Bearer ] with nothing
    after it, whatever the cookie holds. *)
Theorem extractToken_prefers_the_header :
  (forall t cookie,
     extractToken (mkReq (Some ("Bearer " ++ t)%string) cookie)
     = Some (hd EmptyString (split_on " "%char t))) /\
  (forall t cookie,
     forallb (fun a => negb (Ascii.eqb a " "%char)) (list_ascii_of_string t)
     = true ->
     extractToken (mkReq (Some ("Bearer " ++ t)%string) cookie) = Some t) /\
  (forall t rest cookie,
     forallb (fun a => negb (Ascii.eqb a " "%char)) (list_ascii_of_string t)
     = true ->
     extractToken (mkReq (Some ("Bearer " ++ t ++ " " ++ rest)%string) cookie)
     = Some t) /\
  (forall header cookie,
     match header with
     | Some h => startsWith h "Bearer " = false
     | None => True
     end ->
     extractToken (mkReq header cookie)
     = match cookie with
       | Some (String _ _) => cookie
       | _ => None
       end) /\
  (forall jwt_verify accounts cookie,
     authenticate jwt_verify accounts (mkReq (Some "Bearer ") cookie)
     = Respond 401 "Authentication required. No token provided.").
Proof.
  split; [exact extract_bearer|]. split; [|split; [|split]].
  - intros t cookie Ht. rewrite extract_bearer, (split_on_no_separator _ _ Ht).
    reflexivity.
  - intros t rest cookie Ht. rewrite extract_bearer.
    assert (Hs : forall u, forallb (fun a => negb (Ascii.eqb a " "%char))
                                   (list_ascii_of_string u) = true ->
                           hd EmptyString
                              (split_on " "%char (u ++ " " ++ rest)%string) = u).
    { induction u as [|a u IH]; intros Hu; [reflexivity|].
      simpl in Hu. apply andb_true_iff in Hu. destruct Hu as [Ha Hu].
      apply negb_true_iff in Ha. specialize (IH Hu).
      change ((String a u ++ " " ++ rest)%string)
        with (String a (u ++ " " ++ rest)%string).
      cbn [split_on]. rewrite Ha.
      destruct (split_on_nonempty " "%char (u ++ " " ++ rest)%string)
        as [h [r E]].
      rewrite E in IH |- *. simpl in IH |- *. rewrite IH. reflexivity. }
    rewrite (Hs t Ht). reflexivity.
  - intros header cookie Hh. unfold extractToken. cbn [authorization].
    assert (E : andb (Adapter.truthy_str header)
                     (startsWith (str_or header EmptyString) "Bearer ")
                = false).
    { destruct header as [[|c h]|]; [reflexivity | | reflexivity].
      cbn [Adapter.truthy_str str_or]. rewrite Hh. reflexivity. }
    rewrite E. cbn [cookie_token].
    destruct cookie as [[|c k]|]; reflexivity.
  - intros jwt_verify accounts cookie.
    reflexivity.
Qed.

End TokenFacts.

Section MiddlewareFacts.
Import AuthController AuthMiddleware.

Variable jwt_verify : string -> option Claims.
Variable save_accepts : Account -> bool.

Local Notation "'authenticate'" := (AuthMiddleware.authenticate jwt_verify).

Lemma authenticate_next accounts req u :
  authenticate accounts req = Next u ->
  exists token claims stored,
    extractToken req = Some token /\
    token <> EmptyString /\
    jwt_verify token = Some claims /\
    findById (cl_id claims) accounts = Some stored /\
    u = without_password stored /\
    acc_id stored = cl_id claims /\
    isActive stored = true.
Proof.
  unfold AuthMiddleware.authenticate, verifyToken.
  destruct (extractToken req) as [[|c t]|]; try discriminate.
  destruct (jwt_verify (String c t)) as [claims|] eqn:V; try discriminate.
  destruct (findById (cl_id claims) accounts) as [a|] eqn:F; try discriminate.
  cbn [option_map].
  change (isActive (without_password a)) with (isActive a).
  destruct (isActive a) eqn:A; try discriminate.
  cbn [negb]. intros H. injection H as <-.
  exists (String c t), claims, a.
  split; [reflexivity|]. split; [discriminate|].
  split; [exact V|]. split; [exact F|]. split; [reflexivity|].
  split; [|exact A].
  unfold findById in F. apply find_some in F. destruct F as [_ Hid].
  apply Nat.eqb_eq in Hid. exact Hid.
Qed.

Lemma authorize_passes roles u :
  authorize roles (Some u) = Next u <->
  (roles = [] \/ In (acc_role u) roles).
Proof.
  unfold authorize. destruct roles as [|r roles].
  - cbn. split; [left; reflexivity | reflexivity].
  - cbn [List.length Nat.eqb negb andb].
    destruct (existsb (String.eqb (acc_role u)) (r :: roles)) eqn:E.
    + cbn [negb]. split; [|reflexivity]. intros _. right.
      apply existsb_exists in E. destruct E as [x [Hin Hx]].
      apply String.eqb_eq in Hx. subst. exact Hin.
    + cbn [negb]. split; [discriminate|].
      intros [H|H]; [discriminate|]. exfalso.
      assert (E' : existsb (String.eqb (acc_role u)) (r :: roles) = true).
      { apply existsb_exists. exists (acc_role u).
        split; [exact H | apply String.eqb_refl]. }
      congruence.
Qed.

(** X25. [authenticate] lets a request pass only with a token that is not
    empty and verifies, for the account stored under the id of the token,
    which must be active; the account put on the request is the stored one.
    Of the token's payload only the id is read: two verifiers that agree on
    the ids give the same outcome, so the role that [authorize] then checks
    is the stored role, not the role written in the token, and a list of
    roles that is empty admits every account. *)
Theorem authenticate_uses_the_stored_account accounts req :
  (forall u,
     authenticate accounts req = Next u ->
     exists token claims stored,
       extractToken req = Some token /\ token <> EmptyString /\
       jwt_verify token = Some claims /\
       In stored accounts /\ acc_id stored = cl_id claims /\
       isActive stored = true /\
       u = without_password stored /\ acc_role u = acc_role stored) /\
  (forall jwt_verify',
     (forall t, option_map cl_id (jwt_verify' t)
                = option_map cl_id (jwt_verify t)) ->
     AuthMiddleware.authenticate jwt_verify' accounts req
     = authenticate accounts req) /\
  (forall u roles,
     authenticate accounts req = Next u ->
     (authorize roles (Some u) = Next u <->
      (roles = [] \/ In (acc_role u) roles)) /\
     (authorize roles (Some u) <> Next u ->
      authorize roles (Some u)
      = Respond 403 "Insufficient permissions to access this resource.")).
Proof.
  split; [|split].
  - intros u H. destruct (authenticate_next _ _ H)
      as (token & claims & stored & He & Hne & Hv & Hf & Hu & Hid & Ha).
    unfold findById in Hf. apply find_some in Hf. destruct Hf as [Hin _].
    exists token, claims, stored. subst u. repeat split; assumption.
  - intros jwt' Hagree. unfold AuthMiddleware.authenticate, verifyToken.
    destruct (extractToken req) as [[|c t]|]; try reflexivity.
    specialize (Hagree (String c t)).
    destruct (jwt' (String c t)) as [c1|], (jwt_verify (String c t)) as [c2|];
      try discriminate; [|reflexivity].
    cbn [option_map] in Hagree. injection Hagree as ->. reflexivity.
  - intros u roles _. split; [apply authorize_passes|].
    unfold authorize.
    destruct (andb _ _); [reflexivity | intros H; contradiction H; reflexivity].
Qed.

Lemma findById_replace a accounts x :
  findById (acc_id a) accounts = Some x ->
  findById (acc_id a) (AuthMiddleware.replace a accounts) = Some a.
Proof.
  unfold findById, AuthMiddleware.replace.
  induction accounts as [|y accounts IH]; simpl; [discriminate|].
  destruct (Nat.eqb (acc_id y) (acc_id a)) eqn:E.
  - intros _. rewrite Nat.eqb_refl. reflexivity.
  - rewrite E. exact IH.
Qed.

(** X26. Changes of status and role bind the tokens already issued. For a
    request that [authenticate] lets pass as account [u]: once
    [toggleUserStatus] has deactivated [u] (answer 200), the same request is
    answered 403 by [authenticate]; once [updateUserRole] has stored a new
    role for [u] (answer 200), the same request passes with that role on
    the request, so that after a change to [user] it fails
    [authorize(['admin'])], and after a change to [admin] it passes
    [ownershipOrAdmin] whatever the resource is, also when looking the
    resource up throws. Both handlers accept the requester's own id. *)
Theorem status_and_role_changes_bind_tokens accounts req u :
  authenticate accounts req = Next u ->
  (forall reply accounts',
     toggleUserStatus save_accepts (mkStatusReq (Some (acc_id u)) false)
                      accounts = (Ok reply, accounts') ->
     rp_code reply = 200 ->
     authenticate accounts' req
     = Respond 403 "Account has been deactivated. Please contact support.") /\
  (forall r reply accounts',
     updateUserRole save_accepts (mkRoleReq (Some (acc_id u)) (Some r))
                    accounts = (Ok reply, accounts') ->
     rp_code reply = 200 ->
     (r = "user" \/ r = "admin") /\
     authenticate accounts' req = Next (set_role u r) /\
     (r = "user" ->
      authorize ["admin"] (Some (set_role u r))
      = Respond 403 "Insufficient permissions to access this resource.") /\
     (r = "admin" ->
      forall getter,
        ownershipOrAdmin getter (Some (set_role u r)) = Next (set_role u r))).
Proof.
  intros Hpass.
  destruct (authenticate_next _ _ Hpass)
    as (token & claims & stored & He & Hne & Hv & Hf & Hu & Hid & Ha).
  assert (Hus : acc_id u = acc_id stored) by (subst u; reflexivity).
  assert (Hagain : forall a,
             acc_id a = acc_id stored ->
             authenticate (AuthMiddleware.replace a accounts) req
             = if negb (isActive a)
               then Respond 403
                      "Account has been deactivated. Please contact support."
               else Next (without_password a)).
  { intros a Hau. unfold AuthMiddleware.authenticate, verifyToken.
    rewrite He. destruct token as [|c t]; [contradiction Hne; reflexivity|].
    rewrite Hv, <- Hid, <- Hau.
    rewrite (@findById_replace a accounts stored).
    - reflexivity.
    - rewrite Hau, Hid. exact Hf. }
  rewrite <- Hid, <- Hus in Hf.
  split.
  - intros reply accounts'.
    unfold toggleUserStatus, try_catch, bind, save, ret.
    cbn [sr_userId sr_isActive]. rewrite Hf.
    destruct (save_accepts (set_isActive stored false)).
    + intros H _. injection H as _ <-.
      rewrite (Hagain (set_isActive stored false) eq_refl). reflexivity.
    + intros H Hc. injection H as <- _. discriminate Hc.
  - intros r reply accounts'.
    unfold updateUserRole, try_catch, bind, save, ret.
    cbn [rr_userId rr_role].
    destruct (orb _ _) eqn:Hbad.
    { intros H Hc. injection H as <- _. discriminate Hc. }
    apply orb_false_iff in Hbad. destruct Hbad as [Hne' Hin].
    apply negb_false_iff in Hin. cbn [existsb] in Hin.
    assert (Hr : str_or (Some r) EmptyString = r) by (destruct r; reflexivity).
    rewrite Hr in *. rewrite Hf.
    destruct (save_accepts (set_role stored r)).
    2: { intros H Hc. injection H as <- _. discriminate Hc. }
    intros H _. injection H as _ <-.
    assert (Hrole : r = "user" \/ r = "admin").
    { rewrite !orb_true_iff, !String.eqb_eq in Hin.
      destruct Hin as [H|[H|H]]; [left | right | discriminate]; exact H. }
    split; [exact Hrole|]. split.
    + rewrite (Hagain (set_role stored r) eq_refl).
      change (isActive (set_role stored r)) with (isActive stored).
      rewrite Ha, Hu. reflexivity.
    + split.
      * intros ->. reflexivity.
      * intros -> getter. reflexivity.
Qed.

(** X27. [DELETE /datasets/:id] behind [authenticate]. The request changes
    the collection only when it carries a token that verifies, for an
    active account, and that account is the creator of the dataset named by
    the id; whenever [authenticate] answers, the handler is not reached and
    nothing changes. *)
Theorem delete_route_needs_the_creator accounts req id w :
  let route :=
    dataset_route jwt_verify accounts req
                  (fun user => DatasetController.deleteDataset user id) w in
  snd route <> w ->
  exists token claims stored d,
    extractToken req = Some token /\
    jwt_verify token = Some claims /\
    findById (cl_id claims) accounts = Some stored /\
    isActive stored = true /\
    DatasetControllerMore.findById id (DatasetController.datasets w)
      = Some d /\
    DatasetController.ds_creator d = cl_id claims /\
    fst route
    = ByHandler (Ok (DatasetController.mkResponse 200 true
                       "Dataset deleted successfully"
                       DatasetController.NoPayload)).
Proof.
  intros route Hchg. unfold route, dataset_route in *.
  destruct (AuthMiddleware.authenticate jwt_verify accounts req)
    as [u|c m] eqn:Hpass; [|contradiction Hchg; reflexivity].
  destruct (authenticate_next _ _ Hpass)
    as (token & claims & stored & He & Hne & Hv & Hf & Hu & Hids & Ha).
  assert (Hid : acc_id u = cl_id claims) by (subst u; exact Hids).
  revert Hchg.
  unfold DatasetController.deleteDataset, try_catch,
    DatasetControllerMore.findById.
  destruct (find _ (DatasetController.datasets w)) as [d|] eqn:F;
    [|intros Hchg; contradiction Hchg; reflexivity].
  destruct (Nat.eqb_spec (DatasetController.ds_creator d) (acc_id u))
    as [Hc|Hc]; cbn [negb];
    [|intros Hchg; contradiction Hchg; reflexivity].
  intros _. exists token, claims, stored, d.
  repeat split; try assumption. congruence.
Qed.

End MiddlewareFacts.

(** The administrator deactivates the administrator's own account: the
    token no longer passes. *)
Lemma status_and_role_changes_bind_tokens_witness :
  AuthMiddleware.authenticate AuthDouble.verify
    (AuthMiddleware.replace
       (AuthMiddleware.set_isActive AuthDouble.ana false)
       AuthDouble.accounts)
    AuthDouble.by_ana
  = AuthMiddleware.Respond 403
      "Account has been deactivated. Please contact support.".
Proof.
  exact (proj1 (@status_and_role_changes_bind_tokens AuthDouble.verify
                  (fun _ => true) AuthDouble.accounts AuthDouble.by_ana
                  (AuthMiddleware.without_password AuthDouble.ana) eq_refl)
               _ _ eq_refl eq_refl).
Defined.

(** Account 2 deletes its dataset [sales], with its token in the cookie. *)
Lemma delete_route_needs_the_creator_witness :
  exists d,
    DatasetControllerMore.findById 0
      (DatasetController.datasets AuthDouble.with_sales) = Some d /\
    DatasetController.ds_creator d = 2.
Proof.
  assert (Hchg : snd (AuthMiddleware.dataset_route AuthDouble.verify
                        AuthDouble.accounts AuthDouble.by_cy
                        (fun user => DatasetController.deleteDataset user 0)
                        AuthDouble.with_sales)
                 <> AuthDouble.with_sales).
  { vm_compute. discriminate. }
  destruct (@delete_route_needs_the_creator AuthDouble.verify
              AuthDouble.accounts AuthDouble.by_cy 0 AuthDouble.with_sales
              Hchg)
    as (token & claims & u & d & He & Hv & Hf & Ha & Hd & Hc & _).
  exists d. split; [exact Hd|].
  rewrite Hc. vm_compute in He. injection He as <-.
  vm_compute in Hv. injection Hv as <-. reflexivity.
Defined.

Section LoginFacts.
Import AuthController AuthMiddleware.

Variable jwt_verify : string -> option Claims.
Variable jwt_sign : Claims -> string.
Variable save_accepts : Account -> bool.
Variable findByUsernameOrEmail : list Account -> string -> option Account.
Variable comparePassword : Account -> string -> bool.

Local Notation "'login'" :=
  (AuthMiddleware.login save_accepts jwt_sign findByUsernameOrEmail
                        comparePassword).

Lemma findById_replace_other a accounts id :
  id <> acc_id a ->
  findById id (AuthMiddleware.replace a accounts) = findById id accounts.
Proof.
  intros Hne. unfold findById, AuthMiddleware.replace.
  induction accounts as [|y accounts IH]; simpl; [reflexivity|].
  destruct (Nat.eqb_spec (acc_id y) (acc_id a)) as [E|E].
  - destruct (Nat.eqb_spec (acc_id a) id) as [E1|E1]; [congruence|].
    destruct (Nat.eqb_spec (acc_id y) id) as [E2|E2]; [congruence|].
    exact IH.
  - destruct (Nat.eqb (acc_id y) id); [reflexivity | exact IH].
Qed.

(** X28. [login] and [authenticate] together, when a token signed for a
    stored account verifies with the payload that was signed, and the lookup
    by name returns stored documents. A login that is not answered 200
    issues no token and changes no account. A login that is answered 200 is
    for an active account; it stores the time of the login on that account
    and on no other, and the token it returns, presented afterwards in the
    cookie, or in the [Authorization] header after [Bearer ] when it holds
    no space, passes [authenticate] as that account. *)
Theorem login_token_authenticates now req accounts reply accounts' :
  (forall u, In u accounts ->
             jwt_verify (jwt_sign (claims_of u)) = Some (claims_of u)) ->
  (forall key u,
     findByUsernameOrEmail accounts key = Some u ->
     In u accounts /\ findById (acc_id u) accounts = Some u) ->
  login now req accounts = (Ok reply, accounts') ->
  (lr_code reply <> 200 -> accounts' = accounts /\ lr_token reply = None) /\
  (lr_code reply = 200 ->
   exists token stored,
     lr_token reply = Some token /\
     lr_user reply = Some (without_password stored) /\
     findById (acc_id stored) accounts' = Some stored /\
     isActive stored = true /\
     lastLogin stored = Some now /\
     (forall id, id <> acc_id stored ->
                 findById id accounts' = findById id accounts) /\
     (token <> EmptyString ->
      AuthMiddleware.authenticate jwt_verify accounts'
        (mkReq None (Some token))
      = Next (without_password stored)) /\
     (token <> EmptyString ->
      forallb (fun a => negb (Ascii.eqb a " "%char))
              (list_ascii_of_string token) = true ->
      forall cookie,
        AuthMiddleware.authenticate jwt_verify accounts'
          (mkReq (Some ("Bearer " ++ token)%string) cookie)
        = Next (without_password stored))).
Proof.
  intros fresh_token_verifies lookup_is_stored.
  unfold AuthMiddleware.login, try_catch, bind, save, ret, generateToken.
  destruct (orb _ _).
  { intros H. injection H as <- <-. split; [split; reflexivity|].
    intros H. discriminate H. }
  destruct (findByUsernameOrEmail accounts _) as [u|] eqn:F.
  2: { intros H. injection H as <- <-. split; [split; reflexivity|].
       intros H. discriminate H. }
  destruct (isActive u) eqn:A; cbn [negb].
  2: { intros H. injection H as <- <-. split; [split; reflexivity|].
       intros H. discriminate H. }
  destruct (comparePassword u _); cbn [negb].
  2: { intros H. injection H as <- <-. split; [split; reflexivity|].
       intros H. discriminate H. }
  destruct (save_accepts (set_lastLogin u now)).
  2: { intros H. injection H as <- <-. split; [split; reflexivity|].
       intros H. discriminate H. }
  intros H. injection H as <- <-.
  split; [intros H; contradiction H; reflexivity|]. intros _.
  set (u' := set_lastLogin u now).
  assert (Hstored : findById (acc_id u') (AuthMiddleware.replace u' accounts)
                    = Some u').
  { apply (@findById_replace u' accounts u).
    exact (proj2 (lookup_is_stored _ _ F)). }
  assert (Hpass : forall r,
             extractToken r = Some (jwt_sign (claims_of u')) ->
             jwt_sign (claims_of u') <> EmptyString ->
             AuthMiddleware.authenticate jwt_verify
               (AuthMiddleware.replace u' accounts) r
             = Next (without_password u')).
  { intros r Hr Hne. unfold AuthMiddleware.authenticate, verifyToken.
    rewrite Hr. destruct (jwt_sign (claims_of u')) as [|c t] eqn:Ht;
      [contradiction Hne; reflexivity|].
    rewrite <- Ht.
    change (claims_of u') with (claims_of u).
    rewrite (fresh_token_verifies _ (proj1 (lookup_is_stored _ _ F))).
    change (cl_id (claims_of u)) with (acc_id u').
    rewrite Hstored. cbn [option_map].
    change (isActive (without_password u')) with (isActive u).
    rewrite A. reflexivity. }
  exists (jwt_sign (claims_of u')), u'.
  split; [reflexivity|]. split; [reflexivity|]. split; [exact Hstored|].
  split; [exact A|]. split; [reflexivity|]. split; [|split].
  - intros id Hid. apply findById_replace_other. exact Hid.
  - intros Hne. apply Hpass; [|exact Hne].
    unfold extractToken. cbn [authorization cookie_token Adapter.truthy_str
                                andb].
    destruct (jwt_sign (claims_of u')); [contradiction Hne|]; reflexivity.
  - intros Hne Hsp cookie. apply Hpass; [|exact Hne].
    rewrite extract_bearer, (split_on_no_separator _ _ Hsp). reflexivity.
Qed.

End LoginFacts.

Lemma double_tokens_verify :
  forall u, In u AuthDouble.accounts ->
            AuthDouble.verify (AuthDouble.sign (AuthMiddleware.claims_of u))
            = Some (AuthMiddleware.claims_of u).
Proof.
  intros u [<-|[<-|[<-|[]]]]; reflexivity.
Qed.

Lemma double_lookup_is_stored :
  forall key u,
    AuthDouble.by_name AuthDouble.accounts key = Some u ->
    In u AuthDouble.accounts /\
    AuthMiddleware.findById (AuthMiddleware.acc_id u) AuthDouble.accounts
    = Some u.
Proof.
  intros key u H. unfold AuthDouble.by_name in H. apply find_some in H.
  destruct H as [Hin _]. split; [exact Hin|].
  destruct Hin as [<-|[<-|[<-|[]]]]; reflexivity.
Qed.

(** Account 2 logs in at time 7; the token goes into the cookie. *)
Lemma login_token_authenticates_witness :
  let after_login :=
    snd (AuthMiddleware.login (fun _ => true) AuthDouble.sign
           AuthDouble.by_name (fun _ p => String.eqb p "secret") 7
           (AuthMiddleware.mkLoginReq (Some "cy") (Some "secret"))
           AuthDouble.accounts) in
  exists token stored,
    AuthMiddleware.lastLogin stored = Some 7 /\
    AuthMiddleware.authenticate AuthDouble.verify after_login
      (AuthMiddleware.mkReq None (Some token))
    = AuthMiddleware.Next (AuthMiddleware.without_password stored).
Proof.
  intros after_login.
  destruct (proj2 (@login_token_authenticates
                     AuthDouble.verify AuthDouble.sign (fun _ => true)
                     AuthDouble.by_name (fun _ p => String.eqb p "secret")
                     7 (AuthMiddleware.mkLoginReq (Some "cy") (Some "secret"))
                     AuthDouble.accounts _ _
                     double_tokens_verify double_lookup_is_stored eq_refl)
                  eq_refl)
    as (token & stored & Ht & _ & _ & _ & Hl & _ & Hcookie & _).
  exists token, stored. split; [exact Hl|].
  apply Hcookie. vm_compute in Ht. injection Ht as <-. discriminate.
Defined.
